(** * Chimera 1.3: session / prompt-policy engine and generation pipeline

    A shallow embedding of [actors/user_session_actor.py],
    [actors/generation_actor.py], [actors/messages.py] and
    [actors/events/base_event.py].

    Conventions of the embedding.
    - A Python [int] is a [Z]; a Python [float] is a binary64 [float]
      (the kernel's primitive floats), so [+], [/] and [<] on floats round
      as in CPython; [/] on two [int]s is the exact quotient rounded once.
    - An [async def] that runs to completion before the next message is
      taken is a computation in the state-and-exception monad [M]: a raised
      exception keeps the state reached so far, as in Python.
    - Everything an actor does to the outside world (appending an event,
      sending a message through the actor system, logging, handing a request
      to the circuit breaker) is recorded, in order, in the [trace] of the
      actor's state.
    - Wall-clock values ([datetime.now()]) and fresh identifiers
      ([uuid.uuid4()]) are not modelled: the fields that hold them are left
      out of the records.
    - The text of a log line is not modelled.  The average that
      [_log_cache_metrics] formats into its periodic line is therefore not
      computed: of the division [total / count] the model keeps the
      [ZeroDivisionError] of a zero count, not the [OverflowError] of a
      count of [2^1024 - 2^970] or more, which the counter (one more per
      backend call) does not reach. *)

From Stdlib Require Import ZArith Floats.
From stdpp Require Import base option list strings gmap.

Local Open Scope Z_scope.

(** ** Python values *)

(** The values a payload slot typed [Any] or [json.loads] can hold. *)
#[warnings="-register-all"]
Inductive pyval : Type :=
| PNone
| PBool (b : bool)
| PInt (z : Z)
| PFloat (f : float)
| PStr (s : string)
| PList (l : list pyval)
| PDict (items : list (string * pyval)).

(** [k in d] and [d[k]] on the items of a [dict] (keys are unique there). *)
Fixpoint dict_get (k : string) (items : list (string * pyval)) : option pyval :=
  match items with
  | [] => None
  | (k', v) :: rest => if String.eqb k k' then Some v else dict_get k rest
  end.

(** [l[-n:]]: the last [n] elements, the whole list when it is shorter. *)
Definition py_last {A : Type} (n : nat) (l : list A) : list A :=
  drop (length l - n) l.

(** [sum(l)] on a list of floats: the accumulator starts at the int [0],
    which the first addition converts to [0.0]. *)
Definition py_sum (l : list float) : float :=
  foldl PrimFloat.add 0%float l.

(** ** Exceptions *)

Inductive exn_class : Type :=
| JSONDecodeError
| ValueError
| KeyError
| TypeError
| ZeroDivisionError
| UnboundLocalError
| OverflowError
| CircuitBreakerError
| APIError.

(** An exception object: its class and [str(e)]. *)
Record exn : Type := Exn { exn_cls : exn_class; exn_str : string }.

Definition is_JSONDecodeError (e : exn) : bool :=
  match exn_cls e with JSONDecodeError => true | _ => false end.

Inductive outcome (A : Type) : Type :=
| Return (a : A)
| Raise (e : exn).
Arguments Return {A} a.
Arguments Raise {A} e.

(** ** True division of two [int]s *)

(** An [int] as a binary number of unbounded precision: its digits are
    the mantissa, the exponent is 0. *)
Definition int_as_spec_float (z : Z) : spec_float :=
  match z with
  | Z0 => S754_zero false
  | Zpos p => S754_finite false p 0
  | Zneg p => S754_finite true p 0
  end.

(** The binary64 number nearest to the exact quotient [a / b], ties to
    even, for [b <> 0]: the quotient is computed on the integers and
    rounded once, to a subnormal number or to zero where it must. *)
Definition nearest_binary64 (a b : Z) : float :=
  SF2Prim (SFdiv prec emax (int_as_spec_float a) (int_as_spec_float b)).

(** The least magnitude that rounds out of the range of binary64: half an
    ulp above the largest finite number [2^1024 - 2^971]. *)
Definition float_overflow : Z := 2 ^ 1024 - 2 ^ 970.

(** [a / b] on two [int]s (CPython's [long_true_divide]): the exact
    quotient rounded once, whatever the size of the operands. *)
Definition py_truediv (a b : Z) : outcome float :=
  if b =? 0 then Raise (Exn ZeroDivisionError "division by zero")
  else if float_overflow * Z.abs b <=? Z.abs a then
    Raise (Exn OverflowError "integer division result too large for a float")
  else Return (nearest_binary64 a b).

(** ** The state-and-exception monad *)

Definition M (S A : Type) : Type := S -> outcome A * S.

Definition ret {S A : Type} (a : A) : M S A := fun st => (Return a, st).

Definition raise {S A : Type} (e : exn) : M S A := fun st => (Raise e, st).

Definition bind {S A B : Type} (c : M S A) (k : A -> M S B) : M S B :=
  fun st =>
    match c st with
    | (Return a, st') => k a st'
    | (Raise e, st') => (Raise e, st')
    end.

Definition get {S : Type} : M S S := fun st => (Return st, st).

Definition modify {S : Type} (f : S -> S) : M S unit := fun st => (Return tt, f st).

(** [try: body except <handled> as e: handler e]. *)
Definition try_except {S A : Type} (body : M S A) (handled : exn -> bool)
    (handler : exn -> M S A) : M S A :=
  fun st =>
    match body st with
    | (Return a, st') => (Return a, st')
    | (Raise e, st') => if handled e then handler e st' else (Raise e, st')
    end.

(** A pure step that may raise. *)
Definition lift {S A : Type} (o : outcome A) : M S A := fun st => (o, st).

Definition when {S : Type} (b : bool) (c : M S unit) : M S unit :=
  if b then c else ret tt.

Declare Scope py_scope.
Delimit Scope py_scope with py.
Notation "x <- c ;; k" := (bind c (fun x => k))
  (at level 100, c at next level, right associativity) : py_scope.
Notation "c ;; k" := (bind c (fun _ => k))
  (at level 100, right associativity) : py_scope.
Local Open Scope py_scope.

(** [d[k]] on a payload slot: [KeyError] when the key is absent. *)
Definition subscript {S A : Type} (key : string) (slot : option A) : M S A :=
  match slot with
  | Some v => ret v
  | None => raise (Exn KeyError ("'" +:+ key +:+ "'"))
  end.

(** [a % b] on [int]s: the sign follows the divisor, as [Z.modulo] does. *)
Definition py_mod (a b : Z) : outcome Z :=
  if b =? 0 then Raise (Exn ZeroDivisionError "integer modulo by zero")
  else Return (a mod b).

(** ** Messages ([actors/messages.py]) *)

Inductive MessageType : Type :=
| PING | PONG | ERROR | SHUTDOWN
| DLQ_QUEUED | DLQ_PROCESSED | DLQ_CLEANUP
| USER_MESSAGE | GENERATE_RESPONSE | BOT_RESPONSE | STREAMING_CHUNK
| SESSION_CREATED | SESSION_UPDATED | CACHE_HIT_METRIC
| PROMPT_INCLUSION | JSON_MODE_FAILURE
| TELEGRAM_MESSAGE_RECEIVED | PROCESS_USER_MESSAGE | SEND_TELEGRAM_RESPONSE.

#[global] Instance MessageType_eq_dec : EqDecision MessageType.
Proof. solve_decision. Defined.

(** The payload dict, one slot per key the two actors read or write; [None]
    is an absent key.  [user_id] is a [str] (the session map is keyed by
    it), [text] and [chat_id] are passed through untouched. *)
Record Payload : Type := {
  p_user_id : option string;
  p_username : option string;
  p_chat_id : option pyval;
  p_text : option pyval;
  p_include_prompt : option bool;
  p_message_count : option Z;
  p_session_data : option (option string);
  p_cache_hit_rate : option float;
  p_error : option string;
  p_error_type : option string
}.

Definition empty_payload : Payload :=
  {| p_user_id := None; p_username := None; p_chat_id := None; p_text := None;
     p_include_prompt := None; p_message_count := None; p_session_data := None;
     p_cache_hit_rate := None; p_error := None; p_error_type := None |}.

Record ActorMessage : Type := {
  sender_id : option string;
  message_type : MessageType;
  payload : Payload
}.

(** [ActorMessage.create] *)
Definition ActorMessage_create (sender : option string) (ty : MessageType)
    (p : Payload) : ActorMessage :=
  {| sender_id := sender; message_type := ty; payload := p |}.

(** ** Events ([actors/events/base_event.py]) *)

(** The reason string of a prompt inclusion, before formatting. *)
Inductive PromptReason : Type :=
| always_strategy
| periodic_interval (N : Z)
| low_cache_hit_rate (avg : float)
| adaptive_periodic
| unknown.

(** The [data] dict of the four events the actors create. *)
Inductive EventData : Type :=
| SessionCreatedData (user_id : string) (username : option string)
| PromptInclusionData (user_id : string) (message_count : Z)
    (strategy : string) (reason : PromptReason)
| CacheHitMetricData (prompt_cache_hit_tokens prompt_cache_miss_tokens : Z)
    (cache_hit_rate : float)
| JSONModeFailureData (user_id : string) (error : string).

Record BaseEvent : Type := {
  stream_id : string;
  event_type : string;
  data : EventData;
  version : Z;
  correlation_id : option string
}.

(** [BaseEvent.create(stream_id, event_type, data)] *)
Definition BaseEvent_create (sid ty : string) (d : EventData) : BaseEvent :=
  {| stream_id := sid; event_type := ty; data := d; version := 0;
     correlation_id := None |}.

(** ** The backend request and its streamed reply *)

Record ContextEntry : Type := { role : string; content : pyval }.

(** The keyword arguments of [chat.completions.create] that vary between
    calls: the message sequence and whether [response_format] is set to
    [json_object]. *)
Record ApiRequest : Type := {
  req_messages : list ContextEntry;
  req_json_object : bool
}.

(** [chunk.usage], with [getattr(..., 0)] for a missing counter.  The
    counters are numbers of tokens. *)
Record Usage : Type := {
  prompt_cache_hit_tokens : option N;
  prompt_cache_miss_tokens : option N
}.

(** A streamed chunk: [chunk.choices[0].delta.content] and [chunk.usage]. *)
Record Chunk : Type := {
  delta_content : option string;
  usage : option Usage
}.

(** ** Observable effects *)

Inductive LogLevel : Type := DEBUG | INFO | WARNING | LOG_ERROR.

Inductive Effect : Type :=
| AppendEvent (e : BaseEvent)
| SendMessage (target : string) (m : ActorMessage)
| ApiCall (req : ApiRequest)
| Log (lvl : LogLevel).

Definition is_event_of_type (ty : string) (eff : Effect) : bool :=
  match eff with
  | AppendEvent e => String.eqb (event_type e) ty
  | _ => false
  end.

Definition is_send (eff : Effect) : bool :=
  match eff with SendMessage _ _ => true | _ => false end.

Definition is_api_call (eff : Effect) : bool :=
  match eff with ApiCall _ => true | _ => false end.

Definition is_append (eff : Effect) : bool :=
  match eff with AppendEvent _ => true | _ => false end.

(** How many effects of a trace satisfy a test. *)
Definition count (p : Effect -> bool) (t : list Effect) : nat :=
  length (filter (fun eff => p eff = true) t).
Arguments count : simpl never.

(** The events appended, the messages sent and the requests handed to the
    circuit breaker along a trace, in order. *)
Definition events_of (t : list Effect) : list BaseEvent :=
  omap (fun eff => match eff with AppendEvent e => Some e | _ => None end) t.

Definition sent (t : list Effect) : list (string * ActorMessage) :=
  omap (fun eff => match eff with SendMessage to m => Some (to, m) | _ => None end) t.

Definition api_calls (t : list Effect) : list ApiRequest :=
  omap (fun eff => match eff with ApiCall r => Some r | _ => None end) t.

(** ** Configuration

    [config/prompts.py] and [config/settings.py] are read by both actors
    but define no behaviour of their own; the tables are parameters of the
    development. *)

(** The keys of [PROMPT_CONFIG] the two actors read. *)
Record PromptConfig : Type := {
  use_json_mode : bool;
  json_fallback_enabled : bool;
  prompt_strategy : string;
  enable_periodic_prompt : bool;
  system_prompt_interval : Z;
  cache_hit_threshold : float
}.

(** * The session and prompt-policy engine ([actors/user_session_actor.py]) *)

Module UserSessionActor.

(** [class UserSession] *)
Record UserSession : Type := {
  user_id : string;
  username : option string;
  message_count : Z;
  cache_metrics : list float;
  emotional_state : pyval;
  style_vector : pyval;
  memory_buffer : list pyval
}.

(** [UserSession.__init__] *)
Definition UserSession_init (uid : string) (uname : option string) : UserSession :=
  {| user_id := uid; username := uname; message_count := 0;
     cache_metrics := []; emotional_state := PNone; style_vector := PNone;
     memory_buffer := [] |}.

Definition set_message_count (n : Z) (s : UserSession) : UserSession :=
  {| user_id := user_id s; username := username s; message_count := n;
     cache_metrics := cache_metrics s; emotional_state := emotional_state s;
     style_vector := style_vector s; memory_buffer := memory_buffer s |}.

Definition set_cache_metrics (h : list float) (s : UserSession) : UserSession :=
  {| user_id := user_id s; username := username s;
     message_count := message_count s; cache_metrics := h;
     emotional_state := emotional_state s; style_vector := style_vector s;
     memory_buffer := memory_buffer s |}.

(** The actor object: its session dict, whether it is attached to an actor
    system ([get_actor_system()] is truthy), and what it has done so far. *)
Record Actor : Type := {
  sessions : gmap string UserSession;
  actor_system : bool;
  trace : list Effect
}.

Definition set_sessions (f : gmap string UserSession -> gmap string UserSession)
    (a : Actor) : Actor :=
  {| sessions := f (sessions a); actor_system := actor_system a; trace := trace a |}.

Definition emit (eff : Effect) (a : Actor) : Actor :=
  {| sessions := sessions a; actor_system := actor_system a;
     trace := trace a ++ [eff] |}.

Definition actor_id : string := "user_session".

(** [UserSessionActor.__init__], registered or not with an actor system. *)
Definition init (attached : bool) : Actor :=
  {| sessions := ∅; actor_system := attached; trace := [] |}.

Definition log (lvl : LogLevel) : M Actor unit := modify (emit (Log lvl)).

(** Modelled from the spec: [EventVersionManager.append_event]
    ([utils/event_utils.py] is not part of the sources).  The event emission
    helper is a thin sequencing wrapper that appends the event to the log
    through the external event store; it sends no message. *)
Definition _append_event (e : BaseEvent) : M Actor unit :=
  modify (emit (AppendEvent e)).

(** [ActorSystem.send_message(target, message)] *)
Definition send_message (target : string) (m : ActorMessage) : M Actor unit :=
  modify (emit (SendMessage target m)).

Section Policy.

Variable PROMPT_CONFIG : PromptConfig.

(** The mean the adaptive branch computes: [sum(cache_metrics[-5:]) / 5]. *)
Definition avg_cache_hit (h : list float) : float :=
  PrimFloat.div (py_sum (py_last 5 h)) 5%float.

Definition _should_include_prompt (session : UserSession) : outcome bool :=
  let strategy := prompt_strategy PROMPT_CONFIG in
  if negb (enable_periodic_prompt PROMPT_CONFIG) then Return true
  else if String.eqb strategy "always" then Return true
  else if String.eqb strategy "periodic" then
    let interval := system_prompt_interval PROMPT_CONFIG in
    match py_mod (message_count session) interval with
    | Raise e => Raise e
    | Return r => Return (r =? 1)
    end
  else if String.eqb strategy "adaptive" then
    match py_mod (message_count session) (system_prompt_interval PROMPT_CONFIG) with
    | Raise e => Raise e
    | Return r =>
      if r =? 1 then Return true
      else if (5 <=? length (cache_metrics session))%nat
              && PrimFloat.ltb (avg_cache_hit (cache_metrics session))
                               (cache_hit_threshold PROMPT_CONFIG)
      then Return true
      else Return false
    end
  else Return false.

Definition _get_prompt_reason (session : UserSession) : PromptReason :=
  let strategy := prompt_strategy PROMPT_CONFIG in
  if String.eqb strategy "always" then always_strategy
  else if String.eqb strategy "periodic" then
    periodic_interval (system_prompt_interval PROMPT_CONFIG)
  else if String.eqb strategy "adaptive" then
    if (5 <=? length (cache_metrics session))%nat
       && PrimFloat.ltb (avg_cache_hit (cache_metrics session))
                        (cache_hit_threshold PROMPT_CONFIG)
    then low_cache_hit_rate (avg_cache_hit (cache_metrics session))
    else adaptive_periodic
  else unknown.

(** Looks the session up, creating it (and emitting [SessionCreatedEvent])
    when the user id is not a key of the dict.  The Python method returns
    the stored object itself; the callers below reach it through its key. *)
Definition _get_or_create_session (uid : string) (uname : option string)
    : M Actor unit :=
  a <- get ;;
  match sessions a !! uid with
  | None =>
    modify (set_sessions (insert uid (UserSession_init uid uname))) ;;
    _append_event (BaseEvent_create ("user_" +:+ uid) "SessionCreatedEvent"
                     (SessionCreatedData uid uname)) ;;
    log INFO
  | Some _ => ret tt
  end.

(** [self._sessions[user_id]] after [_get_or_create_session]: always bound. *)
Definition the_session (uid : string) (a : Actor) : UserSession :=
  default (UserSession_init uid None) (sessions a !! uid).

Definition _handle_user_message (message : ActorMessage) : M Actor ActorMessage :=
  uid <- subscript "user_id" (p_user_id (payload message)) ;;
  let uname := p_username (payload message) in
  text <- subscript "text" (p_text (payload message)) ;;
  chat_id <- subscript "chat_id" (p_chat_id (payload message)) ;;
  _get_or_create_session uid uname ;;
  (* session.message_count += 1 on the stored object *)
  modify (set_sessions
            (alter (fun s => set_message_count (message_count s + 1) s) uid)) ;;
  a <- get ;;
  let session := the_session uid a in
  include_prompt <- lift (_should_include_prompt session) ;;
  when include_prompt
    (_append_event
       (BaseEvent_create ("user_" +:+ uid) "PromptInclusionEvent"
          (PromptInclusionData uid (message_count session)
             (prompt_strategy PROMPT_CONFIG) (_get_prompt_reason session)))) ;;
  let generate_msg :=
    ActorMessage_create (Some actor_id) GENERATE_RESPONSE
      {| p_user_id := Some uid; p_username := None; p_chat_id := Some chat_id;
         p_text := Some text; p_include_prompt := Some include_prompt;
         p_message_count := Some (message_count session);
         p_session_data := Some (username session);
         p_cache_hit_rate := None; p_error := None; p_error_type := None |} in
  log INFO ;;
  ret generate_msg.

(** [cache_metrics.append(rate)], then the cut to the last 20. *)
Definition push_metric (rate : float) (h : list float) : list float :=
  let h' := h ++ [rate] in
  if (20 <? length h')%nat then py_last 20 h' else h'.

Definition _update_cache_metrics (message : ActorMessage) : M Actor unit :=
  match p_user_id (payload message) with
  | None => ret tt
  | Some uid =>
    a <- get ;;
    if String.eqb uid EmptyString || negb (bool_decide (is_Some (sessions a !! uid)))
    then ret tt
    else
      let cache_hit_rate :=
        default 0%float (p_cache_hit_rate (payload message)) in
      modify (set_sessions
                (alter (fun s => set_cache_metrics
                                   (push_metric cache_hit_rate (cache_metrics s)) s)
                       uid))
  end.

Definition handle_message (message : ActorMessage) : M Actor unit :=
  match message_type message with
  | USER_MESSAGE =>
    generate_msg <- _handle_user_message message ;;
    a <- get ;;
    when (actor_system a) (send_message "generation" generate_msg)
  | CACHE_HIT_METRIC => _update_cache_metrics message
  | _ => ret tt
  end.

(** Modelled from the spec: the message loop of the actor runtime
    ([actors/base_actor.py] is not part of the sources).  The engine
    processes one message at a time to completion before accepting the
    next, and no failure of a handler is fatal: an exception that leaves
    [handle_message] is reported by the runtime and the loop goes on with
    the state the handler left. *)
Definition run (messages : list ActorMessage) (a : Actor) : Actor :=
  foldl (fun a m => snd (handle_message m a)) a messages.

End Policy.

(** ** The policy in the words of the specification *)

(** The mean of the last five recorded cache-hit ratios, oldest first;
    [None] while fewer than five are recorded. *)
Definition mean_of_last_5 (h : list float) : option float :=
  match rev h with
  | e :: d :: c :: b :: a :: _ =>
    Some (PrimFloat.div
            (PrimFloat.add (PrimFloat.add (PrimFloat.add (PrimFloat.add
               (PrimFloat.add 0%float a) b) c) d) e)
            5%float)
  | _ => None
  end.

(** The decision table of the specification, for message counter [m] and
    history [h]: switch off, then [always], then [periodic], then
    [adaptive], else no prompt. *)
Definition prompt_inclusion_decision (cfg : PromptConfig) (m : Z) (h : list float)
    : bool :=
  if negb (enable_periodic_prompt cfg) then true
  else if String.eqb (prompt_strategy cfg) "always" then true
  else if String.eqb (prompt_strategy cfg) "periodic" then
    m mod system_prompt_interval cfg =? 1
  else if String.eqb (prompt_strategy cfg) "adaptive" then
    (m mod system_prompt_interval cfg =? 1)
    || match mean_of_last_5 h with
       | Some mean => PrimFloat.ltb mean (cache_hit_threshold cfg)
       | None => false
       end
  else false.

(** ** Observations on the actor *)

(** A user turn of [u]: a [user_message] whose payload carries [u] as user
    id, a text and a chat id. *)
Definition is_turn_of (u : string) (m : ActorMessage) : bool :=
  bool_decide (message_type m = USER_MESSAGE)
  && bool_decide (p_user_id (payload m) = Some u)
  && bool_decide (is_Some (p_text (payload m)))
  && bool_decide (is_Some (p_chat_id (payload m))).

Definition turns_of (u : string) (msgs : list ActorMessage) : nat :=
  length (filter (fun m => is_turn_of u m = true) msgs).

(** A [SessionCreatedEvent] on the stream of user [u]. *)
Definition is_session_created_for (u : string) (eff : Effect) : bool :=
  match eff with
  | AppendEvent e =>
    String.eqb (event_type e) "SessionCreatedEvent"
    && String.eqb (stream_id e) ("user_" +:+ u)
  | _ => false
  end.

Definition has_session (u : string) (a : Actor) : bool :=
  bool_decide (is_Some (sessions a !! u)).

(** The message counter of [u]'s session ([0] before it exists). *)
Definition counter_of (u : string) (a : Actor) : Z :=
  from_option message_count 0 (sessions a !! u).

(** The rolling cache-hit history of [u]'s session. *)
Definition history_of (u : string) (a : Actor) : list float :=
  from_option cache_metrics [] (sessions a !! u).

Definition history_bounded (a : Actor) : Prop :=
  forall u s, sessions a !! u = Some s -> (length (cache_metrics s) <= 20)%nat.

(** A cache-metric message that names user [u], and the ratio it brings. *)
Definition is_metric_for (u : string) (m : ActorMessage) : bool :=
  bool_decide (message_type m = CACHE_HIT_METRIC)
  && bool_decide (p_user_id (payload m) = Some u).

Definition metric_rate (m : ActorMessage) : float :=
  default 0%float (p_cache_hit_rate (payload m)).

Definition metrics_for (u : string) (msgs : list ActorMessage) : list float :=
  map metric_rate (filter (fun m => is_metric_for u m = true) msgs).

(** What handling one message does to the session dict. *)
Definition sessions_step (m : ActorMessage) (ss : gmap string UserSession)
    : gmap string UserSession :=
  match message_type m with
  | USER_MESSAGE =>
    match p_user_id (payload m), p_text (payload m), p_chat_id (payload m) with
    | Some uid, Some _, Some _ =>
      alter (fun s => set_message_count (message_count s + 1) s) uid
        (match ss !! uid with
         | None => <[uid := UserSession_init uid (p_username (payload m))]> ss
         | Some _ => ss
         end)
    | _, _, _ => ss
    end
  | CACHE_HIT_METRIC =>
    match p_user_id (payload m) with
    | Some uid =>
      if String.eqb uid EmptyString || negb (bool_decide (is_Some (ss !! uid)))
      then ss
      else alter (fun s => set_cache_metrics
                     (push_metric (default 0%float (p_cache_hit_rate (payload m)))
                        (cache_metrics s)) s) uid ss
    | None => ss
    end
  | _ => ss
  end.

(** ** The rest of the actor *)

(** [initialize] *)
Definition initialize : M Actor unit := log INFO.

(** [shutdown]: the session dict is cleared, then one log line. *)
Definition shutdown : M Actor unit :=
  modify (set_sessions (fun _ => ∅)) ;;
  log INFO.

(** The two events of a user turn. *)
Definition created_event (uid : string) (uname : option string) : BaseEvent :=
  BaseEvent_create ("user_" +:+ uid) "SessionCreatedEvent"
    (SessionCreatedData uid uname).

Definition prompt_event (cfg : PromptConfig) (uid : string) (session : UserSession)
    : BaseEvent :=
  BaseEvent_create ("user_" +:+ uid) "PromptInclusionEvent"
    (PromptInclusionData uid (message_count session) (prompt_strategy cfg)
       (_get_prompt_reason cfg session)).

(** The session of [uid] once [_handle_user_message] has looked it up or
    created it and counted the turn. *)
Definition session_after_turn (uid : string) (uname : option string) (a : Actor)
    : UserSession :=
  let s := default (UserSession_init uid uname) (sessions a !! uid) in
  set_message_count (message_count s + 1) s.

(** The actor once the turn is counted: session stored, creation event
    appended when the session is new. *)
Definition turn_counted (uid : string) (uname : option string) (a : Actor) : Actor :=
  set_sessions (alter (fun s => set_message_count (message_count s + 1) s) uid)
    (match sessions a !! uid with
     | None =>
       emit (Log INFO)
         (emit (AppendEvent (created_event uid uname))
            (set_sessions (insert uid (UserSession_init uid uname)) a))
     | Some _ => a
     end).

End UserSessionActor.

(** * The generation pipeline ([actors/generation_actor.py]) *)

(** What [json.loads] makes of a text: a value, or a [JSONDecodeError]
    with its message. *)
Inductive parsed : Type :=
| Parsed (v : pyval)
| Malformed (msg : string).

Module GenerationActor.

(** The actor object: its three counters, whether it is attached to an
    actor system, and what it has done so far. *)
Record Actor : Type := {
  generation_count : Z;
  total_cache_hits : float;
  json_failures : Z;
  actor_system : bool;
  trace : list Effect
}.

Definition emit (eff : Effect) (a : Actor) : Actor :=
  {| generation_count := generation_count a;
     total_cache_hits := total_cache_hits a;
     json_failures := json_failures a;
     actor_system := actor_system a;
     trace := trace a ++ [eff] |}.

Definition set_generation_count (n : Z) (a : Actor) : Actor :=
  {| generation_count := n;
     total_cache_hits := total_cache_hits a;
     json_failures := json_failures a;
     actor_system := actor_system a;
     trace := trace a |}.

Definition set_total_cache_hits (x : float) (a : Actor) : Actor :=
  {| generation_count := generation_count a;
     total_cache_hits := x;
     json_failures := json_failures a;
     actor_system := actor_system a;
     trace := trace a |}.

Definition set_json_failures (n : Z) (a : Actor) : Actor :=
  {| generation_count := generation_count a;
     total_cache_hits := total_cache_hits a;
     json_failures := n;
     actor_system := actor_system a;
     trace := trace a |}.

Definition actor_id : string := "generation".

(** [GenerationActor.__init__], registered or not with an actor system. *)
Definition init (attached : bool) : Actor :=
  {| generation_count := 0; total_cache_hits := 0%float; json_failures := 0;
     actor_system := attached; trace := [] |}.

Definition log (lvl : LogLevel) : M Actor unit := modify (emit (Log lvl)).

(** Modelled from the spec: [EventVersionManager.append_event]
    ([utils/event_utils.py] is not part of the sources).  The event emission
    helper is a thin sequencing wrapper that appends the event to the log
    through the external event store; it sends no message. *)
Definition _append_event (e : BaseEvent) : M Actor unit :=
  modify (emit (AppendEvent e)).

(** [ActorSystem.send_message(target, message)] *)
Definition send_message (target : string) (m : ActorMessage) : M Actor unit :=
  modify (emit (SendMessage target m)).

(** The [bot_response] and [error] messages of [handle_message]. *)
Definition bot_response_for (user_id : string) (chat_id response_text : pyval)
    : ActorMessage :=
  ActorMessage_create (Some actor_id) BOT_RESPONSE
    {| p_user_id := Some user_id; p_username := None;
       p_chat_id := Some chat_id; p_text := Some response_text;
       p_include_prompt := None; p_message_count := None;
       p_session_data := None; p_cache_hit_rate := None;
       p_error := None; p_error_type := None |}.

Definition error_for (user_id : string) (chat_id : pyval) (e : exn) : ActorMessage :=
  ActorMessage_create (Some actor_id) ERROR
    {| p_user_id := Some user_id; p_username := None;
       p_chat_id := Some chat_id; p_text := None;
       p_include_prompt := None; p_message_count := None;
       p_session_data := None; p_cache_hit_rate := None;
       p_error := Some (exn_str e);
       p_error_type := Some "generation_error" |}.

(** [type(v).__name__] *)
Definition type_name (v : pyval) : string :=
  match v with
  | PNone => "NoneType"
  | PBool _ => "bool"
  | PInt _ => "int"
  | PFloat _ => "float"
  | PStr _ => "str"
  | PList _ => "list"
  | PDict _ => "dict"
  end.

(** [v[:50]], evaluated for the log line of [handle_message]: strings and
    lists have slices; a dict refuses the slice as a key (a [TypeError]
    before Python 3.12); the other values are not subscriptable. *)
Definition slice_50 (v : pyval) : outcome pyval :=
  match v with
  | PStr s => Return (PStr (String.substring 0 50 s))
  | PList l => Return (PList (take 50 l))
  | PDict _ => Raise (Exn TypeError "unhashable type: 'slice'")
  | _ => Raise (Exn TypeError
                  ("'" +:+ type_name v +:+ "' object is not subscriptable"))
  end.

(** One step of the [async for chunk in response] loop of [_call_api]:
    the text so far and the two token counters. *)
Definition collect_chunk (acc : string * Z * Z) (chunk : Chunk) : string * Z * Z :=
  let '(full_response, hit, miss) := acc in
  let full_response :=
    match delta_content chunk with
    | Some s => if String.eqb s EmptyString then full_response
                else full_response +:+ s
    | None => full_response
    end in
  match usage chunk with
  | Some u => (full_response,
               Z.of_N (default 0%N (prompt_cache_hit_tokens u)),
               Z.of_N (default 0%N (prompt_cache_miss_tokens u)))
  | None => (full_response, hit, miss)
  end.

Definition collect (chunks : list Chunk) : string * Z * Z :=
  foldl collect_chunk (EmptyString, 0, 0) chunks.

Section Pipeline.

Variable PROMPT_CONFIG : PromptConfig.

(** [PROMPTS[mode][prompt_key]] of [config/prompts.py]. *)
Variable PROMPTS : string -> string -> string.

(** [CACHE_HIT_LOG_INTERVAL] of [config/settings.py]. *)
Variable CACHE_HIT_LOG_INTERVAL : Z.

(** [json.loads] on a [str]. *)
Variable json_loads : string -> parsed.

(** The model backend behind the circuit breaker.  [backend n req] is what
    [self._circuit_breaker.call(api_call)] does with the request [req] when
    [n] requests went through the breaker before it: it raises (the breaker
    is open, the client or the stream failed), or the stream is consumed to
    its end and yields these chunks. *)
Variable backend : nat -> ApiRequest -> outcome (list Chunk).

Definition _format_context (text : pyval) (include_prompt force_normal : bool)
    : list ContextEntry :=
  let messages := [] in
  let messages :=
    if include_prompt then
      let mode := "base" in
      let use_json := use_json_mode PROMPT_CONFIG && negb force_normal in
      let prompt_key := if use_json then "json" else "normal" in
      let system_prompt := PROMPTS mode prompt_key in
      messages ++ [{| role := "system"; content := PStr system_prompt |}]
    else messages in
  messages ++ [{| role := "user"; content := text |}].

Definition _log_cache_metrics (hit_tokens miss_tokens : Z) : M Actor unit :=
  modify (fun a => set_generation_count (generation_count a + 1) a) ;;
  let total_tokens := hit_tokens + miss_tokens in
  if 0 <? total_tokens then
    cache_hit_rate <- lift (py_truediv hit_tokens total_tokens) ;;
    modify (fun a => set_total_cache_hits
                       (PrimFloat.add (total_cache_hits a) cache_hit_rate) a) ;;
    a <- get ;;
    r <- lift (py_mod (generation_count a) CACHE_HIT_LOG_INTERVAL) ;;
    (if r =? 0 then
       (* avg_cache_hit = self._total_cache_hits / self._generation_count,
          for the log line only *)
       (if generation_count a =? 0
        then raise (Exn ZeroDivisionError "float division by zero")
        else log INFO)
     else ret tt) ;;
    _append_event
      (BaseEvent_create "metrics" "CacheHitMetricEvent"
         (CacheHitMetricData hit_tokens miss_tokens cache_hit_rate))
  else ret tt.

Definition _call_api (messages : list ContextEntry) (use_json : bool)
    : M Actor string :=
  let req := {| req_messages := messages; req_json_object := use_json |} in
  a <- get ;;
  modify (emit (ApiCall req)) ;;
  chunks <- lift (backend (count is_api_call (trace a)) req) ;;
  let '(full_response, hit, miss) := collect chunks in
  _log_cache_metrics hit miss ;;
  ret full_response.

Definition _extract_from_json (response : string) (user_id : string)
    : M Actor pyval :=
  let failed (e : exn) : M Actor pyval :=
    log LOG_ERROR ;; log DEBUG ;; raise e in
  match json_loads response with
  | Malformed msg => failed (Exn JSONDecodeError msg)
  | Parsed (PDict items) =>
    match dict_get "response" items with
    | Some v => ret v
    | None => failed (Exn ValueError "JSON doesn't contain 'response' field")
    end
  | Parsed _ => failed (Exn ValueError "JSON doesn't contain 'response' field")
  end.

Definition _log_json_failure (user_id : string) (error : string) : M Actor unit :=
  _append_event
    (BaseEvent_create ("user_" +:+ user_id) "JSONModeFailureEvent"
       (JSONModeFailureData user_id error)).

(** The [except json.JSONDecodeError as e] clause of [_generate_response];
    [response] is the local variable of that name, unbound while the first
    [_call_api] has not returned. *)
Definition on_json_decode_error (text : pyval) (user_id : string)
    (include_prompt use_json : bool) (response : option string) (e : exn)
    : M Actor pyval :=
  modify (fun a => set_json_failures (json_failures a + 1) a) ;;
  _log_json_failure user_id (exn_str e) ;;
  if json_fallback_enabled PROMPT_CONFIG && use_json then
    log WARNING ;;
    let messages := _format_context text include_prompt true in
    response <- _call_api messages false ;;
    ret (PStr response)
  else
    match response with
    | Some r => ret (PStr r)
    | None =>
      raise (Exn UnboundLocalError
               "cannot access local variable 'response' where it is not associated with a value")
    end.

Definition _generate_response (text : pyval) (user_id : string)
    (include_prompt : bool) : M Actor pyval :=
  let messages := _format_context text include_prompt false in
  let use_json := use_json_mode PROMPT_CONFIG in
  let handler := on_json_decode_error text user_id include_prompt use_json in
  (* try: response = await self._call_api(messages, use_json) *)
  first <- try_except (r <- _call_api messages use_json ;; ret (inl r))
             is_JSONDecodeError
             (fun e => v <- handler None e ;; ret (inr v)) ;;
  match first with
  | inr returned => ret returned
  | inl response =>
    try_except
      (if use_json then _extract_from_json response user_id
       else ret (PStr response))
      is_JSONDecodeError
      (handler (Some response))
  end.

Definition handle_message (message : ActorMessage) : M Actor unit :=
  if negb (bool_decide (message_type message = GENERATE_RESPONSE)) then ret tt
  else
    user_id <- subscript "user_id" (p_user_id (payload message)) ;;
    chat_id <- subscript "chat_id" (p_chat_id (payload message)) ;;
    text <- subscript "text" (p_text (payload message)) ;;
    let include_prompt := default true (p_include_prompt (payload message)) in
    log INFO ;;
    try_except
      (response_text <- _generate_response text user_id include_prompt ;;
       (* the log line evaluates response_text[:50] *)
       lift (slice_50 response_text) ;;
       log INFO ;;
       let bot_response := bot_response_for user_id chat_id response_text in
       a <- get ;;
       when (actor_system a) (send_message "telegram" bot_response))
      (fun _ => true)
      (fun e =>
         log LOG_ERROR ;;
         let error_msg := error_for user_id chat_id e in
         a <- get ;;
         when (actor_system a) (send_message "telegram" error_msg)).

End Pipeline.

(** ** Observations on the actor *)

(** The event [_log_cache_metrics] creates for a positive token total. *)
Definition metric_event (hit miss : Z) : BaseEvent :=
  BaseEvent_create "metrics" "CacheHitMetricEvent"
    (CacheHitMetricData hit miss (nearest_binary64 hit (hit + miss))).

(** The state [_log_cache_metrics] leaves behind when it does not raise. *)
Definition metrics_logged (interval hit miss : Z) (a : Actor) : Actor :=
  let a1 := set_generation_count (generation_count a + 1) a in
  if 0 <? hit + miss then
    let a2 := set_total_cache_hits
                (PrimFloat.add (total_cache_hits a1)
                   (nearest_binary64 hit (hit + miss)))
                a1 in
    let a3 := if generation_count a2 mod interval =? 0
              then emit (Log INFO) a2 else a2 in
    emit (AppendEvent (metric_event hit miss)) a3
  else a1.

(** The [response] field of a parsed document, when the document is a
    mapping that has one. *)
Definition response_field (v : pyval) : option pyval :=
  match v with
  | PDict items => dict_get "response" items
  | _ => None
  end.

(** The message with its [include_prompt] slot replaced. *)
Definition set_include_prompt (b : option bool) (m : ActorMessage) : ActorMessage :=
  {| sender_id := sender_id m; message_type := message_type m;
     payload :=
       {| p_user_id := p_user_id (payload m); p_username := p_username (payload m);
          p_chat_id := p_chat_id (payload m); p_text := p_text (payload m);
          p_include_prompt := b;
          p_message_count := p_message_count (payload m);
          p_session_data := p_session_data (payload m);
          p_cache_hit_rate := p_cache_hit_rate (payload m);
          p_error := p_error (payload m);
          p_error_type := p_error_type (payload m) |} |}.

(** A context with a system prompt in front of the user's text. *)
Definition prompted_context (system_prompt : string) (text : pyval)
    : list ContextEntry :=
  [ {| role := "system"; content := PStr system_prompt |};
    {| role := "user"; content := text |} ].

(** ** What a computation may add to the trace *)

(** [a'] is [a] with more effects, all satisfying [P], and the same
    attachment to the actor system. *)
Definition extends (P : Effect -> Prop) (a a' : Actor) : Prop :=
  actor_system a' = actor_system a
  /\ exists new, trace a' = trace a ++ new /\ Forall P new.

Definition emits_only {A : Type} (P : Effect -> Prop) (c : M Actor A) : Prop :=
  forall a, extends P a (c a).2.

(** The first new effect is [eff]; the later ones satisfy [P]. *)
Definition starts_with {A : Type} (eff : Effect) (P : Effect -> Prop)
    (c : M Actor A) : Prop :=
  forall a, exists new, trace (c a).2 = trace a ++ eff :: new /\ Forall P new.

(** A predicate on effects given by what it asks of requests and of sent
    messages; events and log lines always pass. *)
Definition allowed (Pcall : ApiRequest -> Prop)
    (Psend : string -> ActorMessage -> Prop) (eff : Effect) : Prop :=
  match eff with
  | ApiCall r => Pcall r
  | SendMessage to m => Psend to m
  | _ => True
  end.

(** ** The paths of a turn *)

(** The event [_log_json_failure] creates. *)
Definition json_failure_event (user_id error : string) : BaseEvent :=
  BaseEvent_create ("user_" +:+ user_id) "JSONModeFailureEvent"
    (JSONModeFailureData user_id error).

Definition is_json_failure : Effect -> bool :=
  is_event_of_type "JSONModeFailureEvent".

(** The request of the first attempt and the request of the fallback. *)
Definition first_request (cfg : PromptConfig) (PROMPTS : string -> string -> string)
    (text : pyval) (include_prompt : bool) : ApiRequest :=
  {| req_messages := _format_context cfg PROMPTS text include_prompt false;
     req_json_object := use_json_mode cfg |}.

Definition fallback_request (cfg : PromptConfig) (PROMPTS : string -> string -> string)
    (text : pyval) (include_prompt : bool) : ApiRequest :=
  {| req_messages := _format_context cfg PROMPTS text include_prompt true;
     req_json_object := false |}.

(** What a computation leaves alone or only grows: the attachment, the
    messages sent; the requests grow by [calls]; the failure counter and
    the failure events grow together by [failures]; the generation counter
    grows by at most the number of requests. *)
Definition accounts (calls : list ApiRequest) (failures : nat) (a a' : Actor) : Prop :=
  actor_system a' = actor_system a
  /\ sent (trace a') = sent (trace a)
  /\ api_calls (trace a') = api_calls (trace a) ++ calls
  /\ json_failures a' = json_failures a + Z.of_nat failures
  /\ count is_json_failure (trace a') = (count is_json_failure (trace a) + failures)%nat
  /\ generation_count a <= generation_count a'
     <= generation_count a + Z.of_nat (length calls).

(** Modelled from the spec: the message loop of the actor runtime, as for
    the session engine. *)
Definition run (cfg : PromptConfig) (PROMPTS : string -> string -> string)
    (interval : Z) (json_loads : string -> parsed)
    (backend : nat -> ApiRequest -> outcome (list Chunk))
    (messages : list ActorMessage) (a : Actor) : Actor :=
  foldl (fun a m => (handle_message cfg PROMPTS interval json_loads backend m a).2)
    a messages.

(** The counters agree with the trace. *)
Definition ledger_balanced (a : Actor) : Prop :=
  json_failures a = Z.of_nat (count is_json_failure (trace a))
  /\ 0 <= generation_count a <= Z.of_nat (count is_api_call (trace a)).

(** The state after a first call that succeeded with [chunks]. *)
Definition after_first_call (cfg : PromptConfig) (PROMPTS : string -> string -> string)
    (interval : Z) (text : pyval) (include_prompt : bool) (chunks : list Chunk)
    (a : Actor) : Actor :=
  metrics_logged interval (collect chunks).1.2 (collect chunks).2
    (emit (ApiCall (first_request cfg PROMPTS text include_prompt)) a).

(** The state when the [except] clause has recorded the failure. *)
Definition failure_recorded (uid : string) (e : exn) (a : Actor) : Actor :=
  emit (AppendEvent (json_failure_event uid (exn_str e)))
    (set_json_failures (json_failures a + 1) a).

(** The state in which the fallback request is made. *)
Definition before_fallback (cfg : PromptConfig) (PROMPTS : string -> string -> string)
    (interval : Z) (text : pyval) (include_prompt : bool) (uid : string)
    (chunks : list Chunk) (msg : string) (a : Actor) : Actor :=
  emit (Log WARNING)
    (failure_recorded uid (Exn JSONDecodeError msg)
       (emit (Log DEBUG) (emit (Log LOG_ERROR)
          (after_first_call cfg PROMPTS interval text include_prompt chunks a)))).

(** The cache-metric event of a completed stream, if it counted tokens. *)
Definition metric_events (chunks : list Chunk) : list BaseEvent :=
  if 0 <? (collect chunks).1.2 + (collect chunks).2
  then [metric_event (collect chunks).1.2 (collect chunks).2] else [].

(** The text deltas of a stream, in order. *)
Definition deltas (chunks : list Chunk) : list string := omap delta_content chunks.

(** The last usage record of a stream. *)
Definition last_usage (chunks : list Chunk) : option Usage :=
  last (omap usage chunks).

End GenerationActor.

(** * Event serialization ([actors/events/base_event.py]) *)

Module EventSerialization.

(** [o >>= k] on outcomes: the first exception wins. *)
Definition and_then {A B : Type} (o : outcome A) (k : A -> outcome B) : outcome B :=
  match o with
  | Return a => k a
  | Raise e => Raise e
  end.

(** [d[key]] on a dict slot. *)
Definition item {A : Type} (key : string) (slot : option A) : outcome A :=
  match slot with
  | Some v => Return v
  | None => Raise (Exn KeyError ("'" +:+ key +:+ "'"))
  end.

(** The flat mapping of [to_dict], one slot per key; [None] is an absent
    key.  The value under [correlation_id] may itself be [None]. *)
Record EventDict : Type := {
  d_event_id : option string;
  d_stream_id : option string;
  d_event_type : option string;
  d_timestamp : option string;
  d_data : option EventData;
  d_version : option Z;
  d_correlation_id : option (option string)
}.

Section Format.

(** The type of [datetime] values and what [EVENT_TIMESTAMP_FORMAT] of
    [config/settings.py] makes of them: [ts.strftime(FORMAT)] and
    [datetime.strptime(s, FORMAT)], which raises when [s] does not match. *)
Variable datetime : Type.
Variable strftime : datetime -> string.
Variable strptime : string -> outcome datetime.

(** The dataclass with all seven fields: the two the actors' model leaves
    out, and the five of [BaseEvent]. *)
Record Event : Type := {
  event_id : string;
  timestamp : datetime;
  fields : BaseEvent
}.

Definition to_dict (e : Event) : EventDict :=
  {| d_event_id := Some (event_id e);
     d_stream_id := Some (stream_id (fields e));
     d_event_type := Some (event_type (fields e));
     d_timestamp := Some (strftime (timestamp e));
     d_data := Some (data (fields e));
     d_version := Some (version (fields e));
     d_correlation_id := Some (correlation_id (fields e)) |}.

Definition from_dict (d : EventDict) : outcome Event :=
  and_then (item "timestamp" (d_timestamp d)) (fun s =>
  and_then (strptime s) (fun ts =>
  and_then (item "event_id" (d_event_id d)) (fun eid =>
  and_then (item "stream_id" (d_stream_id d)) (fun sid =>
  and_then (item "event_type" (d_event_type d)) (fun ety =>
  and_then (item "data" (d_data d)) (fun dat =>
  and_then (item "version" (d_version d)) (fun ver =>
  Return {| event_id := eid; timestamp := ts;
            fields := {| stream_id := sid; event_type := ety; data := dat;
                         version := ver;
                         correlation_id := default None (d_correlation_id d) |} |}
  ))))))).

(** The event with another timestamp. *)
Definition with_timestamp (ts : datetime) (e : Event) : Event :=
  {| event_id := event_id e; timestamp := ts; fields := fields e |}.

End Format.

End EventSerialization.

(** * The message-type table ([actors/messages.py]) *)

Module MessageTable.

(** The value of a member of [class MessageType(str, Enum)]. *)
Definition value (t : MessageType) : string :=
  match t with
  | PING => "ping"
  | PONG => "pong"
  | ERROR => "error"
  | SHUTDOWN => "shutdown"
  | DLQ_QUEUED => "dlq_queued"
  | DLQ_PROCESSED => "dlq_processed"
  | DLQ_CLEANUP => "dlq_cleanup"
  | USER_MESSAGE => "user_message"
  | GENERATE_RESPONSE => "generate_response"
  | BOT_RESPONSE => "bot_response"
  | STREAMING_CHUNK => "streaming_chunk"
  | SESSION_CREATED => "session_created"
  | SESSION_UPDATED => "session_updated"
  | CACHE_HIT_METRIC => "cache_hit_metric"
  | PROMPT_INCLUSION => "prompt_inclusion"
  | JSON_MODE_FAILURE => "json_mode_failure"
  | TELEGRAM_MESSAGE_RECEIVED => "telegram_message_received"
  | PROCESS_USER_MESSAGE => "process_user_message"
  | SEND_TELEGRAM_RESPONSE => "send_telegram_response"
  end.

(** The name of a member. *)
Definition name (t : MessageType) : string :=
  match t with
  | PING => "PING"
  | PONG => "PONG"
  | ERROR => "ERROR"
  | SHUTDOWN => "SHUTDOWN"
  | DLQ_QUEUED => "DLQ_QUEUED"
  | DLQ_PROCESSED => "DLQ_PROCESSED"
  | DLQ_CLEANUP => "DLQ_CLEANUP"
  | USER_MESSAGE => "USER_MESSAGE"
  | GENERATE_RESPONSE => "GENERATE_RESPONSE"
  | BOT_RESPONSE => "BOT_RESPONSE"
  | STREAMING_CHUNK => "STREAMING_CHUNK"
  | SESSION_CREATED => "SESSION_CREATED"
  | SESSION_UPDATED => "SESSION_UPDATED"
  | CACHE_HIT_METRIC => "CACHE_HIT_METRIC"
  | PROMPT_INCLUSION => "PROMPT_INCLUSION"
  | JSON_MODE_FAILURE => "JSON_MODE_FAILURE"
  | TELEGRAM_MESSAGE_RECEIVED => "TELEGRAM_MESSAGE_RECEIVED"
  | PROCESS_USER_MESSAGE => "PROCESS_USER_MESSAGE"
  | SEND_TELEGRAM_RESPONSE => "SEND_TELEGRAM_RESPONSE"
  end.

(** The dict literal [MESSAGE_TYPES], in source order. *)
Definition MESSAGE_TYPES : list (string * MessageType) :=
  [ ("PING", PING); ("PONG", PONG); ("ERROR", ERROR); ("SHUTDOWN", SHUTDOWN);
    ("DLQ_QUEUED", DLQ_QUEUED); ("DLQ_PROCESSED", DLQ_PROCESSED);
    ("DLQ_CLEANUP", DLQ_CLEANUP); ("USER_MESSAGE", USER_MESSAGE);
    ("GENERATE_RESPONSE", GENERATE_RESPONSE); ("BOT_RESPONSE", BOT_RESPONSE);
    ("STREAMING_CHUNK", STREAMING_CHUNK); ("SESSION_CREATED", SESSION_CREATED);
    ("SESSION_UPDATED", SESSION_UPDATED); ("CACHE_HIT_METRIC", CACHE_HIT_METRIC);
    ("PROMPT_INCLUSION", PROMPT_INCLUSION);
    ("JSON_MODE_FAILURE", JSON_MODE_FAILURE);
    ("TELEGRAM_MESSAGE_RECEIVED", TELEGRAM_MESSAGE_RECEIVED);
    ("PROCESS_USER_MESSAGE", PROCESS_USER_MESSAGE);
    ("SEND_TELEGRAM_RESPONSE", SEND_TELEGRAM_RESPONSE) ].

(** [MESSAGE_TYPES.get(key)]: in a dict literal a later entry replaces an
    earlier one with the same key. *)
Definition MESSAGE_TYPES_get (key : string) : option MessageType :=
  foldl (fun found entry => if String.eqb key entry.1 then Some entry.2 else found)
    None MESSAGE_TYPES.

End MessageTable.


(** * Sample inputs *)

Module Samples.

Definition dq : string := String (Ascii.ascii_of_nat 34) EmptyString.

(** The text [{"response": "hi"}]. *)
Definition text_with_response : string :=
  "{" +:+ dq +:+ "response" +:+ dq +:+ ": " +:+ dq +:+ "hi" +:+ dq +:+ "}".

(** The text [{"answer": "hi"}]: a JSON mapping without a [response] field. *)
Definition text_without_response : string :=
  "{" +:+ dq +:+ "answer" +:+ dq +:+ ": " +:+ dq +:+ "hi" +:+ dq +:+ "}".

(** [json.loads] on the two texts above; anything else does not parse. *)
Definition sample_json_loads (s : string) : parsed :=
  if String.eqb s text_with_response then
    Parsed (PDict [("response", PStr "hi")])
  else if String.eqb s text_without_response then
    Parsed (PDict [("answer", PStr "hi")])
  else Malformed "Expecting value: line 1 column 1 (char 0)".

Definition sample_PROMPTS (mode key : string) : string :=
  "prompt:" +:+ mode +:+ ":" +:+ key.

(** Adaptive strategy, interval 3, threshold one half. *)
Definition sample_config (json fallback : bool) : PromptConfig :=
  {| use_json_mode := json; json_fallback_enabled := fallback;
     prompt_strategy := "adaptive"; enable_periodic_prompt := true;
     system_prompt_interval := 3; cache_hit_threshold := nearest_binary64 1 2 |}.

Definition always_config : PromptConfig :=
  {| use_json_mode := true; json_fallback_enabled := true;
     prompt_strategy := "always"; enable_periodic_prompt := true;
     system_prompt_interval := 3; cache_hit_threshold := nearest_binary64 1 2 |}.

(** Periodic strategy with interval 3. *)
Definition periodic_config : PromptConfig :=
  {| use_json_mode := true; json_fallback_enabled := true;
     prompt_strategy := "periodic"; enable_periodic_prompt := true;
     system_prompt_interval := 3; cache_hit_threshold := nearest_binary64 1 2 |}.

(** A stream of two chunks: the text, then the usage record. *)
Definition one_chunk (s : string) (hit miss : N) : list Chunk :=
  [ {| delta_content := Some s; usage := None |};
    {| delta_content := None;
       usage := Some {| prompt_cache_hit_tokens := Some hit;
                        prompt_cache_miss_tokens := Some miss |} |} ].

(** A backend whose first reply is [first_reply] with 30 cached and 70
    uncached prompt tokens, and whose later replies are plain text with no
    token counts. *)
Definition backend_says (first_reply : string) (n : nat) (req : ApiRequest)
    : outcome (list Chunk) :=
  match n with
  | O => Return (one_chunk first_reply 30 70)
  | _ => Return (one_chunk "plain hello" 0 0)
  end.

(** A backend behind an open circuit breaker. *)
Definition backend_down (n : nat) (req : ApiRequest) : outcome (list Chunk) :=
  Raise (Exn CircuitBreakerError "Circuit breaker 'deepseek_api' is OPEN").

Definition message_with (ty : MessageType) (uid : option string)
    (chat text : option pyval) (include : option bool) (rate : option float)
    : ActorMessage :=
  ActorMessage_create None ty
    {| p_user_id := uid; p_username := None; p_chat_id := chat;
       p_text := text; p_include_prompt := include;
       p_message_count := None; p_session_data := None;
       p_cache_hit_rate := rate; p_error := None; p_error_type := None |}.

(** A [generate_response] request of user [u1] in chat 7. *)
Definition generate_request (include : option bool) : ActorMessage :=
  message_with GENERATE_RESPONSE (Some "u1") (Some (PInt 7)) (Some (PStr "hello"))
    include None.

(** A user turn of [uid] in chat 7. *)
Definition user_turn (uid : string) (text : string) : ActorMessage :=
  message_with USER_MESSAGE (Some uid) (Some (PInt 7)) (Some (PStr text)) None None.

(** A cache-metric message for [uid] with the ratio [z / 100]. *)
Definition metric_message (uid : string) (z : Z) : ActorMessage :=
  message_with CACHE_HIT_METRIC (Some uid) None None None (Some (nearest_binary64 z 100)).

Definition twenty_five : list Z :=
  [1; 2; 3; 4; 5; 6; 7; 8; 9; 10; 11; 12; 13; 14; 15; 16; 17; 18; 19; 20;
   21; 22; 23; 24; 25].

(** A session actor that has seen one turn of user [u1]. *)
Definition session_actor_with_u1 : UserSessionActor.Actor :=
  UserSessionActor.run always_config [user_turn "u1" "hello"]
    (UserSessionActor.init true).

(** A session of [u1] at its fifth message with five low ratios recorded. *)
Definition cold_session : UserSessionActor.UserSession :=
  UserSessionActor.set_cache_metrics
    (map (fun z => nearest_binary64 z 100) [10; 20; 10; 20; 10])
    (UserSessionActor.set_message_count 5
       (UserSessionActor.UserSession_init "u1" None)).

(** The same history at the fourth message. *)
Definition cold_session_at_4 : UserSessionActor.UserSession :=
  UserSessionActor.set_message_count 4 cold_session.

(** Periodic strategy with the interval set to 0. *)
Definition zero_interval_config : PromptConfig :=
  {| use_json_mode := true; json_fallback_enabled := true;
     prompt_strategy := "periodic"; enable_periodic_prompt := true;
     system_prompt_interval := 0; cache_hit_threshold := nearest_binary64 1 2 |}.

(** The session of [u1] after its first turn. *)
Definition u1_after_one_turn : UserSessionActor.UserSession :=
  UserSessionActor.set_message_count 1 (UserSessionActor.UserSession_init "u1" None).

(** The text [{"response": 5}]: the [response] field is a number. *)
Definition text_with_number : string :=
  "{" +:+ dq +:+ "response" +:+ dq +:+ ": 5}".

(** [json.loads] that also reads the text above. *)
Definition number_json_loads (s : string) : parsed :=
  if String.eqb s text_with_number then Parsed (PDict [("response", PInt 5)])
  else sample_json_loads s.

(** A backend whose first reply is [first_reply] and whose later calls
    fail. *)
Definition backend_fails_on_retry (first_reply : string) (n : nat) (req : ApiRequest)
    : outcome (list Chunk) :=
  match n with
  | O => Return (one_chunk first_reply 30 70)
  | _ => Raise (Exn APIError "Connection error.")
  end.

(** A backend whose call raises a [JSONDecodeError]. *)
Definition backend_garbled (n : nat) (req : ApiRequest) : outcome (list Chunk) :=
  Raise (Exn JSONDecodeError "Expecting value: line 1 column 1 (char 0)").

End Samples.

(** * Facts about traces *)

Lemma count_app p t1 t2 : count p (t1 ++ t2) = (count p t1 + count p t2)%nat.
Proof. unfold count. rewrite filter_app, length_app. reflexivity. Qed.

Lemma count_snoc p t eff :
  count p (t ++ [eff]) = (count p t + if p eff then 1 else 0)%nat.
Proof.
  rewrite count_app. f_equal. unfold count.
  destruct (p eff) eqn:E.
  - rewrite filter_cons_True by exact E. reflexivity.
  - rewrite filter_cons_False by (rewrite E; discriminate). reflexivity.
Qed.

Lemma events_of_app t1 t2 : events_of (t1 ++ t2) = events_of t1 ++ events_of t2.
Proof. apply omap_app. Qed.

Lemma sent_app t1 t2 : sent (t1 ++ t2) = sent t1 ++ sent t2.
Proof. apply omap_app. Qed.

Lemma api_calls_app t1 t2 : api_calls (t1 ++ t2) = api_calls t1 ++ api_calls t2.
Proof. apply omap_app. Qed.

(** * Facts about Python slices *)

Lemma py_last_app {A} (n : nat) (pre suf : list A) :
  length suf = n -> py_last n (pre ++ suf) = suf.
Proof.
  intros <-. unfold py_last. rewrite length_app.
  replace (length pre + length suf - length suf)%nat with (length pre) by lia.
  apply drop_app_length.
Qed.

Lemma py_last_all {A} n (l : list A) : (length l <= n)%nat -> py_last n l = l.
Proof.
  intros H. unfold py_last.
  replace (length l - n)%nat with 0%nat by lia. reflexivity.
Qed.

Lemma py_last_length {A} n (l : list A) : length (py_last n l) = Nat.min n (length l).
Proof. unfold py_last. rewrite length_drop. lia. Qed.

Lemma py_last_app_ge {A} n (l1 l2 : list A) :
  (n <= length l2)%nat -> py_last n (l1 ++ l2) = py_last n l2.
Proof.
  intros H. unfold py_last. rewrite length_app.
  rewrite drop_app_ge by lia. f_equal. lia.
Qed.

Lemma py_last_snoc_last {A} n (l : list A) v :
  py_last (S n) (py_last (S n) l ++ [v]) = py_last (S n) (l ++ [v]).
Proof.
  destruct (Nat.le_gt_cases (length l) (S n)) as [H|H].
  - rewrite (py_last_all (S n) l) by exact H. reflexivity.
  - unfold py_last at 2.
    rewrite <- (take_drop (length l - S n) l) at 3.
    rewrite <- app_assoc.
    symmetry. apply py_last_app_ge.
    rewrite length_app, length_drop. cbn. lia.
Qed.

(** * The session and prompt-policy engine *)

Module SessionFacts.
Import UserSessionActor.

Ltac run_session :=
  unfold bind, ret, raise, get, modify, lift, when, subscript, try_except,
    log, _append_event, send_message in *.

(** ** The prompt-inclusion policy *)

Lemma mean_of_last_5_short h : (length h < 5)%nat -> mean_of_last_5 h = None.
Proof.
  intros Hlen. unfold mean_of_last_5.
  rewrite <- length_rev in Hlen.
  destruct (rev h) as [|e [|d [|c [|b [|a r]]]]]; simpl in Hlen;
    try reflexivity; lia.
Qed.

Lemma mean_of_last_5_long h :
  (5 <= length h)%nat -> mean_of_last_5 h = Some (avg_cache_hit h).
Proof.
  intros Hlen. unfold mean_of_last_5.
  rewrite <- length_rev in Hlen.
  destruct (rev h) as [|e [|d [|c [|b [|a r]]]]] eqn:E; simpl in Hlen; try lia.
  assert (Hh : h = rev r ++ [a; b; c; d; e]).
  { rewrite <- (rev_involutive h), E. simpl.
    repeat rewrite <- app_assoc. reflexivity. }
  unfold avg_cache_hit. rewrite Hh, py_last_app by reflexivity. reflexivity.
Qed.

(** C1. With a non-zero interval, [_should_include_prompt] returns (and
    does not raise) the decision of the specification: true when the
    periodic switch is off; else true for [always]; else, for [periodic],
    true iff [message_count mod N = 1]; else, for [adaptive], true iff
    [message_count mod N = 1] or at least five ratios are recorded and the
    mean of the last five is strictly below the threshold; else false. *)
Theorem should_include_prompt_decision (cfg : PromptConfig) (session : UserSession) :
  system_prompt_interval cfg <> 0 ->
  _should_include_prompt cfg session
  = Return (prompt_inclusion_decision cfg (message_count session)
              (cache_metrics session)).
Proof.
  intros HN. unfold _should_include_prompt, prompt_inclusion_decision, py_mod.
  apply Z.eqb_neq in HN. rewrite HN.
  destruct (enable_periodic_prompt cfg); cbn [negb]; [|reflexivity].
  destruct (String.eqb (prompt_strategy cfg) "always"); [reflexivity|].
  destruct (String.eqb (prompt_strategy cfg) "periodic"); [reflexivity|].
  destruct (String.eqb (prompt_strategy cfg) "adaptive"); [|reflexivity].
  destruct (_ =? 1); [reflexivity|].
  rewrite orb_false_l.
  destruct (5 <=? length (cache_metrics session))%nat eqn:Hlen.
  - apply Nat.leb_le in Hlen. rewrite mean_of_last_5_long by exact Hlen.
    cbn [andb]. destruct (PrimFloat.ltb _ _); reflexivity.
  - apply Nat.leb_gt in Hlen. rewrite mean_of_last_5_short by exact Hlen.
    reflexivity.
Qed.

(** C1 at a fifth message of an adaptive session (interval 3) whose last
    five ratios average 0.14, below the threshold 0.5: the prompt is
    included although [5 mod 3 <> 1]. *)
Lemma should_include_prompt_decision_witness :
  _should_include_prompt (Samples.sample_config true true) Samples.cold_session
  = Return true.
Proof.
  apply (should_include_prompt_decision (Samples.sample_config true true)
           Samples.cold_session).
  cbn. lia.
Defined.

(** Four turns of [u1] under the periodic strategy with interval 3: the
    generation requests carry the counters 1 to 4 and the prompt is
    included on turns 1 and 4 only. *)
Lemma periodic_scenario :
  let a' := run Samples.periodic_config
              [Samples.user_turn "u1" "a"; Samples.user_turn "u1" "b";
               Samples.user_turn "u1" "c"; Samples.user_turn "u1" "d"]
              (init true) in
  map (fun tm => (p_message_count (payload tm.2), p_include_prompt (payload tm.2)))
    (sent (trace a'))
  = [(Some 1, Some true); (Some 2, Some false); (Some 3, Some false);
     (Some 4, Some true)].
Proof. vm_compute. reflexivity. Qed.

(** ** Sessions: creation and the message counter *)

Lemma user_prefix_inj u v : "user_" +:+ u = "user_" +:+ v -> u = v.
Proof. simpl. intros H. by simplify_eq. Qed.

Lemma is_session_created_for_created u v uname :
  is_session_created_for u
    (AppendEvent (BaseEvent_create ("user_" +:+ v) "SessionCreatedEvent"
                    (SessionCreatedData v uname)))
  = bool_decide (v = u).
Proof.
  unfold is_session_created_for. cbn [event_type stream_id BaseEvent_create].
  case_bool_decide as E.
  - subst. rewrite String.eqb_refl. rewrite String.eqb_refl. reflexivity.
  - destruct (String.eqb_spec ("user_" +:+ v) ("user_" +:+ u)) as [H|H].
    + apply user_prefix_inj in H. contradiction.
    + apply andb_false_r.
Qed.

Lemma handle_message_sessions cfg m a :
  sessions (snd (handle_message cfg m a)) = sessions_step m (sessions a).
Proof.
  unfold handle_message, sessions_step.
  destruct (message_type m); try reflexivity.
  - unfold _handle_user_message, _get_or_create_session. run_session.
    destruct (p_user_id (payload m)) as [uid|]; [|reflexivity].
    destruct (p_text (payload m)) as [text|]; [|reflexivity].
    destruct (p_chat_id (payload m)) as [chat|]; [|reflexivity].
    cbn -[_should_include_prompt].
    destruct (sessions a !! uid) eqn:E; cbn -[_should_include_prompt].
    + destruct (_should_include_prompt _ _) as [[|]|e]; cbn;
        destruct (actor_system a); reflexivity.
    + destruct (_should_include_prompt _ _) as [[|]|e]; cbn;
        destruct (actor_system a); reflexivity.
  - unfold _update_cache_metrics. run_session.
    destruct (p_user_id (payload m)) as [uid|]; [|reflexivity].
    destruct (_ || _); reflexivity.
Qed.

Lemma is_turn_of_spec u m :
  is_turn_of u m = true <->
  message_type m = USER_MESSAGE /\ p_user_id (payload m) = Some u
  /\ is_Some (p_text (payload m)) /\ is_Some (p_chat_id (payload m)).
Proof.
  unfold is_turn_of. rewrite !andb_true_iff, !bool_decide_eq_true. tauto.
Qed.

Lemma is_turn_of_other u m :
  message_type m <> USER_MESSAGE -> is_turn_of u m = false.
Proof.
  intros H. unfold is_turn_of.
  rewrite (bool_decide_eq_false_2 _ H). reflexivity.
Qed.

Lemma is_turn_of_user u m :
  message_type m = USER_MESSAGE ->
  is_turn_of u m =
  match p_user_id (payload m), p_text (payload m), p_chat_id (payload m) with
  | Some uid, Some _, Some _ => bool_decide (uid = u)
  | _, _, _ => false
  end.
Proof.
  intros H. unfold is_turn_of.
  rewrite (bool_decide_eq_true_2 _ H). cbn [andb].
  destruct (p_user_id (payload m)) as [uid|]; [|reflexivity].
  destruct (p_text (payload m)) as [text|].
  2:{ rewrite (bool_decide_eq_false_2 (is_Some None)) by (intros [? ?]; discriminate).
      rewrite andb_false_r. reflexivity. }
  destruct (p_chat_id (payload m)) as [chat|].
  2:{ rewrite (bool_decide_eq_false_2 (is_Some None)) by (intros [? ?]; discriminate).
      apply andb_false_r. }
  rewrite !(bool_decide_eq_true_2 (is_Some (Some _))) by eauto.
  rewrite !andb_true_r. apply bool_decide_ext. split; congruence.
Qed.

Lemma handle_message_created cfg m a u :
  count (is_session_created_for u) (trace (snd (handle_message cfg m a)))
  = (count (is_session_created_for u) (trace a)
     + if is_turn_of u m && negb (has_session u a) then 1 else 0)%nat.
Proof.
  destruct (decide (message_type m = USER_MESSAGE)) as [Hty|Hty].
  - rewrite (is_turn_of_user _ _ Hty).
    unfold handle_message, has_session. rewrite Hty.
    unfold _handle_user_message, _get_or_create_session. run_session.
    destruct (p_user_id (payload m)) as [uid|]; [|cbn; lia].
    destruct (p_text (payload m)) as [text|]; [|cbn; lia].
    destruct (p_chat_id (payload m)) as [chat|]; [|cbn; lia].
    cbn -[_should_include_prompt].
    destruct (sessions a !! uid) eqn:E; cbn -[_should_include_prompt].
    + assert (Hz : (if bool_decide (uid = u)
                       && negb (bool_decide (is_Some (sessions a !! u)))
                    then 1 else 0)%nat = 0%nat).
      { case_bool_decide as Hu; [|reflexivity]. subst uid.
        rewrite E. rewrite bool_decide_eq_true_2 by eauto. reflexivity. }
      rewrite Hz.
      destruct (_should_include_prompt _ _) as [[|]|e]; cbn;
        destruct (actor_system a); cbn; rewrite ?count_snoc; cbn; lia.
    + assert (Hz : (if bool_decide (uid = u)
                       && negb (bool_decide (is_Some (sessions a !! u)))
                    then 1 else 0)%nat = if bool_decide (uid = u) then 1%nat else 0%nat).
      { case_bool_decide as Hu; [|reflexivity]. subst uid. rewrite E.
        rewrite bool_decide_eq_false_2 by (intros [? ?]; discriminate).
        reflexivity. }
      rewrite Hz.
      destruct (_should_include_prompt _ _) as [[|]|e]; cbn -[is_session_created_for];
        destruct (actor_system a); cbn -[is_session_created_for];
        rewrite ?count_snoc, is_session_created_for_created;
        cbn; lia.
  - rewrite (is_turn_of_other _ _ Hty). cbn [andb].
    unfold handle_message.
    destruct (message_type m); try (cbn; lia); [congruence|].
    unfold _update_cache_metrics. run_session.
    destruct (p_user_id (payload m)) as [uid|]; [|cbn; lia].
    cbn. destruct (_ || _); cbn; lia.
Qed.

Lemma handle_message_counter cfg m a u :
  counter_of u (snd (handle_message cfg m a))
  = counter_of u a + (if is_turn_of u m then 1 else 0).
Proof.
  unfold counter_of. rewrite handle_message_sessions. unfold sessions_step.
  destruct (decide (message_type m = USER_MESSAGE)) as [Hty|Hty].
  - rewrite (is_turn_of_user _ _ Hty), Hty.
    destruct (p_user_id (payload m)) as [uid|]; [|lia].
    destruct (p_text (payload m)) as [text|]; [|lia].
    destruct (p_chat_id (payload m)) as [chat|]; [|lia].
    case_bool_decide as Hu.
    + subst uid. rewrite lookup_alter_eq.
      destruct (sessions a !! u) eqn:E.
      * rewrite E. reflexivity.
      * rewrite lookup_insert_eq. cbn. lia.
    + rewrite lookup_alter_ne by assumption.
      destruct (sessions a !! uid); [|rewrite lookup_insert_ne by assumption]; lia.
  - rewrite (is_turn_of_other _ _ Hty).
    destruct (message_type m); try lia; [congruence|].
    destruct (p_user_id (payload m)) as [uid|]; [|lia].
    destruct (_ || _); [lia|].
    destruct (decide (uid = u)) as [->|Hne].
    + rewrite lookup_alter_eq. destruct (sessions a !! u); cbn; lia.
    + rewrite lookup_alter_ne by assumption. lia.
Qed.

Lemma handle_message_has_session cfg m a u :
  has_session u (snd (handle_message cfg m a))
  = has_session u a || is_turn_of u m.
Proof.
  unfold has_session. rewrite handle_message_sessions. unfold sessions_step.
  destruct (decide (message_type m = USER_MESSAGE)) as [Hty|Hty].
  - rewrite (is_turn_of_user _ _ Hty), Hty.
    destruct (p_user_id (payload m)) as [uid|]; [|by rewrite orb_false_r].
    destruct (p_text (payload m)) as [text|]; [|by rewrite orb_false_r].
    destruct (p_chat_id (payload m)) as [chat|]; [|by rewrite orb_false_r].
    destruct (decide (uid = u)) as [Hu|Hu];
      [rewrite (bool_decide_eq_true_2 (uid = u)) by assumption
      |rewrite (bool_decide_eq_false_2 (uid = u)) by assumption].
    + subst uid. rewrite orb_true_r. apply bool_decide_eq_true_2.
      rewrite lookup_alter_eq.
      destruct (sessions a !! u) eqn:E; try rewrite E;
        try rewrite lookup_insert_eq; cbn; eauto.
    + rewrite orb_false_r.
      rewrite lookup_alter_ne by assumption.
      destruct (sessions a !! uid); [|rewrite lookup_insert_ne by assumption]; reflexivity.
  - rewrite (is_turn_of_other _ _ Hty), orb_false_r.
    destruct (message_type m); try reflexivity; [congruence|].
    destruct (p_user_id (payload m)) as [uid|]; [|reflexivity].
    destruct (_ || _); [reflexivity|].
    destruct (decide (uid = u)) as [->|Hne].
    + rewrite lookup_alter_eq. apply bool_decide_ext. rewrite fmap_is_Some. reflexivity.
    + rewrite lookup_alter_ne by assumption. reflexivity.
Qed.

(** ** A turn, step by step *)

Lemma turn_counted_session uid uname a :
  sessions (turn_counted uid uname a) !! uid = Some (session_after_turn uid uname a).
Proof.
  unfold turn_counted, session_after_turn. cbn [set_sessions sessions].
  rewrite lookup_alter_eq.
  destruct (sessions a !! uid) as [s|] eqn:E.
  - rewrite E. reflexivity.
  - cbn. rewrite lookup_insert_eq. reflexivity.
Qed.

Lemma the_session_turn_counted uid uname a :
  the_session uid (turn_counted uid uname a) = session_after_turn uid uname a.
Proof. unfold the_session. rewrite turn_counted_session. reflexivity. Qed.

Lemma turn_counted_fields uid uname a :
  actor_system (turn_counted uid uname a) = actor_system a
  /\ sent (trace (turn_counted uid uname a)) = sent (trace a)
  /\ events_of (trace (turn_counted uid uname a))
     = events_of (trace a)
       ++ (if has_session uid a then [] else [created_event uid uname]).
Proof.
  unfold turn_counted, has_session.
  destruct (sessions a !! uid) as [s|] eqn:E.
  - rewrite bool_decide_eq_true_2 by eauto. cbn. rewrite app_nil_r. auto.
  - rewrite bool_decide_eq_false_2 by (intros [? ?]; discriminate).
    cbn. rewrite !sent_app, !events_of_app. cbn. rewrite !app_nil_r. auto.
Qed.

(** [handle_message] on a turn that carries the three required fields. *)
Lemma handle_turn_eq cfg m a uid text chat :
  message_type m = USER_MESSAGE ->
  p_user_id (payload m) = Some uid -> p_text (payload m) = Some text ->
  p_chat_id (payload m) = Some chat ->
  handle_message cfg m a =
  let a1 := turn_counted uid (p_username (payload m)) a in
  let session := session_after_turn uid (p_username (payload m)) a in
  match _should_include_prompt cfg session with
  | Raise e => (Raise e, a1)
  | Return include =>
    let a2 := if include then emit (AppendEvent (prompt_event cfg uid session)) a1
              else a1 in
    let request :=
      ActorMessage_create (Some actor_id) GENERATE_RESPONSE
        {| p_user_id := Some uid; p_username := None; p_chat_id := Some chat;
           p_text := Some text; p_include_prompt := Some include;
           p_message_count := Some (message_count session);
           p_session_data := Some (username session);
           p_cache_hit_rate := None; p_error := None; p_error_type := None |} in
    (Return tt,
     if actor_system a then emit (SendMessage "generation" request) (emit (Log INFO) a2)
     else emit (Log INFO) a2)
  end.
Proof.
  intros Hty Hu Ht Hc. cbv zeta.
  rewrite <- (the_session_turn_counted uid (p_username (payload m)) a).
  unfold handle_message. rewrite Hty.
  unfold _handle_user_message, _get_or_create_session. rewrite Hu, Ht, Hc.
  unfold turn_counted. run_session. cbn -[_should_include_prompt the_session].
  destruct (sessions a !! uid) as [s|] eqn:E; cbn -[_should_include_prompt the_session].
  - destruct (_should_include_prompt _ _) as [[|]|e]; cbn -[the_session];
      destruct (actor_system a); reflexivity.
  - destruct (_should_include_prompt _ _) as [[|]|e]; cbn -[the_session];
      destruct (actor_system a); reflexivity.
Qed.

(** A turn of a user who has a session works on that session. *)
Lemma handle_turn_reuses cfg m a u s :
  is_turn_of u m = true ->
  sessions a !! u = Some s ->
  let s' := set_message_count (message_count s + 1) s in
  let a' := (handle_message cfg m a).2 in
  sessions a' !! u = Some s'
  /\ (forall e, _should_include_prompt cfg s' = Raise e ->
        (handle_message cfg m a).1 = Raise e /\ sent (trace a') = sent (trace a))
  /\ (forall include, _should_include_prompt cfg s' = Return include ->
        (handle_message cfg m a).1 = Return tt
        /\ exists request,
             sent (trace a')
             = sent (trace a) ++ (if actor_system a then [("generation", request)] else [])
             /\ p_include_prompt (payload request) = Some include
             /\ p_message_count (payload request) = Some (message_count s + 1)
             /\ p_session_data (payload request) = Some (username s)).
Proof.
  intros Hturn Hs. cbv zeta.
  apply is_turn_of_spec in Hturn. destruct Hturn as (Hty & Hu & [t Ht] & [c Hc]).
  rewrite (handle_turn_eq cfg m a u t c Hty Hu Ht Hc). cbv zeta.
  assert (Hafter : session_after_turn u (p_username (payload m)) a
                   = set_message_count (message_count s + 1) s).
  { unfold session_after_turn. rewrite Hs. reflexivity. }
  assert (Hcounted : turn_counted u (p_username (payload m)) a
                     = set_sessions
                         (alter (fun s => set_message_count (message_count s + 1) s) u) a).
  { unfold turn_counted. rewrite Hs. reflexivity. }
  rewrite Hafter, Hcounted.
  set (s' := set_message_count (message_count s + 1) s).
  destruct (_should_include_prompt cfg s') as [include|e] eqn:Hp.
  - split.
    { destruct include, (actor_system a); cbn [snd emit sessions set_sessions];
        rewrite lookup_alter_eq, Hs; reflexivity. }
    split; [intros e [=]|].
    intros include' [= <-]. split; [reflexivity|].
    eexists. split.
    { destruct include, (actor_system a); cbn [snd emit trace set_sessions];
        rewrite !sent_app; cbn; rewrite ?app_nil_r; reflexivity. }
    repeat split.
  - split.
    { cbn [snd sessions set_sessions]. rewrite lookup_alter_eq, Hs. reflexivity. }
    split; [|intros include [=]].
    intros e' [= <-]. split; reflexivity.
Qed.

(** C4. Whatever messages the engine processes, from whatever state: the
    number of [SessionCreatedEvent]s on the stream of user [u] grows by one
    if [u] had no session and at least one turn of [u] is processed, and by
    nothing otherwise; the message counter of [u] grows by exactly the
    number of turns of [u] (one per turn, never reset); once [u] has a
    session it keeps it; and a turn of [u] that follows works on the stored
    session [s]: what is stored afterwards is [s] with its counter raised by
    one and nothing else changed, the policy decides on that session, and
    the request sent to generation carries its decision, its counter and
    its user name. *)
Theorem session_created_once cfg (u : string) (msgs : list ActorMessage) (a : Actor) :
  let a' := run cfg msgs a in
  count (is_session_created_for u) (trace a')
  = (count (is_session_created_for u) (trace a)
     + if negb (has_session u a) && (0 <? turns_of u msgs)%nat then 1 else 0)%nat
  /\ counter_of u a' = counter_of u a + Z.of_nat (turns_of u msgs)
  /\ has_session u a' = has_session u a || (0 <? turns_of u msgs)%nat
  /\ forall m s,
       is_turn_of u m = true ->
       sessions a' !! u = Some s ->
       let s' := set_message_count (message_count s + 1) s in
       let a'' := (handle_message cfg m a').2 in
       sessions a'' !! u = Some s'
       /\ (forall e, _should_include_prompt cfg s' = Raise e ->
             (handle_message cfg m a').1 = Raise e
             /\ sent (trace a'') = sent (trace a'))
       /\ (forall include, _should_include_prompt cfg s' = Return include ->
             (handle_message cfg m a').1 = Return tt
             /\ exists request,
                  sent (trace a'')
                  = sent (trace a')
                    ++ (if actor_system a' then [("generation", request)] else [])
                  /\ p_include_prompt (payload request) = Some include
                  /\ p_message_count (payload request)
                     = Some (message_count s + 1)
                  /\ p_session_data (payload request) = Some (username s)).
Proof.
  cbv zeta.
  assert (Hrun : forall a,
    count (is_session_created_for u) (trace (run cfg msgs a))
    = (count (is_session_created_for u) (trace a)
       + if negb (has_session u a) && (0 <? turns_of u msgs)%nat then 1 else 0)%nat
    /\ counter_of u (run cfg msgs a) = counter_of u a + Z.of_nat (turns_of u msgs)
    /\ has_session u (run cfg msgs a)
       = has_session u a || (0 <? turns_of u msgs)%nat).
  { clear a. induction msgs as [|m msgs IH]; intros a.
    - cbn. rewrite andb_false_r, orb_false_r. repeat split; lia.
    - unfold run. cbn [foldl]. fold (run cfg msgs (snd (handle_message cfg m a))).
      destruct (IH (snd (handle_message cfg m a))) as (IH1 & IH2 & IH3).
      rewrite IH1, IH2, IH3.
      rewrite handle_message_created, handle_message_counter,
        handle_message_has_session.
      unfold turns_of. destruct (is_turn_of u m) eqn:Hm.
      + rewrite filter_cons_True by exact Hm. cbn [length].
        rewrite orb_true_r, andb_true_l. cbn [negb andb].
        replace (0 <? S _)%nat with true by (symmetry; apply Nat.ltb_lt; lia).
        rewrite andb_true_r, !orb_true_r.
        destruct (has_session u a); cbn; repeat split; lia.
      + rewrite filter_cons_False by (rewrite Hm; discriminate).
        rewrite orb_false_r, andb_false_l.
        repeat split; try lia. }
  destruct (Hrun a) as (H1 & H2 & H3).
  split; [exact H1|]. split; [exact H2|]. split; [exact H3|].
  intros m s Hm Hs. exact (handle_turn_reuses cfg m (run cfg msgs a) u s Hm Hs).
Qed.

(** C4 at a new user: the first turn creates the session, the second turn
    works on it: the stored session is the first one with counter 2, and
    the request carries the counter 2. *)
Lemma session_created_once_witness :
  let a1 := run Samples.always_config [Samples.user_turn "u1" "a"] (init true) in
  let a2 := (handle_message Samples.always_config (Samples.user_turn "u1" "b") a1).2 in
  count (is_session_created_for "u1") (trace a1) = 1%nat
  /\ sessions a2 !! "u1" = Some (set_message_count 2 Samples.u1_after_one_turn)
  /\ exists request,
       sent (trace a2) = sent (trace a1) ++ [("generation", request)]
       /\ p_include_prompt (payload request) = Some true
       /\ p_message_count (payload request) = Some 2
       /\ p_session_data (payload request) = Some None.
Proof.
  cbv zeta.
  destruct (session_created_once Samples.always_config "u1"
              [Samples.user_turn "u1" "a"] (init true))
    as (Hcreated & _ & _ & Hreuse).
  destruct (Hreuse (Samples.user_turn "u1" "b") Samples.u1_after_one_turn
              eq_refl eq_refl) as (Hstored & _ & Hrequest).
  destruct (Hrequest true eq_refl) as (_ & request & Hsent & Hinc & Hcnt & Hdata).
  split; [exact Hcreated|]. split; [exact Hstored|].
  exists request. repeat split; assumption.
Defined.

(** Two turns of a new user: one [SessionCreatedEvent], counter 2. *)
Lemma two_turns_one_session :
  let a' := run Samples.always_config
              [Samples.user_turn "u1" "a"; Samples.user_turn "u1" "b"]
              (init true) in
  count (is_session_created_for "u1") (trace a') = 1%nat
  /\ counter_of "u1" a' = 2.
Proof. vm_compute. split; reflexivity. Qed.

(** ** The rolling cache-hit history *)

Lemma push_metric_last rate h : push_metric rate h = py_last 20 (h ++ [rate]).
Proof.
  unfold push_metric. destruct (Nat.ltb_spec 20 (length (h ++ [rate]))) as [H|H].
  - reflexivity.
  - symmetry. apply py_last_all. exact H.
Qed.

Lemma push_metric_length rate h : (length (push_metric rate h) <= 20)%nat.
Proof. rewrite push_metric_last, py_last_length. lia. Qed.

Lemma foldl_push_last (vs l : list float) :
  foldl (fun h v => push_metric v h) (py_last 20 l) vs = py_last 20 (l ++ vs).
Proof.
  revert l. induction vs as [|v vs IH]; intros l.
  - cbn. rewrite app_nil_r. reflexivity.
  - cbn [foldl]. rewrite push_metric_last, py_last_snoc_last, IH.
    rewrite <- app_assoc. reflexivity.
Qed.

Lemma foldl_push_many (vs h : list float) :
  (20 <= length vs)%nat ->
  foldl (fun h v => push_metric v h) h vs = drop (length vs - 20) vs.
Proof.
  intros H. destruct vs as [|v vs]; [cbn in H; lia|].
  cbn [foldl]. rewrite push_metric_last, foldl_push_last.
  rewrite <- app_assoc. cbn [app].
  apply (py_last_app_ge 20 h (v :: vs)). exact H.
Qed.

Lemma handle_message_history cfg m a u :
  u <> EmptyString -> has_session u a = true ->
  history_of u (snd (handle_message cfg m a))
  = if is_metric_for u m then push_metric (metric_rate m) (history_of u a)
    else history_of u a.
Proof.
  intros Hu Hs. unfold history_of, has_session in *.
  apply bool_decide_eq_true_1 in Hs. destruct Hs as [s Hs].
  rewrite handle_message_sessions. unfold sessions_step, is_metric_for.
  destruct (message_type m) eqn:Hty;
    try (rewrite (bool_decide_eq_false_2 (_ = CACHE_HIT_METRIC)) by discriminate;
         reflexivity).
  - rewrite (bool_decide_eq_false_2 (_ = CACHE_HIT_METRIC)) by discriminate.
    cbn [andb].
    destruct (p_user_id (payload m)) as [uid|]; [|reflexivity].
    destruct (p_text (payload m)) as [text|]; [|reflexivity].
    destruct (p_chat_id (payload m)) as [chat|]; [|reflexivity].
    destruct (decide (uid = u)) as [->|Hne].
    + rewrite Hs. rewrite lookup_alter_eq, Hs. reflexivity.
    + rewrite lookup_alter_ne by assumption.
      destruct (sessions a !! uid); [|rewrite lookup_insert_ne by assumption];
        reflexivity.
  - rewrite (bool_decide_eq_true_2 (_ = CACHE_HIT_METRIC)) by reflexivity.
    cbn [andb].
    destruct (p_user_id (payload m)) as [uid|];
      [|rewrite bool_decide_eq_false_2 by discriminate; reflexivity].
    destruct (decide (uid = u)) as [->|Hne].
    + rewrite (bool_decide_eq_true_2 (Some u = Some u)) by reflexivity.
      assert (String.eqb u EmptyString = false) as -> by (apply String.eqb_neq; exact Hu).
      rewrite Hs. rewrite (bool_decide_eq_true_2 (is_Some (Some s))) by eauto.
      cbn [orb negb]. rewrite lookup_alter_eq, Hs. reflexivity.
    + rewrite (bool_decide_eq_false_2 (Some uid = Some u)) by congruence.
      destruct (_ || _); [reflexivity|].
      rewrite lookup_alter_ne by assumption. reflexivity.
Qed.

Lemma handle_message_keeps_session cfg m a u :
  has_session u a = true -> has_session u (snd (handle_message cfg m a)) = true.
Proof. intros H. rewrite handle_message_has_session, H. reflexivity. Qed.

Lemma run_history cfg u msgs a :
  u <> EmptyString -> has_session u a = true ->
  history_of u (run cfg msgs a)
  = foldl (fun h v => push_metric v h) (history_of u a) (metrics_for u msgs).
Proof.
  intros Hu. revert a. induction msgs as [|m msgs IH]; intros a Hs; [reflexivity|].
  unfold run. cbn [foldl]. fold (run cfg msgs (snd (handle_message cfg m a))).
  rewrite IH by (apply handle_message_keeps_session; exact Hs).
  rewrite handle_message_history by assumption.
  unfold metrics_for. destruct (is_metric_for u m) eqn:Hm.
  - rewrite filter_cons_True by exact Hm. reflexivity.
  - rewrite filter_cons_False by (rewrite Hm; discriminate). reflexivity.
Qed.

Lemma handle_message_bounded cfg m a :
  history_bounded a -> history_bounded (snd (handle_message cfg m a)).
Proof.
  intros Hb u s. rewrite handle_message_sessions. unfold sessions_step.
  destruct (message_type m); try apply Hb.
  - destruct (p_user_id (payload m)) as [uid|]; [|apply Hb].
    destruct (p_text (payload m)) as [text|]; [|apply Hb].
    destruct (p_chat_id (payload m)) as [chat|]; [|apply Hb].
    destruct (decide (uid = u)) as [->|Hne].
    + rewrite lookup_alter_eq.
      destruct (sessions a !! u) as [s0|] eqn:E.
      * rewrite E. cbn. intros [= <-]. cbn. apply (Hb u s0 E).
      * rewrite lookup_insert_eq. cbn. intros [= <-]. cbn. lia.
    + rewrite lookup_alter_ne by assumption.
      destruct (sessions a !! uid); [|rewrite lookup_insert_ne by assumption]; apply Hb.
  - destruct (p_user_id (payload m)) as [uid|]; [|apply Hb].
    destruct (_ || _); [apply Hb|].
    destruct (decide (uid = u)) as [->|Hne].
    + rewrite lookup_alter_eq.
      destruct (sessions a !! u) as [s0|]; cbn; [|discriminate].
      intros [= <-]. cbn. apply push_metric_length.
    + rewrite lookup_alter_ne by assumption. apply Hb.
Qed.

Lemma run_bounded cfg msgs a :
  history_bounded a -> history_bounded (run cfg msgs a).
Proof.
  revert a. induction msgs as [|m msgs IH]; intros a Hb; [exact Hb|].
  unfold run. cbn [foldl]. apply IH, handle_message_bounded, Hb.
Qed.

(** C5. (1) In every state reached from a fresh actor, no history holds
    more than 20 entries. (2) After a cache-metric update for a user with a
    session, that user's history holds at most 20 entries. (3) Once [k >= 20]
    ratios have been inserted for a user with a session, the stored history
    is exactly the last 20 of them, in insertion order, whatever else was
    processed in between. (4) A cache-metric message whose user id is absent
    or has no session returns normally and leaves the actor unchanged. *)
Theorem cache_history_rolling cfg :
  (forall attached msgs, history_bounded (run cfg msgs (init attached)))
  /\ (forall m a u, u <> EmptyString -> has_session u a = true ->
        is_metric_for u m = true ->
        (length (history_of u (snd (handle_message cfg m a))) <= 20)%nat)
  /\ (forall u msgs a, u <> EmptyString -> has_session u a = true ->
        (20 <= length (metrics_for u msgs))%nat ->
        history_of u (run cfg msgs a)
        = drop (length (metrics_for u msgs) - 20) (metrics_for u msgs))
  /\ (forall m a, message_type m = CACHE_HIT_METRIC ->
        (forall u, p_user_id (payload m) = Some u -> sessions a !! u = None) ->
        handle_message cfg m a = (Return tt, a)).
Proof.
  split; [|split; [|split]].
  - intros attached msgs. apply run_bounded. intros u s. cbn.
    rewrite lookup_empty. discriminate.
  - intros m a u Hu Hs Hm. rewrite handle_message_history by assumption.
    rewrite Hm. apply push_metric_length.
  - intros u msgs a Hu Hs Hlen. rewrite run_history by assumption.
    apply foldl_push_many. exact Hlen.
  - intros m a Hty Hnone. unfold handle_message. rewrite Hty.
    unfold _update_cache_metrics. run_session.
    destruct (p_user_id (payload m)) as [uid|]; [|reflexivity].
    cbn. rewrite (Hnone uid eq_refl).
    rewrite (bool_decide_eq_false_2 (is_Some None)) by (intros [? ?]; discriminate).
    rewrite orb_true_r. reflexivity.
Qed.

(** ** Turns with a missing field *)

(** C9, amended. A user turn whose payload lacks [user_id], [text] or
    [chat_id] makes the handler raise [KeyError]; the actor is left exactly
    as it was: no session created or changed, no event, no message, no log
    line. *)
Theorem missing_field_raises cfg m a :
  message_type m = USER_MESSAGE ->
  p_user_id (payload m) = None \/ p_text (payload m) = None
  \/ p_chat_id (payload m) = None ->
  exists key, handle_message cfg m a = (Raise (Exn KeyError key), a).
Proof.
  intros Hty Hmiss. unfold handle_message. rewrite Hty.
  unfold _handle_user_message. run_session.
  destruct (p_user_id (payload m)) as [uid|]; [|eexists; reflexivity].
  destruct (p_text (payload m)) as [text|]; [|eexists; reflexivity].
  destruct (p_chat_id (payload m)) as [chat|]; [|eexists; reflexivity].
  destruct Hmiss as [H|[H|H]]; discriminate.
Qed.

(** C9 (amended) at a turn of [u1] that carries no text. *)
Lemma missing_field_raises_witness :
  exists key,
    handle_message Samples.always_config
      (Samples.message_with USER_MESSAGE (Some "u1") (Some (PInt 7)) None None None)
      Samples.session_actor_with_u1
    = (Raise (Exn KeyError key), Samples.session_actor_with_u1).
Proof.
  apply (missing_field_raises Samples.always_config
           (Samples.message_with USER_MESSAGE (Some "u1") (Some (PInt 7)) None None None)
           Samples.session_actor_with_u1).
  - reflexivity.
  - right. left. reflexivity.
Defined.

(** C9 as stated fails on a turn whose user id and text are both the empty
    string: the turn is handled without error, a session is created under
    the empty key, two events are appended (session created, prompt
    included) and the generation request is sent. *)
Lemma empty_user_id_is_processed :
  let a' := (handle_message Samples.always_config (Samples.user_turn "" "")
               (init true)).2 in
  (handle_message Samples.always_config (Samples.user_turn "" "") (init true)).1
  = Return tt
  /\ has_session "" a' = true
  /\ counter_of "" a' = 1
  /\ map event_type (events_of (trace a'))
     = ["SessionCreatedEvent"; "PromptInclusionEvent"]
  /\ map fst (sent (trace a')) = ["generation"].
Proof. vm_compute. repeat split. Qed.

(** C5 after 25 ratios for [u1]: the history is the last 20 of them. *)
Lemma cache_history_rolling_witness :
  history_of "u1"
    (run Samples.always_config
       (map (Samples.metric_message "u1") Samples.twenty_five)
       Samples.session_actor_with_u1)
  = map (fun z => nearest_binary64 z 100) (drop 5 Samples.twenty_five).
Proof.
  apply (proj1 (proj2 (proj2 (cache_history_rolling Samples.always_config)))
           "u1" (map (Samples.metric_message "u1") Samples.twenty_five)
           Samples.session_actor_with_u1).
  - discriminate.
  - vm_compute. reflexivity.
  - vm_compute. lia.
Defined.

(** The receiving side of the cache-metric loop works: with two turns of
    [u1] behind (interval 3, adaptive), the third turn gets no prompt; when
    five low ratios are delivered for [u1] in between, it gets one. *)
Lemma delivered_metrics_steer_the_policy :
  let third_turn between :=
    last (sent (trace
      (run (Samples.sample_config true true)
         ([Samples.user_turn "u1" "a"; Samples.user_turn "u1" "b"] ++ between
          ++ [Samples.user_turn "u1" "c"])
         (init true)))) in
  (fun tm => p_include_prompt (payload tm.2)) <$> third_turn []
  = Some (Some false)
  /\ (fun tm => p_include_prompt (payload tm.2))
       <$> third_turn (map (Samples.metric_message "u1") [10; 20; 10; 20; 10])
     = Some (Some true).
Proof. vm_compute. split; reflexivity. Qed.

End SessionFacts.

(** * The generation pipeline *)

Module GenerationFacts.
Import GenerationActor.

Ltac run_generation :=
  unfold bind, ret, raise, get, modify, lift, when, subscript, try_except,
    log, _append_event, send_message in *.

(** ** The backend call and the cache metric *)

Lemma collect_snoc chunks c :
  collect (chunks ++ [c]) = collect_chunk (collect chunks) c.
Proof. unfold collect. rewrite foldl_app. reflexivity. Qed.

(** The token counts are those of the usage record that ends the stream,
    with 0 for a counter the record does not have. *)
Lemma collect_final_usage chunks c u :
  usage c = Some u ->
  (collect (chunks ++ [c])).1.2 = Z.of_N (default 0%N (prompt_cache_hit_tokens u))
  /\ (collect (chunks ++ [c])).2 = Z.of_N (default 0%N (prompt_cache_miss_tokens u)).
Proof.
  intros Hu. rewrite collect_snoc. unfold collect_chunk.
  destruct (collect chunks) as [[full hit] miss]. rewrite Hu.
  split; reflexivity.
Qed.

(** A stream without a usage record counts no token. *)
Lemma collect_no_usage chunks :
  Forall (fun c => usage c = None) chunks ->
  (collect chunks).1.2 = 0 /\ (collect chunks).2 = 0.
Proof.
  induction chunks as [|c chunks IH] using rev_ind; [split; reflexivity|].
  intros H. apply Forall_app in H. destruct H as [Hc Hl].
  apply Forall_cons in Hl. destruct Hl as [Hn _].
  rewrite collect_snoc. unfold collect_chunk.
  destruct (IH Hc) as [IH1 IH2].
  destruct (collect chunks) as [[full hit] miss]. rewrite Hn.
  cbn in *. split; assumption.
Qed.

(** Token counts are never negative. *)
Lemma collect_nonneg chunks : 0 <= (collect chunks).1.2 /\ 0 <= (collect chunks).2.
Proof.
  induction chunks as [|c chunks IH] using rev_ind; [split; reflexivity|].
  rewrite collect_snoc. unfold collect_chunk.
  destruct (collect chunks) as [[full hit] miss].
  destruct (usage c); cbn in *; [split; apply N2Z.is_nonneg|exact IH].
Qed.

Lemma float_overflow_gt_1 : 1 < float_overflow.
Proof. reflexivity. Qed.

(** A share of a positive total is in range: the division returns. *)
Lemma py_truediv_share hit miss :
  0 <= hit -> 0 <= miss -> 0 < hit + miss ->
  py_truediv hit (hit + miss) = Return (nearest_binary64 hit (hit + miss)).
Proof.
  intros Hh Hm Ht. unfold py_truediv.
  destruct (Z.eqb_spec (hit + miss) 0) as [E|_]; [lia|].
  pose proof float_overflow_gt_1 as H1.
  destruct (Z.leb_spec (float_overflow * Z.abs (hit + miss)) (Z.abs hit)) as [H|_];
    [|reflexivity].
  rewrite !Z.abs_eq in H by lia. nia.
Qed.

Section BackendCall.
Variable interval : Z.
Variable backend : nat -> ApiRequest -> outcome (list Chunk).

Lemma log_cache_metrics_eq hit miss a :
  interval <> 0 -> generation_count a + 1 <> 0 ->
  0 <= hit -> 0 <= miss ->
  _log_cache_metrics interval hit miss a = (Return tt, metrics_logged interval hit miss a).
Proof.
  intros Hi Hg Hh Hm. unfold _log_cache_metrics, metrics_logged.
  destruct (Z.ltb_spec 0 (hit + miss)) as [Ht|Ht].
  - rewrite (py_truediv_share hit miss Hh Hm Ht). unfold py_mod. run_generation.
    apply Z.eqb_neq in Hi. rewrite Hi.
    cbn -[Z.add Z.modulo Z.eqb Z.ltb nearest_binary64].
    destruct (_ mod _ =? 0); [|reflexivity].
    apply Z.eqb_neq in Hg. rewrite Hg. reflexivity.
  - run_generation. reflexivity.
Qed.

Lemma metrics_logged_fields hit miss a :
  generation_count (metrics_logged interval hit miss a) = generation_count a + 1
  /\ json_failures (metrics_logged interval hit miss a) = json_failures a
  /\ actor_system (metrics_logged interval hit miss a) = actor_system a
  /\ events_of (trace (metrics_logged interval hit miss a))
     = events_of (trace a) ++ (if 0 <? hit + miss then [metric_event hit miss] else [])
  /\ sent (trace (metrics_logged interval hit miss a)) = sent (trace a)
  /\ api_calls (trace (metrics_logged interval hit miss a)) = api_calls (trace a).
Proof.
  unfold metrics_logged, events_of, sent, api_calls.
  destruct (0 <? hit + miss); cbn -[Z.add Z.modulo Z.eqb Z.ltb].
  - destruct (_ mod _ =? 0); cbn -[Z.add Z.modulo Z.eqb Z.ltb];
      rewrite ?omap_app; cbn -[Z.add Z.modulo Z.eqb Z.ltb];
      rewrite ?app_nil_r; repeat split; reflexivity.
  - rewrite app_nil_r. repeat split; reflexivity.
Qed.

Lemma call_api_eq messages use_json a chunks :
  interval <> 0 -> generation_count a + 1 <> 0 ->
  backend (count is_api_call (trace a))
    {| req_messages := messages; req_json_object := use_json |} = Return chunks ->
  _call_api interval backend messages use_json a
  = (Return (collect chunks).1.1,
     metrics_logged interval (collect chunks).1.2 (collect chunks).2
       (emit (ApiCall {| req_messages := messages; req_json_object := use_json |}) a)).
Proof.
  intros Hi Hg Hb. unfold _call_api. run_generation.
  cbn -[_log_cache_metrics collect]. rewrite Hb.
  destruct (collect_nonneg chunks) as [Hh Hm].
  destruct (collect chunks) as [[full hit] miss]. cbn -[_log_cache_metrics] in *.
  rewrite log_cache_metrics_eq by (cbn; assumption). reflexivity.
Qed.

Lemma call_api_raises messages use_json a e :
  backend (count is_api_call (trace a))
    {| req_messages := messages; req_json_object := use_json |} = Raise e ->
  _call_api interval backend messages use_json a
  = (Raise e, emit (ApiCall {| req_messages := messages; req_json_object := use_json |}) a).
Proof.
  intros Hb. unfold _call_api. run_generation.
  cbn -[_log_cache_metrics collect]. rewrite Hb. reflexivity.
Qed.

End BackendCall.

(** ** What the pipeline adds to the trace *)

Lemma extends_refl P a : extends P a a.
Proof. split; [reflexivity|]. exists []. rewrite app_nil_r. auto. Qed.

Lemma extends_trans P a b c : extends P a b -> extends P b c -> extends P a c.
Proof.
  intros [Hs1 (n1 & Ht1 & Hf1)] [Hs2 (n2 & Ht2 & Hf2)]. split; [congruence|].
  exists (n1 ++ n2). rewrite Ht2, Ht1, app_assoc. split; [reflexivity|].
  apply Forall_app. auto.
Qed.

Lemma emits_only_ret {A} P (x : A) : emits_only P (ret x).
Proof. intros a. apply extends_refl. Qed.

Lemma emits_only_raise {A} P e : emits_only P (@raise Actor A e).
Proof. intros a. apply extends_refl. Qed.

Lemma emits_only_lift {A} P (o : outcome A) : emits_only P (lift o).
Proof. intros a. apply extends_refl. Qed.

Lemma emits_only_get P : emits_only P (@get Actor).
Proof. intros a. apply extends_refl. Qed.

Lemma emits_only_bind {A B} P (c : M Actor A) (k : A -> M Actor B) :
  emits_only P c -> (forall x, emits_only P (k x)) -> emits_only P (bind c k).
Proof.
  intros Hc Hk a. unfold bind. specialize (Hc a).
  destruct (c a) as [[x|e] a1]; cbn in *; [|exact Hc].
  eapply extends_trans; [exact Hc|apply Hk].
Qed.

Lemma emits_only_try_except {A} P (c : M Actor A) handled h :
  emits_only P c -> (forall e, emits_only P (h e)) -> emits_only P (try_except c handled h).
Proof.
  intros Hc Hh a. unfold try_except. specialize (Hc a).
  destruct (c a) as [[x|e] a1]; cbn in *; [exact Hc|].
  destruct (handled e); [|exact Hc].
  eapply extends_trans; [exact Hc|apply Hh].
Qed.

Lemma emits_only_emit (P : Effect -> Prop) eff : P eff -> emits_only P (modify (emit eff)).
Proof.
  intros H a. split; [reflexivity|]. exists [eff]. split; [reflexivity|]. auto.
Qed.

Lemma emits_only_silent (P : Effect -> Prop) (f : Actor -> Actor) :
  (forall a, trace (f a) = trace a) -> (forall a, actor_system (f a) = actor_system a) ->
  emits_only P (modify f).
Proof.
  intros Ht Hs a. split; [apply Hs|]. exists []. cbn. rewrite Ht, app_nil_r. auto.
Qed.

Ltac emits_step :=
  first
    [ apply emits_only_ret | apply emits_only_raise | apply emits_only_lift
    | apply emits_only_get
    | apply emits_only_emit; exact I
    | apply emits_only_silent; intros; reflexivity
    | apply emits_only_bind; [|intros ?]
    | apply emits_only_try_except; [|intros ?] ].

Section TraceOfGenerate.
Variable cfg : PromptConfig.
Variable PROMPTS : string -> string -> string.
Variable interval : Z.
Variable json_loads : string -> parsed.
Variable backend : nat -> ApiRequest -> outcome (list Chunk).
Variable Pcall : ApiRequest -> Prop.
Variable Psend : string -> ActorMessage -> Prop.

Lemma log_cache_metrics_emits hit miss :
  emits_only (allowed Pcall Psend) (_log_cache_metrics interval hit miss).
Proof.
  unfold _log_cache_metrics, log, _append_event.
  emits_step; [emits_step|].
  destruct (0 <? hit + miss); [|emits_step].
  repeat emits_step.
  destruct (_ =? 0); [|emits_step]. destruct (_ =? 0); emits_step.
Qed.

Lemma call_api_emits messages use_json :
  Pcall {| req_messages := messages; req_json_object := use_json |} ->
  emits_only (allowed Pcall Psend) (_call_api interval backend messages use_json).
Proof.
  intros H. unfold _call_api.
  emits_step; [emits_step|]. emits_step; [apply emits_only_emit; exact H|].
  apply emits_only_bind; [emits_step|intros chunks].
  destruct (collect chunks) as [[full hit] miss].
  emits_step; [apply log_cache_metrics_emits|emits_step].
Qed.

Lemma extract_from_json_emits response user_id :
  emits_only (allowed Pcall Psend) (_extract_from_json json_loads response user_id).
Proof.
  unfold _extract_from_json, log.
  destruct (json_loads response) as [v|msg]; [|repeat emits_step].
  destruct v; try (repeat emits_step).
  destruct (dict_get _ _); repeat emits_step.
Qed.

Lemma generate_response_emits text user_id include_prompt :
  Pcall {| req_messages := _format_context cfg PROMPTS text include_prompt false;
           req_json_object := use_json_mode cfg |} ->
  Pcall {| req_messages := _format_context cfg PROMPTS text include_prompt true;
           req_json_object := false |} ->
  emits_only (allowed Pcall Psend)
    (_generate_response cfg PROMPTS interval json_loads backend text user_id
       include_prompt).
Proof.
  intros H1 H2.
  assert (Hh : forall r e, emits_only (allowed Pcall Psend)
            (on_json_decode_error cfg PROMPTS interval backend text user_id include_prompt
               (use_json_mode cfg) r e)).
  { intros r e. unfold on_json_decode_error, _log_json_failure, log, _append_event.
    emits_step; [emits_step|]. emits_step; [emits_step|].
    destruct (_ && _).
    - emits_step; [emits_step|]. emits_step; [apply call_api_emits; exact H2|emits_step].
    - destruct r; emits_step. }
  unfold _generate_response.
  apply emits_only_bind; [|intros first].
  - emits_step.
    + emits_step; [apply call_api_emits; exact H1|emits_step].
    + emits_step; [apply Hh|emits_step].
  - destruct first as [response|returned]; [|emits_step].
    emits_step; [|apply Hh].
    destruct (use_json_mode cfg); [apply extract_from_json_emits|emits_step].
Qed.

End TraceOfGenerate.

Lemma sent_none Pcall new :
  Forall (allowed Pcall (fun _ _ => False)) new -> sent new = [].
Proof.
  induction 1 as [|eff new H _ IH]; [reflexivity|].
  destruct eff; cbn in *; try exact IH. contradiction.
Qed.

Lemma api_calls_allowed Pcall Psend new :
  Forall (allowed Pcall Psend) new -> Forall Pcall (api_calls new).
Proof.
  induction 1 as [|eff new H _ IH]; [constructor|].
  destruct eff; cbn in *; try exact IH. constructor; assumption.
Qed.

Lemma starts_with_bind {A B} eff P (c : M Actor A) (k : A -> M Actor B) :
  starts_with eff P c -> (forall x, emits_only P (k x)) -> starts_with eff P (bind c k).
Proof.
  intros Hc Hk a. unfold bind. destruct (Hc a) as (new & Ht & Hf).
  destruct (c a) as [[x|e] a1]; cbn in *; [|eauto].
  destruct (Hk x a1) as [_ (new' & Ht' & Hf')].
  exists (new ++ new'). rewrite Ht', Ht, <- app_assoc. split; [reflexivity|].
  apply Forall_app. auto.
Qed.

Lemma starts_with_try_except {A} eff P (c : M Actor A) handled h :
  starts_with eff P c -> (forall e, emits_only P (h e)) ->
  starts_with eff P (try_except c handled h).
Proof.
  intros Hc Hh a. unfold try_except. destruct (Hc a) as (new & Ht & Hf).
  destruct (c a) as [[x|e] a1]; cbn in *; [eauto|].
  destruct (handled e); [|eauto].
  destruct (Hh e a1) as [_ (new' & Ht' & Hf')].
  exists (new ++ new'). rewrite Ht', Ht, <- app_assoc. split; [reflexivity|].
  apply Forall_app. auto.
Qed.

Section FirstRequest.
Variable cfg : PromptConfig.
Variable PROMPTS : string -> string -> string.
Variable interval : Z.
Variable json_loads : string -> parsed.
Variable backend : nat -> ApiRequest -> outcome (list Chunk).
Variable Pcall : ApiRequest -> Prop.
Variable Psend : string -> ActorMessage -> Prop.

Lemma call_api_starts messages use_json :
  starts_with (ApiCall {| req_messages := messages; req_json_object := use_json |})
    (allowed Pcall Psend) (_call_api interval backend messages use_json).
Proof.
  intros a. unfold _call_api.
  set (req := {| req_messages := messages; req_json_object := use_json |}).
  set (rest := bind (lift (backend (count is_api_call (trace a)) req))
                 (fun chunks => let '(full_response, hit, miss) := collect chunks in
                                bind (_log_cache_metrics interval hit miss)
                                     (fun _ => ret full_response))).
  assert (Hrest : emits_only (allowed Pcall Psend) rest).
  { unfold rest. apply emits_only_bind; [emits_step|intros chunks].
    destruct (collect chunks) as [[full hit] miss].
    emits_step; [apply log_cache_metrics_emits|emits_step]. }
  destruct (Hrest (emit (ApiCall req) a)) as [_ (new & Ht & Hf)].
  exists new. split; [|exact Hf].
  change (trace (rest (emit (ApiCall req) a)).2 = trace a ++ ApiCall req :: new).
  rewrite Ht. cbn [emit trace]. rewrite <- app_assoc. reflexivity.
Qed.

Lemma generate_response_starts text user_id include_prompt :
  Pcall {| req_messages := _format_context cfg PROMPTS text include_prompt true;
           req_json_object := false |} ->
  starts_with
    (ApiCall {| req_messages := _format_context cfg PROMPTS text include_prompt false;
                req_json_object := use_json_mode cfg |})
    (allowed Pcall Psend)
    (_generate_response cfg PROMPTS interval json_loads backend text user_id
       include_prompt).
Proof.
  intros H2.
  assert (Hh : forall r e, emits_only (allowed Pcall Psend)
            (on_json_decode_error cfg PROMPTS interval backend text user_id include_prompt
               (use_json_mode cfg) r e)).
  { intros r e. unfold on_json_decode_error, _log_json_failure, log, _append_event.
    emits_step; [emits_step|]. emits_step; [emits_step|].
    destruct (_ && _).
    - emits_step; [emits_step|]. emits_step; [apply call_api_emits; exact H2|emits_step].
    - destruct r; emits_step. }
  unfold _generate_response.
  apply starts_with_bind.
  - apply starts_with_try_except.
    + apply starts_with_bind; [apply call_api_starts|intros; emits_step].
    + intros e. emits_step; [apply Hh|emits_step].
  - intros [response|returned]; [|emits_step].
    emits_step; [|apply Hh].
    destruct (use_json_mode cfg); [apply extract_from_json_emits|emits_step].
Qed.

End FirstRequest.

(** ** The message handler *)

Section Replies.
Variable cfg : PromptConfig.
Variable PROMPTS : string -> string -> string.
Variable interval : Z.
Variable json_loads : string -> parsed.
Variable backend : nat -> ApiRequest -> outcome (list Chunk).

(** A failure of the first backend call (other than a [JSONDecodeError])
    is the failure of the generation. *)
Lemma generate_response_backend_raises text uid include_prompt a e :
  backend (count is_api_call (trace a))
    {| req_messages := _format_context cfg PROMPTS text include_prompt false;
       req_json_object := use_json_mode cfg |} = Raise e ->
  is_JSONDecodeError e = false ->
  (_generate_response cfg PROMPTS interval json_loads backend text uid
     include_prompt a).1 = Raise e.
Proof.
  intros Hb He. unfold _generate_response, bind, try_except. cbv beta.
  rewrite (call_api_raises interval backend _ _ a e Hb). cbv iota beta.
  rewrite He. reflexivity.
Qed.

(** [handle_message] on a request that carries the three required fields. *)
Lemma handle_message_eq m a uid chat text :
  message_type m = GENERATE_RESPONSE ->
  p_user_id (payload m) = Some uid -> p_chat_id (payload m) = Some chat ->
  p_text (payload m) = Some text ->
  handle_message cfg PROMPTS interval json_loads backend m a =
  let '(o, a1) :=
    _generate_response cfg PROMPTS interval json_loads backend text uid
      (default true (p_include_prompt (payload m))) (emit (Log INFO) a) in
  let checked := match o with
                 | Return v => match slice_50 v with
                               | Return _ => Return v
                               | Raise e => Raise e
                               end
                 | Raise e => Raise e
                 end in
  match checked with
  | Return v =>
    (Return tt,
     (if actor_system a1 then emit (SendMessage "telegram" (bot_response_for uid chat v))
      else id) (emit (Log INFO) a1))
  | Raise e =>
    (Return tt,
     (if actor_system a1 then emit (SendMessage "telegram" (error_for uid chat e))
      else id) (emit (Log LOG_ERROR) a1))
  end.
Proof.
  intros Hty Hu Hc Ht. unfold handle_message.
  rewrite Hty, Hu, Hc, Ht. rewrite bool_decide_eq_true_2 by reflexivity.
  cbn [negb]. run_generation. cbn -[_generate_response slice_50].
  destruct (_generate_response _ _ _ _ _ _ _ _ _) as [[v|e] a1];
    cbn -[slice_50].
  - destruct (slice_50 v) as [w|e]; cbn; destruct (actor_system a1); reflexivity.
  - destruct (actor_system a1); reflexivity.
Qed.

Lemma handle_message_emits m :
  emits_only
    (allowed (fun _ => True)
       (fun to msg => to = "telegram"
                      /\ (message_type msg = BOT_RESPONSE \/ message_type msg = ERROR)))
    (handle_message cfg PROMPTS interval json_loads backend m).
Proof.
  unfold handle_message, log, send_message, subscript.
  destruct (negb _); [emits_step|].
  destruct (p_user_id (payload m)) as [uid|]; [|repeat emits_step].
  emits_step; [emits_step|].
  destruct (p_chat_id (payload m)) as [chat|]; [|repeat emits_step].
  emits_step; [emits_step|].
  destruct (p_text (payload m)) as [text|]; [|repeat emits_step].
  emits_step; [emits_step|]. emits_step; [emits_step|].
  emits_step.
  - emits_step; [apply generate_response_emits; exact I|].
    repeat (emits_step; [emits_step|]).
    unfold when. destruct (actor_system _); [|emits_step].
    apply emits_only_emit. cbn. auto.
  - repeat (emits_step; [emits_step|]).
    unfold when. destruct (actor_system _); [|emits_step].
    apply emits_only_emit. cbn. auto.
Qed.

(** C7, a defect of the code. Whatever the request and the backend do,
    every message the generation pipeline sends while handling a message
    goes to the transport boundary ([telegram]) and is a [bot_response] or
    an [error]: no cache-metric message is ever sent to the session engine,
    whose handler and adaptive branch wait for one; the computed rate
    leaves the pipeline only inside the [CacheHitMetricEvent]. *)
Theorem generation_sends_only_replies m a :
  exists new,
    trace (handle_message cfg PROMPTS interval json_loads backend m a).2 = trace a ++ new
    /\ forall to msg, In (SendMessage to msg) new ->
         to = "telegram"
         /\ (message_type msg = BOT_RESPONSE \/ message_type msg = ERROR)
         /\ message_type msg <> CACHE_HIT_METRIC.
Proof.
  destruct (handle_message_emits m a) as [_ (new & Ht & Hf)].
  exists new. split; [exact Ht|]. intros to msg Hin.
  rewrite Forall_forall in Hf. apply list_elem_of_In in Hin.
  specialize (Hf _ Hin). cbn in Hf. destruct Hf as [-> Hty].
  repeat split; [exact Hty|]. destruct Hty as [-> | ->]; discriminate.
Qed.

(** C8, amended. For a [generate_response] message whose payload carries
    [user_id], [chat_id] and [text], handled by an actor attached to an
    actor system: the handler returns normally and sends exactly one
    message, to [telegram]. When generation raised [e], it is an [error]
    message carrying the user id, the chat id, [str(e)] and the error type
    [generation_error]; when generation returned a string, it is a
    [bot_response] carrying that string. *)
Theorem handle_message_always_replies m a uid chat text :
  message_type m = GENERATE_RESPONSE ->
  p_user_id (payload m) = Some uid -> p_chat_id (payload m) = Some chat ->
  p_text (payload m) = Some text ->
  actor_system a = true ->
  exists a' reply,
    handle_message cfg PROMPTS interval json_loads backend m a = (Return tt, a')
    /\ sent (trace a') = sent (trace a) ++ [("telegram", reply)]
    /\ match (_generate_response cfg PROMPTS interval json_loads backend text uid
                 (default true (p_include_prompt (payload m)))
                 (emit (Log INFO) a)).1 with
       | Raise e =>
         message_type reply = ERROR
         /\ p_user_id (payload reply) = Some uid
         /\ p_chat_id (payload reply) = Some chat
         /\ p_error (payload reply) = Some (exn_str e)
         /\ p_error_type (payload reply) = Some "generation_error"
       | Return (PStr s) =>
         message_type reply = BOT_RESPONSE
         /\ p_user_id (payload reply) = Some uid
         /\ p_chat_id (payload reply) = Some chat
         /\ p_text (payload reply) = Some (PStr s)
       | Return _ => message_type reply = BOT_RESPONSE \/ message_type reply = ERROR
       end.
Proof.
  intros Hty Hu Hc Ht Hsys.
  rewrite (handle_message_eq m a uid chat text Hty Hu Hc Ht).
  pose proof (generate_response_emits cfg PROMPTS interval json_loads backend
                (fun _ => True) (fun _ _ => False) text uid
                (default true (p_include_prompt (payload m))) I I
                (emit (Log INFO) a)) as [Hs (new & Hnew & Hf)].
  destruct (_generate_response _ _ _ _ _ _ _ _ _) as [o a1]. cbn [fst snd] in *.
  assert (Hsent : sent (trace a1) = sent (trace a)).
  { rewrite Hnew. cbn [emit trace]. rewrite !sent_app.
    rewrite (sent_none _ _ Hf). cbn. rewrite !app_nil_r. reflexivity. }
  cbn [emit actor_system] in Hs. rewrite Hsys in Hs.
  destruct o as [v|e].
  - destruct (slice_50 v) as [w|e] eqn:Hsl; rewrite Hs.
    + eexists _, _. split; [reflexivity|]. split.
      * cbn [emit trace]. rewrite !sent_app, Hsent. cbn. rewrite app_nil_r. reflexivity.
      * destruct v; cbn; auto.
    + eexists _, _. split; [reflexivity|]. split.
      * cbn [emit trace]. rewrite !sent_app, Hsent. cbn. rewrite app_nil_r. reflexivity.
      * destruct v; cbn; auto. discriminate Hsl.
  - rewrite Hs. eexists _, _. split; [reflexivity|]. split.
    + cbn [emit trace]. rewrite !sent_app, Hsent. cbn. rewrite app_nil_r. reflexivity.
    + cbn. auto.
Qed.

End Replies.

(** ** The requests of a turn *)

Section Requests.
Variable cfg : PromptConfig.
Variable PROMPTS : string -> string -> string.
Variable interval : Z.
Variable json_loads : string -> parsed.
Variable backend : nat -> ApiRequest -> outcome (list Chunk).

(** C10. A [generate_response] message without an [include_prompt] field
    (and with the three required fields) is handled exactly as the same
    message with [include_prompt] set to true, and the first request it
    hands to the backend has the system prompt (the structured-output
    variant under JSON mode, the plain one otherwise) in front of the
    user's text; so has every later request of the same turn. *)
Theorem include_prompt_defaults_to_true m a uid chat text :
  message_type m = GENERATE_RESPONSE ->
  p_user_id (payload m) = Some uid -> p_chat_id (payload m) = Some chat ->
  p_text (payload m) = Some text ->
  p_include_prompt (payload m) = None ->
  handle_message cfg PROMPTS interval json_loads backend m a
  = handle_message cfg PROMPTS interval json_loads backend
      (set_include_prompt (Some true) m) a
  /\ exists later,
       api_calls (trace (handle_message cfg PROMPTS interval json_loads backend m a).2)
       = api_calls (trace a)
         ++ {| req_messages :=
                 prompted_context
                   (PROMPTS "base" (if use_json_mode cfg then "json" else "normal")) text;
               req_json_object := use_json_mode cfg |} :: later
       /\ Forall (fun r => exists p, req_messages r = prompted_context p text) later.
Proof.
  intros Hty Hu Hc Ht Hnone. split.
  - rewrite (handle_message_eq cfg PROMPTS interval json_loads backend m a uid chat text
               Hty Hu Hc Ht).
    rewrite (handle_message_eq cfg PROMPTS interval json_loads backend
               (set_include_prompt (Some true) m) a uid chat text Hty Hu Hc Ht).
    cbn [set_include_prompt payload p_include_prompt]. rewrite Hnone. reflexivity.
  - rewrite (handle_message_eq cfg PROMPTS interval json_loads backend m a uid chat text
               Hty Hu Hc Ht).
    rewrite Hnone. cbn [default from_option].
    destruct (generate_response_starts cfg PROMPTS interval json_loads backend
                (fun r => exists p, req_messages r = prompted_context p text)
                (fun _ _ => True) text uid true) with (a := emit (Log INFO) a)
      as (new & Hnew & Hf).
    { eexists. reflexivity. }
    destruct (_generate_response _ _ _ _ _ _ _ _ _) as [o a1]. cbn [snd] in Hnew.
    exists (api_calls new). split.
    + assert (Hcalls : api_calls (trace a1)
                = api_calls (trace a)
                  ++ {| req_messages :=
                          prompted_context
                            (PROMPTS "base"
                               (if use_json_mode cfg then "json" else "normal"))
                            text;
                        req_json_object := use_json_mode cfg |} :: api_calls new).
      { rewrite Hnew. cbn [emit trace]. rewrite !api_calls_app. cbn.
        rewrite app_nil_r. unfold _format_context, prompted_context.
        destruct (use_json_mode cfg); reflexivity. }
      destruct o as [v|e]; [destruct (slice_50 v)|]; cbn -[api_calls];
        destruct (actor_system a1); cbn [emit trace id];
        rewrite ?api_calls_app; cbn; rewrite ?app_nil_r; exact Hcalls.
    + eapply api_calls_allowed. exact Hf.
Qed.

(** C6. When the backend call succeeds (the log interval is non-zero and
    the generation counter non-negative) and the stream yields the text
    [full] and the token counts [hit] and [miss]: [_call_api] returns
    [full] and the generation counter has grown by one.  When
    [hit + miss > 0] the division [hit / (hit + miss)] returns (the
    quotient of two [int]s, rounded once to binary64) and the events
    appended are exactly one [CacheHitMetricEvent] on stream [metrics]
    carrying [hit], [miss] and that quotient; otherwise no event is
    appended. *)
Theorem cache_hit_metric_event messages use_json a chunks full hit miss :
  interval <> 0 -> 0 <= generation_count a ->
  backend (count is_api_call (trace a))
    {| req_messages := messages; req_json_object := use_json |} = Return chunks ->
  collect chunks = (full, hit, miss) ->
  exists a',
    _call_api interval backend messages use_json a = (Return full, a')
    /\ generation_count a' = generation_count a + 1
    /\ if 0 <? hit + miss then
         exists rate,
           py_truediv hit (hit + miss) = Return rate
           /\ events_of (trace a')
              = events_of (trace a)
                ++ [ {| stream_id := "metrics"; event_type := "CacheHitMetricEvent";
                        data := CacheHitMetricData hit miss rate;
                        version := 0; correlation_id := None |} ]
       else events_of (trace a') = events_of (trace a).
Proof.
  intros Hi Hg Hb Hc.
  rewrite (call_api_eq interval backend messages use_json a chunks Hi)
    by (try lia; exact Hb).
  destruct (collect_nonneg chunks) as [Hh Hm].
  rewrite Hc in *. cbn [fst snd] in *. eexists. split; [reflexivity|].
  destruct (metrics_logged_fields interval hit miss
              (emit (ApiCall {| req_messages := messages;
                                req_json_object := use_json |}) a))
    as (Hgc & _ & _ & Hev & _).
  split; [exact Hgc|]. rewrite Hev. cbn [emit trace]. rewrite events_of_app. cbn.
  rewrite app_nil_r.
  destruct (Z.ltb_spec 0 (hit + miss)) as [Ht|Ht].
  - exists (nearest_binary64 hit (hit + miss)).
    split; [exact (py_truediv_share hit miss Hh Hm Ht)|reflexivity].
  - rewrite app_nil_r. reflexivity.
Qed.

(** ** A parsed reply without a [response] field *)

(** The [ValueError] of [_extract_from_json] is not a [JSONDecodeError]:
    it passes the [except] clause of [_generate_response] untouched. *)
Lemma generate_response_missing_field text uid include_prompt a chunks v :
  use_json_mode cfg = true ->
  interval <> 0 -> 0 <= generation_count a ->
  backend (count is_api_call (trace a))
    {| req_messages := _format_context cfg PROMPTS text include_prompt false;
       req_json_object := true |} = Return chunks ->
  json_loads (collect chunks).1.1 = Parsed v ->
  response_field v = None ->
  _generate_response cfg PROMPTS interval json_loads backend text uid include_prompt a
  = (Raise (Exn ValueError "JSON doesn't contain 'response' field"),
     emit (Log DEBUG)
       (emit (Log LOG_ERROR)
          (metrics_logged interval (collect chunks).1.2 (collect chunks).2
             (emit (ApiCall
                      {| req_messages :=
                           _format_context cfg PROMPTS text include_prompt false;
                         req_json_object := true |}) a)))).
Proof.
  intros Hjson Hi Hg Hb Hparse Hfield.
  unfold _generate_response. rewrite Hjson.
  unfold bind, try_except, ret. cbv beta.
  rewrite (call_api_eq interval backend _ true a chunks Hi) by (try lia; exact Hb).
  cbv iota beta.
  unfold _extract_from_json. rewrite Hparse.
  set (a1 := metrics_logged _ _ _ _).
  assert (Hfail : forall (k : pyval -> M Actor pyval),
    (match v with
     | PDict items =>
       match dict_get "response" items with
       | Some v0 => k v0
       | None => bind (log LOG_ERROR) (fun _ => bind (log DEBUG) (fun _ =>
                   raise (Exn ValueError "JSON doesn't contain 'response' field")))
       end
     | _ => bind (log LOG_ERROR) (fun _ => bind (log DEBUG) (fun _ =>
                   raise (Exn ValueError "JSON doesn't contain 'response' field")))
     end) a1
    = (Raise (Exn ValueError "JSON doesn't contain 'response' field"),
       emit (Log DEBUG) (emit (Log LOG_ERROR) a1))).
  { intros k. destruct v; try reflexivity. cbn in Hfield. rewrite Hfield. reflexivity. }
  fold (@bind Actor unit pyval).
  rewrite Hfail. reflexivity.
Qed.

(** C2. Under JSON mode, when the backend text parses to a value that is
    not a mapping with a [response] field, [_generate_response] raises the
    [ValueError] instead of recovering: the failure counter is unchanged,
    no [JSONModeFailureEvent] is appended, and the only request made is the
    first one (no fallback call), whether or not JSON fallback is enabled. *)
Theorem missing_response_field_not_recovered text uid include_prompt a chunks v :
  use_json_mode cfg = true ->
  interval <> 0 -> 0 <= generation_count a ->
  backend (count is_api_call (trace a))
    {| req_messages := _format_context cfg PROMPTS text include_prompt false;
       req_json_object := true |} = Return chunks ->
  json_loads (collect chunks).1.1 = Parsed v ->
  response_field v = None ->
  exists a',
    _generate_response cfg PROMPTS interval json_loads backend text uid include_prompt a
    = (Raise (Exn ValueError "JSON doesn't contain 'response' field"), a')
    /\ json_failures a' = json_failures a
    /\ filter (fun e => event_type e = "JSONModeFailureEvent") (events_of (trace a'))
       = filter (fun e => event_type e = "JSONModeFailureEvent") (events_of (trace a))
    /\ api_calls (trace a')
       = api_calls (trace a)
         ++ [ {| req_messages := _format_context cfg PROMPTS text include_prompt false;
                 req_json_object := true |} ].
Proof.
  intros Hjson Hi Hg Hb Hparse Hfield.
  rewrite (generate_response_missing_field text uid include_prompt a chunks v)
    by assumption.
  eexists. split; [reflexivity|].
  destruct (metrics_logged_fields interval (collect chunks).1.2 (collect chunks).2
              (emit (ApiCall
                       {| req_messages :=
                            _format_context cfg PROMPTS text include_prompt false;
                          req_json_object := true |}) a))
    as (_ & Hjf & _ & Hev & _ & Hcalls).
  split; [exact Hjf|]. split.
  - cbn [emit trace]. rewrite !events_of_app, Hev. cbn [emit trace].
    rewrite events_of_app. cbn. rewrite !app_nil_r.
    rewrite filter_app. destruct (0 <? _); cbn; rewrite ?app_nil_r; reflexivity.
  - cbn [emit trace]. rewrite !api_calls_app, Hcalls. cbn [emit trace].
    rewrite api_calls_app. cbn. rewrite !app_nil_r. reflexivity.
Qed.

(** C3. Under JSON mode, when the backend text parses to a value that is
    not a mapping with a [response] field, the request fails: the one
    message [handle_message] sends is an [error] message with the
    [ValueError]'s text, not a [bot_response] with the raw backend text
    (whether or not JSON fallback is enabled). *)
Theorem missing_response_field_fails_request m a uid chat text chunks v :
  use_json_mode cfg = true ->
  interval <> 0 -> 0 <= generation_count a ->
  message_type m = GENERATE_RESPONSE ->
  p_user_id (payload m) = Some uid -> p_chat_id (payload m) = Some chat ->
  p_text (payload m) = Some text ->
  actor_system a = true ->
  backend (count is_api_call (trace a))
    {| req_messages :=
         _format_context cfg PROMPTS text
           (default true (p_include_prompt (payload m))) false;
       req_json_object := true |} = Return chunks ->
  json_loads (collect chunks).1.1 = Parsed v ->
  response_field v = None ->
  exists a',
    handle_message cfg PROMPTS interval json_loads backend m a = (Return tt, a')
    /\ sent (trace a')
       = sent (trace a)
         ++ [("telegram",
              error_for uid chat
                (Exn ValueError "JSON doesn't contain 'response' field"))].
Proof.
  intros Hjson Hi Hg Hty Hu Hc Ht Hsys Hb Hparse Hfield.
  rewrite (handle_message_eq cfg PROMPTS interval json_loads backend m a uid chat text
             Hty Hu Hc Ht).
  rewrite (generate_response_missing_field text uid _ (emit (Log INFO) a) chunks v);
    try assumption.
  2:{ cbn [emit trace]. rewrite count_snoc. cbn. rewrite Nat.add_0_r. exact Hb. }
  destruct (metrics_logged_fields interval (collect chunks).1.2 (collect chunks).2
              (emit (ApiCall {| req_messages :=
                                  _format_context cfg PROMPTS text
                                    (default true (p_include_prompt (payload m))) false;
                                req_json_object := true |}) (emit (Log INFO) a)))
    as (_ & _ & Hs & _ & Hsent & _).
  cbv zeta iota beta. cbn [emit actor_system]. rewrite Hs. cbn [emit actor_system].
  rewrite Hsys. eexists. split; [reflexivity|].
  cbn [emit trace]. rewrite !sent_app, Hsent. cbn [emit trace].
  rewrite !sent_app. cbn. rewrite !app_nil_r. reflexivity.
Qed.

End Requests.

(** ** The statements at the sample inputs *)

Section AtSamples.
Import Samples.

Local Abbreviation sample_call :=
  (_call_api 10 (backend_says text_with_response)
     [ {| role := "user"; content := PStr "hello" |} ] true).

(** C6 with 30 cached and 70 uncached prompt tokens: one event, carrying
    the binary64 number nearest to 0.30. *)
Lemma cache_hit_metric_event_witness :
  exists a',
    sample_call (init true) = (Return text_with_response, a')
    /\ generation_count a' = 1
    /\ events_of (trace a')
       = [ {| stream_id := "metrics"; event_type := "CacheHitMetricEvent";
              data := CacheHitMetricData 30 70 0x1.3333333333333p-2%float;
              version := 0; correlation_id := None |} ].
Proof.
  destruct (cache_hit_metric_event 10 (backend_says text_with_response)
              [ {| role := "user"; content := PStr "hello" |} ] true (init true)
              (one_chunk text_with_response 30 70) text_with_response 30 70)
    as (a' & Hcall & Hcount & rate & Hrate & Hevents).
  - discriminate.
  - cbn. lia.
  - reflexivity.
  - reflexivity.
  - exists a'. split; [exact Hcall|]. split; [exact Hcount|].
    injection Hrate as <-. exact Hevents.
Defined.

(** The quotient is rounded once, whatever the size of the operands:
    [(2^53 + 1) / (2^53 + 3)] is [0x1.ffffffffffffep-1], where dividing the
    operands rounded to binary64 would give [0x1.ffffffffffffcp-1]; the
    largest finite number is reached, and half an ulp above it the
    division raises. *)
Lemma py_truediv_rounds_once :
  py_truediv (2 ^ 53 + 1) (2 ^ 53 + 3) = Return 0x1.ffffffffffffep-1%float
  /\ py_truediv 1 3 = Return 0x1.5555555555555p-2%float
  /\ py_truediv 0 (-5) = Return (-0)%float
  /\ py_truediv 1 (2 ^ 1075) = Return 0%float
  /\ py_truediv (float_overflow - 1) 1 = Return 0x1.fffffffffffffp+1023%float
  /\ py_truediv float_overflow 1
     = Raise (Exn OverflowError "integer division result too large for a float")
  /\ py_truediv 1 0 = Raise (Exn ZeroDivisionError "division by zero").
Proof. repeat split; vm_compute; reflexivity. Qed.

(** With no token counted the generation counter still grows and no event
    is appended. *)
Lemma cache_hit_metric_skipped :
  exists a',
    _call_api 10 (fun _ _ => Return (one_chunk "hi" 0 0))
      [ {| role := "user"; content := PStr "hello" |} ] false (init true)
    = (Return "hi", a')
    /\ generation_count a' = 1
    /\ events_of (trace a') = [].
Proof. eexists. vm_compute. repeat split. Qed.

(** C2 at the reply [{"answer": "hi"}] with JSON mode and JSON fallback
    both enabled: no [JSONModeFailureEvent], no second request. *)
Lemma missing_response_field_not_recovered_witness :
  exists a',
    _generate_response (sample_config true true) sample_PROMPTS 10 sample_json_loads
      (backend_says text_without_response) (PStr "hello") "u1" true (init true)
    = (Raise (Exn ValueError "JSON doesn't contain 'response' field"), a')
    /\ json_failures a' = 0
    /\ filter (fun e => event_type e = "JSONModeFailureEvent") (events_of (trace a'))
       = []
    /\ api_calls (trace a')
       = [ {| req_messages := prompted_context "prompt:base:json" (PStr "hello");
              req_json_object := true |} ].
Proof.
  apply (missing_response_field_not_recovered (sample_config true true) sample_PROMPTS
           10 sample_json_loads (backend_says text_without_response)
           (PStr "hello") "u1" true (init true)
           (one_chunk text_without_response 30 70)
           (PDict [("answer", PStr "hi")])).
  - reflexivity.
  - discriminate.
  - cbn. lia.
  - reflexivity.
  - reflexivity.
  - reflexivity.
Defined.

(** C3 at the reply [{"answer": "hi"}] with JSON mode enabled and JSON
    fallback disabled: the user gets an error message, not the raw text. *)
Lemma missing_response_field_fails_request_witness :
  exists a',
    handle_message (sample_config true false) sample_PROMPTS 10 sample_json_loads
      (backend_says text_without_response) (generate_request None) (init true)
    = (Return tt, a')
    /\ sent (trace a')
       = [("telegram",
           error_for "u1" (PInt 7)
             (Exn ValueError "JSON doesn't contain 'response' field"))].
Proof.
  apply (missing_response_field_fails_request (sample_config true false) sample_PROMPTS
           10 sample_json_loads (backend_says text_without_response)
           (generate_request None) (init true) "u1" (PInt 7) (PStr "hello")
           (one_chunk text_without_response 30 70)
           (PDict [("answer", PStr "hi")])).
  - reflexivity.
  - discriminate.
  - cbn. lia.
  - reflexivity.
  - reflexivity.
  - reflexivity.
  - reflexivity.
  - reflexivity.
  - reflexivity.
  - reflexivity.
  - reflexivity.
Defined.

(** The sibling path: the reply [not json] raises the [JSONDecodeError],
    which is recovered. With fallback enabled: one [JSONModeFailureEvent],
    then one plain request, whose text is the answer. With fallback
    disabled: one event and the raw text. *)
Lemma json_decode_error_is_recovered :
  let run fallback :=
    (handle_message (sample_config true fallback) sample_PROMPTS 10 sample_json_loads
       (backend_says "not json") (generate_request None) (init true)).2 in
  map event_type (events_of (trace (run true)))
  = ["CacheHitMetricEvent"; "JSONModeFailureEvent"]
  /\ map req_json_object (api_calls (trace (run true))) = [true; false]
  /\ sent (trace (run true))
     = [("telegram", bot_response_for "u1" (PInt 7) (PStr "plain hello"))]
  /\ map event_type (events_of (trace (run false)))
     = ["CacheHitMetricEvent"; "JSONModeFailureEvent"]
  /\ map req_json_object (api_calls (trace (run false))) = [true]
  /\ sent (trace (run false))
     = [("telegram", bot_response_for "u1" (PInt 7) (PStr "not json"))].
Proof. vm_compute. repeat split. Qed.

(** C7 fails on a turn whose backend call succeeds with 30 cached and 70
    uncached prompt tokens: the rate is computed and put in the
    [CacheHitMetricEvent], the only message sent is the [bot_response] to
    [telegram], and no sent message is a cache-metric message. *)
Lemma cache_hit_rate_not_forwarded :
  let a' :=
    (handle_message (sample_config true true) sample_PROMPTS 10 sample_json_loads
       (backend_says text_with_response) (generate_request None) (init true)).2 in
  map data (events_of (trace a'))
  = [CacheHitMetricData 30 70 0x1.3333333333333p-2%float]
  /\ sent (trace a')
     = [("telegram", bot_response_for "u1" (PInt 7) (PStr "hi"))]
  /\ ~ (exists to msg,
          In (to, msg) (sent (trace a'))
          /\ (to = "user_session" \/ message_type msg = CACHE_HIT_METRIC)).
Proof.
  cbv zeta. split; [vm_compute; reflexivity|]. split; [vm_compute; reflexivity|].
  intros (to & msg & Hin & H).
  assert (Hs : sent (trace
            (handle_message (sample_config true true) sample_PROMPTS 10 sample_json_loads
               (backend_says text_with_response) (generate_request None) (init true)).2)
          = [("telegram", bot_response_for "u1" (PInt 7) (PStr "hi"))])
    by (vm_compute; reflexivity).
  rewrite Hs in Hin. destruct Hin as [Heq|[]].
  injection Heq as <- <-. destruct H as [H|H]; discriminate H.
Qed.

(** C8 as stated fails on a [generate_response] message without a user
    id: the [KeyError] leaves the handler and nothing is sent. It also
    fails on an actor that is not attached to an actor system: the handler
    returns and no message is produced. *)
Lemma handle_message_can_raise :
  handle_message (sample_config true true) sample_PROMPTS 10 sample_json_loads
    (backend_says text_with_response)
    (message_with GENERATE_RESPONSE None (Some (PInt 7)) (Some (PStr "hello")) None None)
    (init true)
  = (Raise (Exn KeyError "'user_id'"), init true)
  /\ sent (trace
       (handle_message (sample_config true true) sample_PROMPTS 10 sample_json_loads
          (backend_says text_with_response) (generate_request None) (init false)).2)
     = [].
Proof. split; vm_compute; reflexivity. Qed.

(** With the circuit breaker open the user gets the error message. *)
Lemma breaker_open_gives_error_message :
  let r := handle_message (sample_config true true) sample_PROMPTS 10
             sample_json_loads backend_down (generate_request None) (init true) in
  r.1 = Return tt
  /\ sent (trace r.2)
     = [("telegram",
         error_for "u1" (PInt 7)
           (Exn CircuitBreakerError "Circuit breaker 'deepseek_api' is OPEN"))].
Proof. vm_compute. split; reflexivity. Qed.

(** C8 (amended) on the reply [{"response": "hi"}]. *)
Lemma handle_message_always_replies_witness :
  exists a' reply,
    handle_message (sample_config true true) sample_PROMPTS 10 sample_json_loads
      (backend_says text_with_response) (generate_request None) (init true)
    = (Return tt, a')
    /\ sent (trace a') = [("telegram", reply)]
    /\ message_type reply = BOT_RESPONSE
    /\ p_user_id (payload reply) = Some "u1"
    /\ p_chat_id (payload reply) = Some (PInt 7)
    /\ p_text (payload reply) = Some (PStr "hi").
Proof.
  apply (handle_message_always_replies (sample_config true true) sample_PROMPTS 10
           sample_json_loads (backend_says text_with_response)
           (generate_request None) (init true) "u1" (PInt 7) (PStr "hello"));
    reflexivity.
Defined.

(** C10 on the sample request without [include_prompt]. *)
Lemma include_prompt_defaults_to_true_witness :
  handle_message (sample_config true true) sample_PROMPTS 10 sample_json_loads
    (backend_says text_with_response) (generate_request None) (init true)
  = handle_message (sample_config true true) sample_PROMPTS 10 sample_json_loads
      (backend_says text_with_response) (generate_request (Some true)) (init true)
  /\ exists later,
       api_calls (trace
         (handle_message (sample_config true true) sample_PROMPTS 10 sample_json_loads
            (backend_says text_with_response) (generate_request None) (init true)).2)
       = [] ++ {| req_messages := prompted_context "prompt:base:json" (PStr "hello");
                  req_json_object := true |} :: later
       /\ Forall (fun r => exists p, req_messages r = prompted_context p (PStr "hello"))
            later.
Proof.
  apply (include_prompt_defaults_to_true (sample_config true true) sample_PROMPTS 10
           sample_json_loads (backend_says text_with_response)
           (generate_request None) (init true) "u1" (PInt 7) (PStr "hello"));
    reflexivity.
Defined.

End AtSamples.

End GenerationFacts.

(** * More on the session and prompt-policy engine *)

Module SessionMore.
Import UserSessionActor.
Import SessionFacts.

(** X1. A user turn with its three required fields, on an attached actor,
    when the policy decides [include]: the handler returns; the session of
    the user is the old one (or a fresh one) with its counter raised by one;
    exactly one message is sent, to [generation], a [generate_response] from
    [user_session] that carries the user id, chat id and text of the turn,
    the decision, and the new counter; the events appended are the
    [SessionCreatedEvent] (only if the session is new) followed by the
    [PromptInclusionEvent] (only if the prompt is included). *)
Theorem user_turn_outcome cfg m a uid text chat include :
  message_type m = USER_MESSAGE ->
  p_user_id (payload m) = Some uid -> p_text (payload m) = Some text ->
  p_chat_id (payload m) = Some chat ->
  actor_system a = true ->
  _should_include_prompt cfg (session_after_turn uid (p_username (payload m)) a)
  = Return include ->
  exists a' request,
    handle_message cfg m a = (Return tt, a')
    /\ sessions a' !! uid = Some (session_after_turn uid (p_username (payload m)) a)
    /\ sent (trace a') = sent (trace a) ++ [("generation", request)]
    /\ message_type request = GENERATE_RESPONSE
    /\ sender_id request = Some "user_session"
    /\ p_user_id (payload request) = Some uid
    /\ p_chat_id (payload request) = Some chat
    /\ p_text (payload request) = Some text
    /\ p_include_prompt (payload request) = Some include
    /\ p_message_count (payload request) = Some (counter_of uid a + 1)
    /\ events_of (trace a')
       = events_of (trace a)
         ++ (if has_session uid a then []
             else [created_event uid (p_username (payload m))])
         ++ (if include
             then [prompt_event cfg uid
                     (session_after_turn uid (p_username (payload m)) a)]
             else []).
Proof.
  intros Hty Hu Ht Hc Hsys Hinc.
  rewrite (handle_turn_eq cfg m a uid text chat Hty Hu Ht Hc). cbv zeta.
  rewrite Hinc, Hsys.
  destruct (turn_counted_fields uid (p_username (payload m)) a) as (_ & Hsent & Hev).
  eexists _, _. split; [reflexivity|].
  split.
  { destruct include; cbn [emit sessions]; apply turn_counted_session. }
  split.
  { destruct include; cbn [emit trace]; rewrite !sent_app, Hsent; cbn;
      rewrite ?app_nil_r; reflexivity. }
  repeat (split; [reflexivity|]).
  split.
  { cbn. unfold session_after_turn, counter_of.
    destruct (sessions a !! uid); reflexivity. }
  destruct include; cbn [emit trace]; rewrite !events_of_app, Hev; cbn;
    rewrite ?app_nil_r, <- ?app_assoc; reflexivity.
Qed.

(** X2. With periodic prompts enabled, strategy [periodic] or [adaptive]
    and [system_prompt_interval = 0], a user turn raises
    [ZeroDivisionError] out of the handler after the session was created and
    the turn counted: the counter is one higher, a [SessionCreatedEvent] is
    appended for a new user, and no request is sent to [generation]. *)
Theorem zero_interval_turn_half_done cfg m a uid text chat :
  message_type m = USER_MESSAGE ->
  p_user_id (payload m) = Some uid -> p_text (payload m) = Some text ->
  p_chat_id (payload m) = Some chat ->
  enable_periodic_prompt cfg = true ->
  prompt_strategy cfg = "periodic" \/ prompt_strategy cfg = "adaptive" ->
  system_prompt_interval cfg = 0 ->
  exists a' e,
    handle_message cfg m a = (Raise e, a')
    /\ exn_cls e = ZeroDivisionError
    /\ counter_of uid a' = counter_of uid a + 1
    /\ sent (trace a') = sent (trace a)
    /\ events_of (trace a')
       = events_of (trace a)
         ++ (if has_session uid a then []
             else [created_event uid (p_username (payload m))]).
Proof.
  intros Hty Hu Ht Hc Hen Hst Hz.
  rewrite (handle_turn_eq cfg m a uid text chat Hty Hu Ht Hc). cbv zeta.
  assert (Hraise : forall s, _should_include_prompt cfg s
            = Raise (Exn ZeroDivisionError "integer modulo by zero")).
  { intros s. unfold _should_include_prompt, py_mod. rewrite Hen, Hz. cbn [negb].
    destruct Hst as [-> | ->]; reflexivity. }
  rewrite Hraise.
  destruct (turn_counted_fields uid (p_username (payload m)) a) as (_ & Hsent & Hev).
  eexists _, _. split; [reflexivity|]. split; [reflexivity|].
  split; [|split; assumption].
  unfold counter_of. rewrite turn_counted_session. cbn.
  destruct (sessions a !! uid); reflexivity.
Qed.

(** X3. Handling a message leaves the session of every user other than
    the one the message names exactly as it was (absent stays absent),
    whatever the message is and whether or not the handler raises. *)
Theorem other_sessions_untouched cfg m a (v : string) :
  p_user_id (payload m) <> Some v ->
  sessions (handle_message cfg m a).2 !! v = sessions a !! v.
Proof.
  intros Hne. rewrite handle_message_sessions. unfold sessions_step.
  destruct (message_type m); try reflexivity.
  - destruct (p_user_id (payload m)) as [uid|]; [|reflexivity].
    destruct (p_text (payload m)); [|reflexivity].
    destruct (p_chat_id (payload m)); [|reflexivity].
    assert (uid <> v) by congruence.
    rewrite lookup_alter_ne by assumption.
    destruct (sessions a !! uid); [|rewrite lookup_insert_ne by assumption]; reflexivity.
  - destruct (p_user_id (payload m)) as [uid|]; [|reflexivity].
    destruct (_ || _); [reflexivity|].
    assert (uid <> v) by congruence.
    rewrite lookup_alter_ne by assumption. reflexivity.
Qed.

(** X4. A turn of a user who already has a session changes nothing of that
    session but its counter, which grows by one (the recorded user name and
    the cache history stay, even if the turn brings another user name), and
    appends no [SessionCreatedEvent]. *)
Theorem known_user_turn_only_counts cfg m a uid (s : UserSession) :
  is_turn_of uid m = true ->
  sessions a !! uid = Some s ->
  sessions (handle_message cfg m a).2 !! uid
  = Some (set_message_count (message_count s + 1) s)
  /\ count (is_session_created_for uid) (trace (handle_message cfg m a).2)
     = count (is_session_created_for uid) (trace a).
Proof.
  intros Hturn Hs. split.
  - apply is_turn_of_spec in Hturn. destruct Hturn as (Hty & Hu & [t Ht] & [c Hc]).
    rewrite handle_message_sessions. unfold sessions_step.
    rewrite Hty, Hu, Ht, Hc, Hs. rewrite lookup_alter_eq, Hs. reflexivity.
  - rewrite handle_message_created, Hturn. unfold has_session.
    rewrite bool_decide_eq_true_2 by eauto. cbn. lia.
Qed.

(** X5. After [shutdown] no user has a session; a turn handled after it
    starts over: the counter of the user is 1 and one more
    [SessionCreatedEvent] is appended for them. *)
Theorem shutdown_forgets_sessions cfg m a uid :
  is_turn_of uid m = true ->
  let a1 := (shutdown a).2 in
  let a2 := (handle_message cfg m a1).2 in
  (forall u, has_session u a1 = false)
  /\ counter_of uid a2 = 1
  /\ count (is_session_created_for uid) (trace a2)
     = S (count (is_session_created_for uid) (trace a)).
Proof.
  intros Hturn. cbv zeta.
  assert (Hnone : forall u, has_session u (shutdown a).2 = false).
  { intros u. unfold has_session. cbn. rewrite lookup_empty.
    apply bool_decide_eq_false_2. intros [? ?]; discriminate. }
  split; [exact Hnone|]. split.
  - rewrite handle_message_counter, Hturn. unfold counter_of. cbn.
    rewrite lookup_empty. reflexivity.
  - rewrite handle_message_created, Hturn, Hnone. cbn [andb negb].
    change (trace (shutdown a).2) with (trace a ++ [Log INFO]).
    rewrite count_snoc. cbn. lia.
Qed.

(** X6. With periodic prompts enabled, whenever [_should_include_prompt]
    says yes, the reason [_get_prompt_reason] puts in the event is fixed by
    the strategy and, under [adaptive], by the cache history alone:
    [always_strategy] under [always]; [periodic_interval_N] under
    [periodic], and then the counter is at [1 mod N]; under [adaptive],
    [low_cache_hit_rate_x] whenever at least five ratios are recorded and
    their last-five mean [x] is below the threshold, also when it was the
    test of the counter that said yes, and [adaptive_periodic] otherwise,
    and then the counter is at [1 mod N]; never [unknown]. *)
Theorem prompt_reason_when_included cfg session :
  enable_periodic_prompt cfg = true ->
  _should_include_prompt cfg session = Return true ->
  let N := system_prompt_interval cfg in
  let low :=
    (5 <=? length (cache_metrics session))%nat
    && PrimFloat.ltb (avg_cache_hit (cache_metrics session))
         (cache_hit_threshold cfg) in
  (prompt_strategy cfg = "always"
   /\ _get_prompt_reason cfg session = always_strategy)
  \/ (prompt_strategy cfg = "periodic"
      /\ _get_prompt_reason cfg session = periodic_interval N
      /\ N <> 0 /\ message_count session mod N = 1)
  \/ (prompt_strategy cfg = "adaptive" /\ N <> 0
      /\ if low
         then _get_prompt_reason cfg session
              = low_cache_hit_rate (avg_cache_hit (cache_metrics session))
         else _get_prompt_reason cfg session = adaptive_periodic
              /\ message_count session mod N = 1).
Proof.
  intros Hen. cbv zeta. unfold _should_include_prompt, _get_prompt_reason, py_mod.
  rewrite Hen. cbn [negb].
  destruct (String.eqb_spec (prompt_strategy cfg) "always") as [Ha|Ha]; [auto|].
  destruct (String.eqb_spec (prompt_strategy cfg) "periodic") as [Hp|Hp].
  { destruct (Z.eqb_spec (system_prompt_interval cfg) 0) as [Hz|Hz]; [discriminate|].
    intros [= H1]. apply Z.eqb_eq in H1. right. left. auto. }
  destruct (String.eqb_spec (prompt_strategy cfg) "adaptive") as [Hd|Hd];
    [|discriminate].
  destruct (Z.eqb_spec (system_prompt_interval cfg) 0) as [Hz|Hz]; [discriminate|].
  right. right. split; [exact Hd|]. split; [exact Hz|].
  destruct ((5 <=? length (cache_metrics session))%nat
            && PrimFloat.ltb (avg_cache_hit (cache_metrics session))
                 (cache_hit_threshold cfg)) eqn:Hlow.
  - reflexivity.
  - split; [reflexivity|].
    destruct (Z.eqb_spec (message_count session mod system_prompt_interval cfg) 1)
      as [H1|H1]; [exact H1|discriminate].
Qed.

(** X7. A cache-metric message returns, writes nothing to the trace (no
    event, no message, no log line) and changes no counter and no session's
    existence; every other message leaves every cache history as it was. *)
Theorem turns_and_metrics_are_independent cfg m a :
  (message_type m = CACHE_HIT_METRIC ->
     (handle_message cfg m a).1 = Return tt
     /\ trace (handle_message cfg m a).2 = trace a
     /\ forall u, counter_of u (handle_message cfg m a).2 = counter_of u a
                  /\ has_session u (handle_message cfg m a).2 = has_session u a)
  /\ (message_type m <> CACHE_HIT_METRIC ->
        forall u, history_of u (handle_message cfg m a).2 = history_of u a).
Proof.
  split.
  - intros Hty. split; [|split].
    + unfold handle_message. rewrite Hty. unfold _update_cache_metrics. run_session.
      destruct (p_user_id (payload m)); [|reflexivity].
      cbn. destruct (_ || _); reflexivity.
    + unfold handle_message. rewrite Hty. unfold _update_cache_metrics. run_session.
      destruct (p_user_id (payload m)); [|reflexivity].
      cbn. destruct (_ || _); reflexivity.
    + intros u. rewrite handle_message_counter, handle_message_has_session.
      rewrite is_turn_of_other by (rewrite Hty; discriminate).
      rewrite orb_false_r. split; [lia|reflexivity].
  - intros Hty u. unfold history_of. rewrite handle_message_sessions.
    unfold sessions_step.
    destruct (message_type m); try reflexivity; [|congruence].
    destruct (p_user_id (payload m)) as [uid|]; [|reflexivity].
    destruct (p_text (payload m)); [|reflexivity].
    destruct (p_chat_id (payload m)); [|reflexivity].
    destruct (decide (uid = u)) as [->|Hne].
    + rewrite lookup_alter_eq.
      destruct (sessions a !! u) as [s|] eqn:E; [rewrite E|rewrite lookup_insert_eq];
        reflexivity.
    + rewrite lookup_alter_ne by assumption.
      destruct (sessions a !! uid); [|rewrite lookup_insert_ne by assumption];
        reflexivity.
Qed.

(** ** The statements at the sample inputs *)

Section SessionSamples.
Import Samples.

Lemma user_turn_outcome_witness :
  exists a' request,
    handle_message always_config (user_turn "u1" "hello") (init true) = (Return tt, a')
    /\ sessions a' !! "u1" = Some (session_after_turn "u1" None (init true))
    /\ sent (trace a') = [("generation", request)]
    /\ message_type request = GENERATE_RESPONSE
    /\ sender_id request = Some "user_session"
    /\ p_user_id (payload request) = Some "u1"
    /\ p_chat_id (payload request) = Some (PInt 7)
    /\ p_text (payload request) = Some (PStr "hello")
    /\ p_include_prompt (payload request) = Some true
    /\ p_message_count (payload request) = Some 1
    /\ events_of (trace a')
       = [created_event "u1" None;
          prompt_event always_config "u1" (session_after_turn "u1" None (init true))].
Proof.
  apply (user_turn_outcome always_config (user_turn "u1" "hello") (init true)
           "u1" (PStr "hello") (PInt 7) true); reflexivity.
Defined.

Lemma zero_interval_turn_half_done_witness :
  exists a' e,
    handle_message zero_interval_config (user_turn "u1" "hello") (init true)
    = (Raise e, a')
    /\ exn_cls e = ZeroDivisionError
    /\ counter_of "u1" a' = 1
    /\ sent (trace a') = []
    /\ events_of (trace a') = [created_event "u1" None].
Proof.
  apply (zero_interval_turn_half_done zero_interval_config (user_turn "u1" "hello")
           (init true) "u1" (PStr "hello") (PInt 7)); try reflexivity.
  left. reflexivity.
Defined.

Lemma other_sessions_untouched_witness :
  sessions (handle_message always_config (user_turn "u2" "hi") session_actor_with_u1).2
    !! "u1"
  = sessions session_actor_with_u1 !! "u1".
Proof.
  apply (other_sessions_untouched always_config (user_turn "u2" "hi")
           session_actor_with_u1 "u1").
  discriminate.
Defined.

Lemma known_user_turn_only_counts_witness :
  sessions (handle_message always_config (user_turn "u1" "again")
              session_actor_with_u1).2 !! "u1"
  = Some (set_message_count 2 u1_after_one_turn)
  /\ count (is_session_created_for "u1")
       (trace (handle_message always_config (user_turn "u1" "again")
                 session_actor_with_u1).2)
     = count (is_session_created_for "u1") (trace session_actor_with_u1).
Proof.
  apply (known_user_turn_only_counts always_config (user_turn "u1" "again")
           session_actor_with_u1 "u1" u1_after_one_turn); reflexivity.
Defined.

Lemma shutdown_forgets_sessions_witness :
  (forall u, has_session u (shutdown session_actor_with_u1).2 = false)
  /\ counter_of "u1"
       (handle_message always_config (user_turn "u1" "again")
          (shutdown session_actor_with_u1).2).2 = 1
  /\ count (is_session_created_for "u1")
       (trace (handle_message always_config (user_turn "u1" "again")
                 (shutdown session_actor_with_u1).2).2)
     = S (count (is_session_created_for "u1") (trace session_actor_with_u1)).
Proof.
  apply (shutdown_forgets_sessions always_config (user_turn "u1" "again")
           session_actor_with_u1 "u1"); reflexivity.
Defined.

(** X6 at a fourth message (interval 3, so the test of the counter says
    yes) of an adaptive session whose last five ratios average 0.14: the
    reason reported is the low cache-hit rate. *)
Lemma prompt_reason_when_included_witness :
  message_count cold_session_at_4 mod 3 = 1
  /\ _should_include_prompt (sample_config true true) cold_session_at_4 = Return true
  /\ _get_prompt_reason (sample_config true true) cold_session_at_4
     = low_cache_hit_rate (avg_cache_hit (cache_metrics cold_session_at_4)).
Proof.
  split; [reflexivity|]. split; [reflexivity|].
  destruct (prompt_reason_when_included (sample_config true true) cold_session_at_4
              eq_refl eq_refl) as [[H _]|[[H _]|(_ & _ & H)]];
    [discriminate H|discriminate H|exact H].
Defined.

End SessionSamples.

End SessionMore.

(** * More on the generation pipeline *)

Module GenerationMore.
Import GenerationActor.
Import GenerationFacts.

(** ** Accounting: requests, failures, counters *)

Lemma accounts_refl a : accounts [] 0 a a.
Proof.
  unfold accounts. rewrite app_nil_r. cbn. repeat split; lia.
Qed.

Lemma accounts_trans c1 f1 c2 f2 a b c :
  accounts c1 f1 a b -> accounts c2 f2 b c -> accounts (c1 ++ c2) (f1 + f2) a c.
Proof.
  intros (Hs1 & Hm1 & Hc1 & Hj1 & Hf1 & Hg1) (Hs2 & Hm2 & Hc2 & Hj2 & Hf2 & Hg2).
  unfold accounts. rewrite length_app.
  repeat split; try congruence; try lia.
  rewrite Hc2, Hc1, app_assoc. reflexivity.
Qed.

Lemma accounts_log lvl a : accounts [] 0 a (emit (Log lvl) a).
Proof.
  unfold accounts. cbn [emit trace actor_system json_failures generation_count].
  rewrite sent_app, api_calls_app, count_snoc. cbn. rewrite !app_nil_r.
  repeat split; lia.
Qed.

Lemma count_api_calls t : count is_api_call t = length (api_calls t).
Proof.
  induction t as [|eff t IH]; [reflexivity|].
  change (eff :: t) with ([eff] ++ t).
  rewrite count_app, api_calls_app, length_app, IH. f_equal.
  destruct eff; reflexivity.
Qed.

Section Accounting.
Variable cfg : PromptConfig.
Variable PROMPTS : string -> string -> string.
Variable interval : Z.
Variable json_loads : string -> parsed.
Variable backend : nat -> ApiRequest -> outcome (list Chunk).

Lemma log_cache_metrics_accounts hit miss a :
  let a' := (_log_cache_metrics interval hit miss a).2 in
  actor_system a' = actor_system a
  /\ sent (trace a') = sent (trace a)
  /\ api_calls (trace a') = api_calls (trace a)
  /\ json_failures a' = json_failures a
  /\ count is_json_failure (trace a') = count is_json_failure (trace a)
  /\ generation_count a' = generation_count a + 1.
Proof.
  unfold _log_cache_metrics, py_mod. run_generation.
  cbn -[Z.add Z.modulo Z.eqb Z.ltb py_truediv].
  destruct (0 <? hit + miss); cbn -[Z.add Z.modulo Z.eqb Z.ltb py_truediv];
    [|repeat split; reflexivity].
  destruct (py_truediv hit (hit + miss)) as [rate|e];
    cbn -[Z.add Z.modulo Z.eqb Z.ltb]; [|repeat split; reflexivity].
  destruct (interval =? 0); cbn -[Z.add Z.modulo Z.eqb Z.ltb];
    [repeat split; reflexivity|].
  destruct (_ mod _ =? 0); cbn -[Z.add Z.modulo Z.eqb Z.ltb].
  - destruct (_ + 1 =? 0); cbn -[Z.add Z.modulo Z.eqb Z.ltb];
      rewrite ?sent_app, ?api_calls_app, ?count_snoc; cbn;
      rewrite ?app_nil_r, ?Nat.add_0_r; repeat split; reflexivity.
  - rewrite ?sent_app, ?api_calls_app, ?count_snoc; cbn;
      rewrite ?app_nil_r, ?Nat.add_0_r; repeat split; reflexivity.
Qed.

Lemma call_api_accounts messages use_json a :
  accounts [ {| req_messages := messages; req_json_object := use_json |} ] 0
    a (_call_api interval backend messages use_json a).2.
Proof.
  unfold _call_api. unfold bind at 1 2 3. unfold get, modify, lift.
  cbn -[_log_cache_metrics collect accounts bind].
  set (req := {| req_messages := messages; req_json_object := use_json |}).
  assert (H0 : accounts [req] 0 a (emit (ApiCall req) a)).
  { unfold accounts. cbn [emit trace actor_system json_failures generation_count].
    rewrite sent_app, api_calls_app, count_snoc. cbn. rewrite !app_nil_r.
    repeat split; lia. }
  destruct (backend _ req) as [chunks|e]; [|exact H0].
  destruct (collect chunks) as [[full hit] miss].
  unfold bind, ret.
  pose proof (log_cache_metrics_accounts hit miss (emit (ApiCall req) a)) as H1.
  cbv zeta in H1.
  destruct (_log_cache_metrics interval hit miss (emit (ApiCall req) a)) as [[[]|e] a1];
    cbn [snd] in *;
    destruct H0 as (Hs0 & Hm0 & Hc0 & Hj0 & Hf0 & Hg0);
    destruct H1 as (Hs1 & Hm1 & Hc1 & Hj1 & Hf1 & Hg1);
    cbn [emit generation_count] in Hg1;
    unfold accounts; cbn [length] in *; repeat split; try congruence; try lia.
Qed.

Lemma extract_from_json_accounts response user_id a :
  accounts [] 0 a (_extract_from_json json_loads response user_id a).2.
Proof.
  assert (Hfail : forall e, accounts [] 0 a
            ((log LOG_ERROR ;; log DEBUG ;; raise e) a : outcome pyval * Actor).2).
  { intros e. run_generation. cbn [snd].
    apply (accounts_trans [] 0 [] 0 _ (emit (Log LOG_ERROR) a)); apply accounts_log. }
  unfold _extract_from_json.
  destruct (json_loads response) as [v|msg]; [|apply Hfail].
  destruct v; try apply Hfail.
  destruct (dict_get _ _); [apply accounts_refl|apply Hfail].
Qed.

Lemma on_json_decode_error_accounts text user_id include_prompt response e a :
  accounts
    (if json_fallback_enabled cfg && use_json_mode cfg
     then [fallback_request cfg PROMPTS text include_prompt] else [])
    1 a
    (on_json_decode_error cfg PROMPTS interval backend text user_id include_prompt
       (use_json_mode cfg) response e a).2.
Proof.
  unfold on_json_decode_error, _log_json_failure.
  unfold bind at 1 2. unfold modify, _append_event.
  cbn -[_call_api accounts bind log].
  set (a1 := emit _ (set_json_failures _ a)).
  assert (H1 : accounts [] 1 a a1).
  { unfold a1, accounts.
    cbn [emit set_json_failures trace actor_system json_failures generation_count].
    rewrite sent_app, api_calls_app, count_snoc. cbn. rewrite !app_nil_r.
    repeat split; lia. }
  destruct (json_fallback_enabled cfg && use_json_mode cfg).
  - unfold bind, log, modify.
    pose proof (call_api_accounts (_format_context cfg PROMPTS text include_prompt true)
                  false (emit (Log WARNING) a1)) as H2.
    destruct (_call_api _ _ _ _ _) as [[r|e2] a2]; cbn [snd] in *;
      apply (accounts_trans [] 1 [_] 0 a a1 a2 H1);
      apply (accounts_trans [] 0 [_] 0 a1 (emit (Log WARNING) a1) a2
               (accounts_log _ _) H2).
  - destruct response; exact H1.
Qed.

Lemma second_stage_accounts text user_id include_prompt response a1 :
  let a' :=
    (try_except
       (if use_json_mode cfg then _extract_from_json json_loads response user_id
        else ret (PStr response))
       is_JSONDecodeError
       (on_json_decode_error cfg PROMPTS interval backend text user_id include_prompt
          (use_json_mode cfg) (Some response)) a1).2 in
  accounts [] 0 a1 a'
  \/ accounts
       (if json_fallback_enabled cfg && use_json_mode cfg
        then [fallback_request cfg PROMPTS text include_prompt] else [])
       1 a1 a'.
Proof.
  cbv zeta. unfold try_except.
  assert (H2 : accounts [] 0 a1
            ((if use_json_mode cfg
              then _extract_from_json json_loads response user_id
              else ret (PStr response)) a1).2).
  { destruct (use_json_mode cfg);
      [apply extract_from_json_accounts|apply accounts_refl]. }
  destruct ((if use_json_mode cfg
             then _extract_from_json json_loads response user_id
             else ret (PStr response)) a1) as [[v|e] a2]; cbn [snd] in H2.
  - left. exact H2.
  - destruct (is_JSONDecodeError e); [right|left; exact H2].
    exact (accounts_trans _ _ _ _ _ _ _ H2
             (on_json_decode_error_accounts text user_id include_prompt
                (Some response) e a2)).
Qed.

(** What one call of [_generate_response] adds: the first request, then
    nothing, or one recorded JSON failure with or without the fallback
    request. *)
Lemma generate_response_accounts text user_id include_prompt a :
  let a' := (_generate_response cfg PROMPTS interval json_loads backend text user_id
               include_prompt a).2 in
  accounts [first_request cfg PROMPTS text include_prompt] 0 a a'
  \/ accounts
       (first_request cfg PROMPTS text include_prompt
        :: (if json_fallback_enabled cfg && use_json_mode cfg
            then [fallback_request cfg PROMPTS text include_prompt] else []))
       1 a a'.
Proof.
  cbv zeta. unfold _generate_response, bind, try_except.
  pose proof (call_api_accounts (_format_context cfg PROMPTS text include_prompt false)
                (use_json_mode cfg) a) as H1.
  fold (first_request cfg PROMPTS text include_prompt) in H1.
  destruct (_call_api _ _ _ _ _) as [[response|e] a1]; cbn [snd] in H1.
  - destruct (second_stage_accounts text user_id include_prompt response a1)
      as [H2|H2]; [left|right];
      exact (accounts_trans _ _ _ _ _ _ _ H1 H2).
  - destruct (is_JSONDecodeError e); [right|left; exact H1].
    pose proof (on_json_decode_error_accounts text user_id include_prompt
                  None e a1) as H3.
    pose proof (accounts_trans _ _ _ _ _ _ _ H1 H3) as H4.
    destruct (on_json_decode_error _ _ _ _ _ _ _ _ _ _ a1) as [[v|e2] a2];
      exact H4.
Qed.

End Accounting.

(** ** Observations of the states of a turn *)

Lemma trace_emit eff a : trace (emit eff a) = trace a ++ [eff].
Proof. reflexivity. Qed.

Section Obs.
Variable interval : Z.

Lemma metrics_logged_generation_count hit miss a :
  generation_count (metrics_logged interval hit miss a) = generation_count a + 1.
Proof. apply metrics_logged_fields. Qed.

Lemma metrics_logged_json_failures hit miss a :
  json_failures (metrics_logged interval hit miss a) = json_failures a.
Proof. apply metrics_logged_fields. Qed.

Lemma metrics_logged_actor_system hit miss a :
  actor_system (metrics_logged interval hit miss a) = actor_system a.
Proof. apply metrics_logged_fields. Qed.

Lemma metrics_logged_events hit miss a :
  events_of (trace (metrics_logged interval hit miss a))
  = events_of (trace a) ++ (if 0 <? hit + miss then [metric_event hit miss] else []).
Proof. apply metrics_logged_fields. Qed.

Lemma metrics_logged_sent hit miss a :
  sent (trace (metrics_logged interval hit miss a)) = sent (trace a).
Proof. apply metrics_logged_fields. Qed.

Lemma metrics_logged_api_calls hit miss a :
  api_calls (trace (metrics_logged interval hit miss a)) = api_calls (trace a).
Proof. apply metrics_logged_fields. Qed.

End Obs.

Create Rewrite HintDb obs.
#[local] Hint Rewrite trace_emit events_of_app sent_app api_calls_app
  metrics_logged_generation_count metrics_logged_json_failures
  metrics_logged_actor_system metrics_logged_events metrics_logged_sent
  metrics_logged_api_calls : obs.

Ltac observe :=
  repeat progress
    (cbn [emit set_json_failures set_generation_count set_total_cache_hits trace
          actor_system json_failures generation_count total_cache_hits];
     autorewrite with obs);
  cbn [events_of sent api_calls omap list_omap option_bind mbind app];
  rewrite ?app_nil_r, <- ?app_assoc.

Ltac finish_obs :=
  unfold before_fallback, after_first_call, failure_recorded, metric_events; observe;
  try reflexivity; try assumption; try lia.

Lemma count_emit_log lvl a :
  count is_api_call (trace (emit (Log lvl) a)) = count is_api_call (trace a).
Proof. rewrite trace_emit, count_snoc. cbn. lia. Qed.

Lemma metrics_logged_trace interval hit miss a :
  exists extra, trace (metrics_logged interval hit miss a) = trace a ++ extra.
Proof.
  unfold metrics_logged. destruct (0 <? hit + miss).
  - cbv zeta. destruct (_ mod _ =? 0); cbn [emit trace set_total_cache_hits
      set_generation_count]; rewrite <- ?app_assoc; eexists; reflexivity.
  - exists []. cbn. rewrite app_nil_r. reflexivity.
Qed.

(** ** The paths of [_generate_response] *)

Section Paths.
Variable cfg : PromptConfig.
Variable PROMPTS : string -> string -> string.
Variable interval : Z.
Variable json_loads : string -> parsed.
Variable backend : nat -> ApiRequest -> outcome (list Chunk).

Lemma first_call_eq text include_prompt a chunks :
  interval <> 0 -> 0 <= generation_count a ->
  backend (count is_api_call (trace a)) (first_request cfg PROMPTS text include_prompt)
  = Return chunks ->
  _call_api interval backend (_format_context cfg PROMPTS text include_prompt false)
    (use_json_mode cfg) a
  = (Return (collect chunks).1.1,
     after_first_call cfg PROMPTS interval text include_prompt chunks a).
Proof.
  intros Hi Hg Hb. apply call_api_eq; [exact Hi|lia|exact Hb].
Qed.

Lemma generate_plain text uid include_prompt a chunks :
  use_json_mode cfg = false ->
  interval <> 0 -> 0 <= generation_count a ->
  backend (count is_api_call (trace a)) (first_request cfg PROMPTS text include_prompt)
  = Return chunks ->
  _generate_response cfg PROMPTS interval json_loads backend text uid include_prompt a
  = (Return (PStr (collect chunks).1.1),
     after_first_call cfg PROMPTS interval text include_prompt chunks a).
Proof.
  intros Hj Hi Hg Hb. unfold _generate_response, bind, try_except.
  rewrite (first_call_eq text include_prompt a chunks Hi Hg Hb).
  rewrite Hj. reflexivity.
Qed.

Lemma generate_json_ok text uid include_prompt a chunks v r :
  use_json_mode cfg = true ->
  interval <> 0 -> 0 <= generation_count a ->
  backend (count is_api_call (trace a)) (first_request cfg PROMPTS text include_prompt)
  = Return chunks ->
  json_loads (collect chunks).1.1 = Parsed v ->
  response_field v = Some r ->
  _generate_response cfg PROMPTS interval json_loads backend text uid include_prompt a
  = (Return r, after_first_call cfg PROMPTS interval text include_prompt chunks a).
Proof.
  intros Hj Hi Hg Hb Hp Hf. unfold _generate_response, bind, try_except.
  rewrite (first_call_eq text include_prompt a chunks Hi Hg Hb).
  rewrite Hj. cbv iota beta. unfold ret at 1. cbv iota beta.
  unfold _extract_from_json. rewrite Hp.
  destruct v; try discriminate Hf. cbn in Hf. rewrite Hf. reflexivity.
Qed.

Lemma generate_json_malformed text uid include_prompt a chunks msg :
  use_json_mode cfg = true ->
  interval <> 0 -> 0 <= generation_count a ->
  backend (count is_api_call (trace a)) (first_request cfg PROMPTS text include_prompt)
  = Return chunks ->
  json_loads (collect chunks).1.1 = Malformed msg ->
  _generate_response cfg PROMPTS interval json_loads backend text uid include_prompt a
  = on_json_decode_error cfg PROMPTS interval backend text uid include_prompt true
      (Some (collect chunks).1.1) (Exn JSONDecodeError msg)
      (emit (Log DEBUG) (emit (Log LOG_ERROR)
         (after_first_call cfg PROMPTS interval text include_prompt chunks a))).
Proof.
  intros Hj Hi Hg Hb Hp. unfold _generate_response, bind, try_except.
  rewrite (first_call_eq text include_prompt a chunks Hi Hg Hb).
  rewrite Hj. cbv iota beta. unfold ret at 1. cbv iota beta.
  unfold _extract_from_json. rewrite Hp. reflexivity.
Qed.

Lemma on_error_no_fallback text uid include_prompt use_json response e a :
  json_fallback_enabled cfg && use_json = false ->
  on_json_decode_error cfg PROMPTS interval backend text uid include_prompt use_json
    (Some response) e a
  = (Return (PStr response), failure_recorded uid e a).
Proof.
  intros Hf. unfold on_json_decode_error, _log_json_failure. run_generation.
  rewrite Hf. reflexivity.
Qed.

Lemma on_error_unbound text uid include_prompt use_json e a :
  json_fallback_enabled cfg && use_json = false ->
  exists msg,
    on_json_decode_error cfg PROMPTS interval backend text uid include_prompt use_json
      None e a
    = (Raise (Exn UnboundLocalError msg), failure_recorded uid e a).
Proof.
  intros Hf. unfold on_json_decode_error, _log_json_failure. run_generation.
  rewrite Hf. eexists. reflexivity.
Qed.

Lemma on_error_fallback text uid include_prompt response e a :
  json_fallback_enabled cfg = true ->
  on_json_decode_error cfg PROMPTS interval backend text uid include_prompt true
    response e a
  = let a1 := emit (Log WARNING) (failure_recorded uid e a) in
    match _call_api interval backend
            (_format_context cfg PROMPTS text include_prompt true) false a1 with
    | (Return r, a2) => (Return (PStr r), a2)
    | (Raise e2, a2) => (Raise e2, a2)
    end.
Proof.
  intros Hf. unfold on_json_decode_error, _log_json_failure. rewrite Hf. cbn [andb].
  unfold _append_event, log, bind, modify, ret. cbv beta iota zeta.
  unfold failure_recorded, json_failure_event.
  destruct (_call_api _ _ _ _ _) as [[r|e2] a2]; reflexivity.
Qed.

End Paths.

(** ** The reply of a turn *)

Section TurnReplies.
Variable cfg : PromptConfig.
Variable PROMPTS : string -> string -> string.
Variable interval : Z.
Variable json_loads : string -> parsed.
Variable backend : nat -> ApiRequest -> outcome (list Chunk).

Lemma handle_reply_ok m a uid chat text v w a1 :
  message_type m = GENERATE_RESPONSE ->
  p_user_id (payload m) = Some uid -> p_chat_id (payload m) = Some chat ->
  p_text (payload m) = Some text ->
  _generate_response cfg PROMPTS interval json_loads backend text uid
    (default true (p_include_prompt (payload m))) (emit (Log INFO) a)
  = (Return v, a1) ->
  actor_system a1 = true ->
  slice_50 v = Return w ->
  handle_message cfg PROMPTS interval json_loads backend m a
  = (Return tt,
     emit (SendMessage "telegram" (bot_response_for uid chat v)) (emit (Log INFO) a1)).
Proof.
  intros Hty Hu Hc Ht Hg Hs Hsl.
  rewrite (handle_message_eq cfg PROMPTS interval json_loads backend m a uid chat text
             Hty Hu Hc Ht).
  rewrite Hg. cbv zeta iota beta. rewrite Hsl, Hs. reflexivity.
Qed.

Lemma handle_reply_error m a uid chat text e a1 :
  message_type m = GENERATE_RESPONSE ->
  p_user_id (payload m) = Some uid -> p_chat_id (payload m) = Some chat ->
  p_text (payload m) = Some text ->
  _generate_response cfg PROMPTS interval json_loads backend text uid
    (default true (p_include_prompt (payload m))) (emit (Log INFO) a)
  = (Raise e, a1) ->
  actor_system a1 = true ->
  handle_message cfg PROMPTS interval json_loads backend m a
  = (Return tt,
     emit (SendMessage "telegram" (error_for uid chat e)) (emit (Log LOG_ERROR) a1)).
Proof.
  intros Hty Hu Hc Ht Hg Hs.
  rewrite (handle_message_eq cfg PROMPTS interval json_loads backend m a uid chat text
             Hty Hu Hc Ht).
  rewrite Hg. cbv zeta iota beta. rewrite Hs. reflexivity.
Qed.

Lemma handle_reply_unsliceable m a uid chat text v e a1 :
  message_type m = GENERATE_RESPONSE ->
  p_user_id (payload m) = Some uid -> p_chat_id (payload m) = Some chat ->
  p_text (payload m) = Some text ->
  _generate_response cfg PROMPTS interval json_loads backend text uid
    (default true (p_include_prompt (payload m))) (emit (Log INFO) a)
  = (Return v, a1) ->
  actor_system a1 = true ->
  slice_50 v = Raise e ->
  handle_message cfg PROMPTS interval json_loads backend m a
  = (Return tt,
     emit (SendMessage "telegram" (error_for uid chat e)) (emit (Log LOG_ERROR) a1)).
Proof.
  intros Hty Hu Hc Ht Hg Hs Hsl.
  rewrite (handle_message_eq cfg PROMPTS interval json_loads backend m a uid chat text
             Hty Hu Hc Ht).
  rewrite Hg. cbv zeta iota beta. rewrite Hsl, Hs. reflexivity.
Qed.

(** X8. With JSON mode off, a request whose backend call succeeds is
    answered with the concatenated stream as is: one [bot_response] to
    [telegram] with that text, one API request, the cache-metric event of
    the stream if it counted tokens, no JSON failure. *)
Theorem plain_mode_returns_text_unparsed m a uid chat text chunks :
  message_type m = GENERATE_RESPONSE ->
  p_user_id (payload m) = Some uid -> p_chat_id (payload m) = Some chat ->
  p_text (payload m) = Some text ->
  actor_system a = true ->
  use_json_mode cfg = false ->
  interval <> 0 -> 0 <= generation_count a ->
  backend (count is_api_call (trace a))
    (first_request cfg PROMPTS text (default true (p_include_prompt (payload m))))
  = Return chunks ->
  exists a',
    handle_message cfg PROMPTS interval json_loads backend m a = (Return tt, a')
    /\ sent (trace a')
       = sent (trace a)
         ++ [("telegram", bot_response_for uid chat (PStr (collect chunks).1.1))]
    /\ api_calls (trace a')
       = api_calls (trace a)
         ++ [first_request cfg PROMPTS text
               (default true (p_include_prompt (payload m)))]
    /\ events_of (trace a') = events_of (trace a) ++ metric_events chunks
    /\ json_failures a' = json_failures a.
Proof.
  intros Hty Hu Hc Ht Hsys Hj Hi Hg Hb.
  rewrite (handle_reply_ok m a uid chat text (PStr (collect chunks).1.1)
             (PStr (String.substring 0 50 (collect chunks).1.1))
             (after_first_call cfg PROMPTS interval text
                (default true (p_include_prompt (payload m))) chunks
                (emit (Log INFO) a)) Hty Hu Hc Ht).
  - eexists. split; [reflexivity|]. repeat split; finish_obs.
  - apply generate_plain; try assumption. rewrite count_emit_log. exact Hb.
  - finish_obs.
  - reflexivity.
Qed.

(** X9. With JSON mode on, when the reply parses to a mapping whose
    [response] field is a string, that string is the text of the one
    [bot_response] sent to [telegram]; one API request, no JSON failure. *)
Theorem json_response_field_is_the_text m a uid chat text chunks v s :
  message_type m = GENERATE_RESPONSE ->
  p_user_id (payload m) = Some uid -> p_chat_id (payload m) = Some chat ->
  p_text (payload m) = Some text ->
  actor_system a = true ->
  use_json_mode cfg = true ->
  interval <> 0 -> 0 <= generation_count a ->
  backend (count is_api_call (trace a))
    (first_request cfg PROMPTS text (default true (p_include_prompt (payload m))))
  = Return chunks ->
  json_loads (collect chunks).1.1 = Parsed v ->
  response_field v = Some (PStr s) ->
  exists a',
    handle_message cfg PROMPTS interval json_loads backend m a = (Return tt, a')
    /\ sent (trace a')
       = sent (trace a) ++ [("telegram", bot_response_for uid chat (PStr s))]
    /\ api_calls (trace a')
       = api_calls (trace a)
         ++ [first_request cfg PROMPTS text
               (default true (p_include_prompt (payload m)))]
    /\ events_of (trace a') = events_of (trace a) ++ metric_events chunks
    /\ json_failures a' = json_failures a.
Proof.
  intros Hty Hu Hc Ht Hsys Hj Hi Hg Hb Hp Hf.
  rewrite (handle_reply_ok m a uid chat text (PStr s)
             (PStr (String.substring 0 50 s))
             (after_first_call cfg PROMPTS interval text
                (default true (p_include_prompt (payload m))) chunks
                (emit (Log INFO) a)) Hty Hu Hc Ht).
  - eexists. split; [reflexivity|]. repeat split; finish_obs.
  - apply (generate_json_ok cfg PROMPTS interval json_loads backend text uid _
             (emit (Log INFO) a) chunks v (PStr s)); try assumption.
    rewrite count_emit_log. exact Hb.
  - finish_obs.
  - reflexivity.
Qed.

(** X10. With JSON mode on, when the reply parses to a mapping whose
    [response] field has no slice (a number, a boolean, [null], a mapping),
    the log line [response_text[:50]] raises [TypeError] inside the [try]:
    the user gets an error message instead of a reply, although the
    generation was counted and no JSON failure is recorded. *)
Theorem json_response_not_sliceable_is_an_error m a uid chat text chunks v r e :
  message_type m = GENERATE_RESPONSE ->
  p_user_id (payload m) = Some uid -> p_chat_id (payload m) = Some chat ->
  p_text (payload m) = Some text ->
  actor_system a = true ->
  use_json_mode cfg = true ->
  interval <> 0 -> 0 <= generation_count a ->
  backend (count is_api_call (trace a))
    (first_request cfg PROMPTS text (default true (p_include_prompt (payload m))))
  = Return chunks ->
  json_loads (collect chunks).1.1 = Parsed v ->
  response_field v = Some r ->
  slice_50 r = Raise e ->
  exists a',
    handle_message cfg PROMPTS interval json_loads backend m a = (Return tt, a')
    /\ sent (trace a') = sent (trace a) ++ [("telegram", error_for uid chat e)]
    /\ exn_cls e = TypeError
    /\ generation_count a' = generation_count a + 1
    /\ events_of (trace a') = events_of (trace a) ++ metric_events chunks
    /\ json_failures a' = json_failures a.
Proof.
  intros Hty Hu Hc Ht Hsys Hj Hi Hg Hb Hp Hf Hsl.
  rewrite (handle_reply_unsliceable m a uid chat text r e
             (after_first_call cfg PROMPTS interval text
                (default true (p_include_prompt (payload m))) chunks
                (emit (Log INFO) a)) Hty Hu Hc Ht).
  - eexists. split; [reflexivity|]. repeat split; finish_obs.
    destruct r; cbn in Hsl; inversion Hsl; reflexivity.
  - apply (generate_json_ok cfg PROMPTS interval json_loads backend text uid _
             (emit (Log INFO) a) chunks v r); try assumption.
    rewrite count_emit_log. exact Hb.
  - finish_obs.
  - exact Hsl.
Qed.

(** X11. With JSON mode on and the fallback off, a reply that is not JSON
    is sent to the user as it came: one [bot_response] with the raw text,
    one API request, one [JSONModeFailureEvent] with the parser's message
    after the cache-metric event, and the failure counter one higher. *)
Theorem malformed_json_without_fallback_returns_raw_text m a uid chat text chunks msg :
  message_type m = GENERATE_RESPONSE ->
  p_user_id (payload m) = Some uid -> p_chat_id (payload m) = Some chat ->
  p_text (payload m) = Some text ->
  actor_system a = true ->
  use_json_mode cfg = true -> json_fallback_enabled cfg = false ->
  interval <> 0 -> 0 <= generation_count a ->
  backend (count is_api_call (trace a))
    (first_request cfg PROMPTS text (default true (p_include_prompt (payload m))))
  = Return chunks ->
  json_loads (collect chunks).1.1 = Malformed msg ->
  exists a',
    handle_message cfg PROMPTS interval json_loads backend m a = (Return tt, a')
    /\ sent (trace a')
       = sent (trace a)
         ++ [("telegram", bot_response_for uid chat (PStr (collect chunks).1.1))]
    /\ api_calls (trace a')
       = api_calls (trace a)
         ++ [first_request cfg PROMPTS text
               (default true (p_include_prompt (payload m)))]
    /\ events_of (trace a')
       = events_of (trace a) ++ metric_events chunks ++ [json_failure_event uid msg]
    /\ json_failures a' = json_failures a + 1.
Proof.
  intros Hty Hu Hc Ht Hsys Hj Hfb Hi Hg Hb Hp.
  rewrite (handle_reply_ok m a uid chat text (PStr (collect chunks).1.1)
             (PStr (String.substring 0 50 (collect chunks).1.1))
             (failure_recorded uid (Exn JSONDecodeError msg)
                (emit (Log DEBUG) (emit (Log LOG_ERROR)
                   (after_first_call cfg PROMPTS interval text
                      (default true (p_include_prompt (payload m))) chunks
                      (emit (Log INFO) a))))) Hty Hu Hc Ht).
  - eexists. split; [reflexivity|]. repeat split; finish_obs.
  - rewrite (generate_json_malformed cfg PROMPTS interval json_loads backend text uid _
               (emit (Log INFO) a) chunks msg); try assumption.
    + apply on_error_no_fallback. rewrite Hfb. reflexivity.
    + rewrite count_emit_log. exact Hb.
  - finish_obs.
  - reflexivity.
Qed.

(** X14. When the first backend call raises anything but a
    [JSONDecodeError], the user gets an error message with that exception:
    one API request, no event, no counter changed, no retry. *)
Theorem backend_failure_becomes_error_message m a uid chat text e :
  message_type m = GENERATE_RESPONSE ->
  p_user_id (payload m) = Some uid -> p_chat_id (payload m) = Some chat ->
  p_text (payload m) = Some text ->
  actor_system a = true ->
  backend (count is_api_call (trace a))
    (first_request cfg PROMPTS text (default true (p_include_prompt (payload m))))
  = Raise e ->
  is_JSONDecodeError e = false ->
  exists a',
    handle_message cfg PROMPTS interval json_loads backend m a = (Return tt, a')
    /\ sent (trace a') = sent (trace a) ++ [("telegram", error_for uid chat e)]
    /\ api_calls (trace a')
       = api_calls (trace a)
         ++ [first_request cfg PROMPTS text
               (default true (p_include_prompt (payload m)))]
    /\ events_of (trace a') = events_of (trace a)
    /\ generation_count a' = generation_count a
    /\ json_failures a' = json_failures a.
Proof.
  intros Hty Hu Hc Ht Hsys Hb He.
  rewrite (handle_reply_error m a uid chat text e
             (emit (ApiCall (first_request cfg PROMPTS text
                               (default true (p_include_prompt (payload m)))))
                (emit (Log INFO) a)) Hty Hu Hc Ht).
  - eexists. split; [reflexivity|]. repeat split; finish_obs.
  - unfold _generate_response, bind, try_except.
    rewrite (call_api_raises interval backend _ _ (emit (Log INFO) a) e).
    + rewrite He. reflexivity.
    + rewrite count_emit_log. exact Hb.
  - finish_obs.
Qed.

(** X15. When the backend call itself raises a [JSONDecodeError] and no
    fallback applies (fallback off or JSON mode off), the [except] clause
    records the failure and then returns [response], which was never bound:
    the user gets an [UnboundLocalError] as the error message. *)
Theorem backend_json_error_without_fallback_is_unbound_local m a uid chat text e :
  message_type m = GENERATE_RESPONSE ->
  p_user_id (payload m) = Some uid -> p_chat_id (payload m) = Some chat ->
  p_text (payload m) = Some text ->
  actor_system a = true ->
  json_fallback_enabled cfg && use_json_mode cfg = false ->
  backend (count is_api_call (trace a))
    (first_request cfg PROMPTS text (default true (p_include_prompt (payload m))))
  = Raise e ->
  is_JSONDecodeError e = true ->
  exists a' e',
    handle_message cfg PROMPTS interval json_loads backend m a = (Return tt, a')
    /\ sent (trace a') = sent (trace a) ++ [("telegram", error_for uid chat e')]
    /\ exn_cls e' = UnboundLocalError
    /\ events_of (trace a')
       = events_of (trace a) ++ [json_failure_event uid (exn_str e)]
    /\ json_failures a' = json_failures a + 1.
Proof.
  intros Hty Hu Hc Ht Hsys Hfb Hb He.
  destruct (on_error_unbound cfg PROMPTS interval backend text uid
              (default true (p_include_prompt (payload m))) (use_json_mode cfg) e
              (emit (ApiCall (first_request cfg PROMPTS text
                                (default true (p_include_prompt (payload m)))))
                 (emit (Log INFO) a)) Hfb) as [msg Hun].
  rewrite (handle_reply_error m a uid chat text (Exn UnboundLocalError msg)
             (failure_recorded uid e
                (emit (ApiCall (first_request cfg PROMPTS text
                                  (default true (p_include_prompt (payload m)))))
                   (emit (Log INFO) a))) Hty Hu Hc Ht).
  - eexists _, _. split; [reflexivity|]. repeat split; finish_obs.
  - unfold _generate_response, bind, try_except.
    rewrite (call_api_raises interval backend _ _ (emit (Log INFO) a) e).
    + rewrite He. cbv iota beta. unfold first_request in Hun. rewrite Hun.
      reflexivity.
    + rewrite count_emit_log. exact Hb.
  - finish_obs.
Qed.

End TurnReplies.

Section Fallback.
Variable cfg : PromptConfig.
Variable PROMPTS : string -> string -> string.
Variable interval : Z.
Variable json_loads : string -> parsed.
Variable backend : nat -> ApiRequest -> outcome (list Chunk).

Lemma before_fallback_calls text include_prompt uid chunks msg a :
  count is_api_call
    (trace (before_fallback cfg PROMPTS interval text include_prompt uid chunks msg a))
  = S (count is_api_call (trace a)).
Proof.
  rewrite !count_api_calls. unfold before_fallback, failure_recorded, after_first_call.
  observe. rewrite length_app. cbn. lia.
Qed.

Lemma generate_fallback_ok text uid include_prompt a chunks msg chunks2 :
  use_json_mode cfg = true -> json_fallback_enabled cfg = true ->
  interval <> 0 -> 0 <= generation_count a ->
  backend (count is_api_call (trace a)) (first_request cfg PROMPTS text include_prompt)
  = Return chunks ->
  json_loads (collect chunks).1.1 = Malformed msg ->
  backend (S (count is_api_call (trace a)))
    (fallback_request cfg PROMPTS text include_prompt) = Return chunks2 ->
  _generate_response cfg PROMPTS interval json_loads backend text uid include_prompt a
  = (Return (PStr (collect chunks2).1.1),
     metrics_logged interval (collect chunks2).1.2 (collect chunks2).2
       (emit (ApiCall (fallback_request cfg PROMPTS text include_prompt))
          (before_fallback cfg PROMPTS interval text include_prompt uid chunks msg a))).
Proof.
  intros Hj Hfb Hi Hg Hb Hp Hb2.
  rewrite (generate_json_malformed cfg PROMPTS interval json_loads backend text uid
             include_prompt a chunks msg Hj Hi Hg Hb Hp).
  rewrite on_error_fallback by exact Hfb. cbv zeta.
  fold (before_fallback cfg PROMPTS interval text include_prompt uid chunks msg a).
  rewrite (call_api_eq interval backend _ false _ chunks2 Hi).
  - reflexivity.
  - unfold before_fallback, failure_recorded, after_first_call. observe. lia.
  - rewrite before_fallback_calls. exact Hb2.
Qed.

Lemma generate_fallback_raises text uid include_prompt a chunks msg e2 :
  use_json_mode cfg = true -> json_fallback_enabled cfg = true ->
  interval <> 0 -> 0 <= generation_count a ->
  backend (count is_api_call (trace a)) (first_request cfg PROMPTS text include_prompt)
  = Return chunks ->
  json_loads (collect chunks).1.1 = Malformed msg ->
  backend (S (count is_api_call (trace a)))
    (fallback_request cfg PROMPTS text include_prompt) = Raise e2 ->
  _generate_response cfg PROMPTS interval json_loads backend text uid include_prompt a
  = (Raise e2,
     emit (ApiCall (fallback_request cfg PROMPTS text include_prompt))
       (before_fallback cfg PROMPTS interval text include_prompt uid chunks msg a)).
Proof.
  intros Hj Hfb Hi Hg Hb Hp Hb2.
  rewrite (generate_json_malformed cfg PROMPTS interval json_loads backend text uid
             include_prompt a chunks msg Hj Hi Hg Hb Hp).
  rewrite on_error_fallback by exact Hfb. cbv zeta.
  fold (before_fallback cfg PROMPTS interval text include_prompt uid chunks msg a).
  rewrite (call_api_raises interval backend _ false _ e2).
  - reflexivity.
  - rewrite before_fallback_calls. exact Hb2.
Qed.

(** X12. With JSON mode and the fallback on, a reply that is not JSON is
    retried exactly once without JSON mode, and the text of the retry is the
    answer: two API requests (the first in JSON mode, the second plain with
    the normal prompt), one [JSONModeFailureEvent] between the cache-metric
    events of the two streams, the failure counter one higher, the
    generation counter two higher; in the trace the failure event, the
    warning and the fallback request follow one another directly. *)
Theorem malformed_json_falls_back_once m a uid chat text chunks msg chunks2 :
  message_type m = GENERATE_RESPONSE ->
  p_user_id (payload m) = Some uid -> p_chat_id (payload m) = Some chat ->
  p_text (payload m) = Some text ->
  actor_system a = true ->
  use_json_mode cfg = true -> json_fallback_enabled cfg = true ->
  interval <> 0 -> 0 <= generation_count a ->
  backend (count is_api_call (trace a))
    (first_request cfg PROMPTS text (default true (p_include_prompt (payload m))))
  = Return chunks ->
  json_loads (collect chunks).1.1 = Malformed msg ->
  backend (S (count is_api_call (trace a)))
    (fallback_request cfg PROMPTS text (default true (p_include_prompt (payload m))))
  = Return chunks2 ->
  exists a',
    handle_message cfg PROMPTS interval json_loads backend m a = (Return tt, a')
    /\ sent (trace a')
       = sent (trace a)
         ++ [("telegram", bot_response_for uid chat (PStr (collect chunks2).1.1))]
    /\ api_calls (trace a')
       = api_calls (trace a)
         ++ [first_request cfg PROMPTS text
               (default true (p_include_prompt (payload m)));
             fallback_request cfg PROMPTS text
               (default true (p_include_prompt (payload m)))]
    /\ events_of (trace a')
       = events_of (trace a) ++ metric_events chunks
         ++ [json_failure_event uid msg] ++ metric_events chunks2
    /\ json_failures a' = json_failures a + 1
    /\ generation_count a' = generation_count a + 2
    /\ exists before after,
         trace a'
         = before
           ++ [AppendEvent (json_failure_event uid msg); Log WARNING;
               ApiCall (fallback_request cfg PROMPTS text
                          (default true (p_include_prompt (payload m))))]
           ++ after.
Proof.
  intros Hty Hu Hc Ht Hsys Hj Hfb Hi Hg Hb Hp Hb2.
  set (incl := default true (p_include_prompt (payload m))) in *.
  rewrite (handle_reply_ok cfg PROMPTS interval json_loads backend m a uid chat text
             (PStr (collect chunks2).1.1)
             (PStr (String.substring 0 50 (collect chunks2).1.1))
             (metrics_logged interval (collect chunks2).1.2 (collect chunks2).2
                (emit (ApiCall (fallback_request cfg PROMPTS text incl))
                   (before_fallback cfg PROMPTS interval text incl uid chunks msg
                      (emit (Log INFO) a))))
             Hty Hu Hc Ht).
  - eexists. split; [reflexivity|].
    split; [finish_obs|].
    split; [finish_obs|].
    split; [finish_obs|].
    split; [finish_obs|].
    split; [finish_obs|].
    destruct (metrics_logged_trace interval (collect chunks2).1.2 (collect chunks2).2
                (emit (ApiCall (fallback_request cfg PROMPTS text incl))
                   (before_fallback cfg PROMPTS interval text incl uid chunks msg
                      (emit (Log INFO) a))))
      as [extra Hextra].
    exists (trace (emit (Log DEBUG) (emit (Log LOG_ERROR)
              (after_first_call cfg PROMPTS interval text incl chunks
                 (emit (Log INFO) a))))),
      (extra ++ [Log INFO;
                 SendMessage "telegram"
                   (bot_response_for uid chat (PStr (collect chunks2).1.1))]).
    cbn [emit trace]. rewrite Hextra.
    unfold before_fallback, failure_recorded.
    cbn [emit trace set_json_failures]. rewrite <- !app_assoc. cbn [app].
    reflexivity.
  - apply generate_fallback_ok; try assumption.
    + rewrite count_emit_log. exact Hb.
    + rewrite count_emit_log. exact Hb2.
  - finish_obs.
  - reflexivity.
Qed.

(** X13. With JSON mode and the fallback on, when the reply is not JSON and
    the fallback request fails, the user gets that failure as an error
    message: two API requests were made, the [JSONModeFailureEvent] is
    recorded and there is no third attempt. *)
Theorem failed_fallback_is_an_error_message m a uid chat text chunks msg e2 :
  message_type m = GENERATE_RESPONSE ->
  p_user_id (payload m) = Some uid -> p_chat_id (payload m) = Some chat ->
  p_text (payload m) = Some text ->
  actor_system a = true ->
  use_json_mode cfg = true -> json_fallback_enabled cfg = true ->
  interval <> 0 -> 0 <= generation_count a ->
  backend (count is_api_call (trace a))
    (first_request cfg PROMPTS text (default true (p_include_prompt (payload m))))
  = Return chunks ->
  json_loads (collect chunks).1.1 = Malformed msg ->
  backend (S (count is_api_call (trace a)))
    (fallback_request cfg PROMPTS text (default true (p_include_prompt (payload m))))
  = Raise e2 ->
  exists a',
    handle_message cfg PROMPTS interval json_loads backend m a = (Return tt, a')
    /\ sent (trace a') = sent (trace a) ++ [("telegram", error_for uid chat e2)]
    /\ length (api_calls (trace a')) = (length (api_calls (trace a)) + 2)%nat
    /\ events_of (trace a')
       = events_of (trace a) ++ metric_events chunks ++ [json_failure_event uid msg]
    /\ json_failures a' = json_failures a + 1.
Proof.
  intros Hty Hu Hc Ht Hsys Hj Hfb Hi Hg Hb Hp Hb2.
  set (incl := default true (p_include_prompt (payload m))) in *.
  rewrite (handle_reply_error cfg PROMPTS interval json_loads backend m a uid chat text
             e2
             (emit (ApiCall (fallback_request cfg PROMPTS text incl))
                (before_fallback cfg PROMPTS interval text incl uid chunks msg
                   (emit (Log INFO) a)))
             Hty Hu Hc Ht).
  - eexists. split; [reflexivity|].
    repeat split; finish_obs.
    rewrite !length_app. cbn. lia.
  - apply generate_fallback_raises; try assumption.
    + rewrite count_emit_log. exact Hb.
    + rewrite count_emit_log. exact Hb2.
  - finish_obs.
Qed.

End Fallback.

(** ** The stream, the budget of a turn, the ledger *)

Lemma append_nil_r (s : string) : s +:+ EmptyString = s.
Proof.
  induction s as [|c s IH]; [reflexivity|].
  change (String c (s +:+ EmptyString) = String c s). rewrite IH. reflexivity.
Qed.

Lemma append_assoc (s1 s2 s3 : string) : (s1 +:+ s2) +:+ s3 = s1 +:+ (s2 +:+ s3).
Proof.
  induction s1 as [|c s1 IH]; [reflexivity|].
  change (String c ((s1 +:+ s2) +:+ s3) = String c (s1 +:+ (s2 +:+ s3))).
  rewrite IH. reflexivity.
Qed.

Lemma collect_chunk_text acc c :
  (collect_chunk acc c).1.1 = acc.1.1 +:+ default EmptyString (delta_content c).
Proof.
  destruct acc as [[full hit] miss]. unfold collect_chunk.
  destruct (delta_content c) as [s|]; cbn.
  - destruct (String.eqb_spec s EmptyString) as [->|Hne];
      destruct (usage c); cbn; rewrite ?append_nil_r; reflexivity.
  - destruct (usage c); cbn; rewrite append_nil_r; reflexivity.
Qed.

Lemma concat_app (l1 l2 : list string) :
  foldr String.append EmptyString (l1 ++ l2)
  = foldr String.append EmptyString l1 +:+ foldr String.append EmptyString l2.
Proof.
  induction l1 as [|s l1 IH]; [reflexivity|].
  cbn [foldr app]. rewrite IH, append_assoc. reflexivity.
Qed.

(** X16. The text [_call_api] returns is the concatenation of the content
    deltas of the stream in order, and the token counts it logs are those of
    the last chunk that carries a usage record (a count missing there is 0),
    or 0 and 0 when no chunk carries one. *)
Theorem stream_is_concatenated chunks :
  (collect chunks).1.1 = foldr String.append EmptyString (deltas chunks)
  /\ (collect chunks).1.2
     = from_option (fun u => Z.of_N (default 0%N (prompt_cache_hit_tokens u))) 0
         (last_usage chunks)
  /\ (collect chunks).2
     = from_option (fun u => Z.of_N (default 0%N (prompt_cache_miss_tokens u))) 0
         (last_usage chunks).
Proof.
  induction chunks as [|c chunks IH] using rev_ind.
  - repeat split; reflexivity.
  - destruct IH as (IH1 & IH2 & IH3).
    rewrite collect_snoc. split; [|split].
    + rewrite collect_chunk_text, IH1. unfold deltas.
      rewrite omap_app, concat_app. f_equal.
      cbn. destruct (delta_content c); cbn; rewrite ?append_nil_r; reflexivity.
    + unfold last_usage in *. rewrite omap_app.
      unfold collect_chunk. destruct (collect chunks) as [[full hit] miss].
      cbn in IH2. destruct (usage c) as [u|] eqn:Hu; cbn; rewrite Hu; cbn.
      * rewrite last_snoc. reflexivity.
      * rewrite app_nil_r. exact IH2.
    + unfold last_usage in *. rewrite omap_app.
      unfold collect_chunk. destruct (collect chunks) as [[full hit] miss].
      cbn in IH3. destruct (usage c) as [u|] eqn:Hu; cbn; rewrite Hu; cbn.
      * rewrite last_snoc. reflexivity.
      * rewrite app_nil_r. exact IH3.
Qed.

Section Budget.
Variable cfg : PromptConfig.
Variable PROMPTS : string -> string -> string.
Variable interval : Z.
Variable json_loads : string -> parsed.
Variable backend : nat -> ApiRequest -> outcome (list Chunk).

Lemma accounts_reply calls failures a a1 lvl to reply :
  accounts calls failures a a1 ->
  let a' := (if actor_system a1 then emit (SendMessage to reply) else id)
              (emit (Log lvl) a1) in
  api_calls (trace a') = api_calls (trace a) ++ calls
  /\ json_failures a' = json_failures a + Z.of_nat failures
  /\ count is_json_failure (trace a')
     = (count is_json_failure (trace a) + failures)%nat
  /\ generation_count a <= generation_count a'
     <= generation_count a + Z.of_nat (length calls).
Proof.
  intros (Hs & Hm & Hc & Hj & Hf & Hg). cbv zeta.
  destruct (actor_system a1); cbn [id emit trace json_failures generation_count];
    rewrite ?api_calls_app, ?count_snoc; cbn; rewrite ?app_nil_r, ?Nat.add_0_r;
    auto.
Qed.

(** What one request costs: the first request alone and no failure, or the
    first request, one failure and what [on_json_decode_error] adds. *)
Lemma handle_message_accounts m a uid chat text :
  message_type m = GENERATE_RESPONSE ->
  p_user_id (payload m) = Some uid -> p_chat_id (payload m) = Some chat ->
  p_text (payload m) = Some text ->
  let a' := (handle_message cfg PROMPTS interval json_loads backend m a).2 in
  let include_prompt := default true (p_include_prompt (payload m)) in
  exists calls failures,
    ((calls = [first_request cfg PROMPTS text include_prompt] /\ failures = 0%nat)
     \/ (calls = first_request cfg PROMPTS text include_prompt
                 :: (if json_fallback_enabled cfg && use_json_mode cfg
                     then [fallback_request cfg PROMPTS text include_prompt]
                     else [])
         /\ failures = 1%nat))
    /\ api_calls (trace a') = api_calls (trace a) ++ calls
    /\ json_failures a' = json_failures a + Z.of_nat failures
    /\ count is_json_failure (trace a')
       = (count is_json_failure (trace a) + failures)%nat
    /\ generation_count a <= generation_count a'
       <= generation_count a + Z.of_nat (length calls).
Proof.
  intros Hty Hu Hc Ht. cbv zeta.
  rewrite (handle_message_eq cfg PROMPTS interval json_loads backend m a uid chat text
             Hty Hu Hc Ht).
  pose proof (generate_response_accounts cfg PROMPTS interval json_loads backend
                text uid (default true (p_include_prompt (payload m)))
                (emit (Log INFO) a)) as Hacc.
  cbv zeta in Hacc.
  destruct (_generate_response _ _ _ _ _ _ _ _ _) as [o a1]. cbn [snd] in Hacc.
  assert (Hlog : accounts [] 0 a (emit (Log INFO) a)) by apply accounts_log.
  set (r := match o with
            | Return v => match slice_50 v with
                          | Return _ => Return v
                          | Raise e => Raise e
                          end
            | Raise e => Raise e
            end).
  destruct Hacc as [Hacc|Hacc];
    pose proof (accounts_trans _ _ _ _ _ _ _ Hlog Hacc) as H; cbn [app Nat.add] in H;
    [eexists _, 0%nat; split; [left; split; reflexivity|]
    |eexists _, 1%nat; split; [right; split; reflexivity|]];
    (destruct r; cbn [snd];
     [exact (accounts_reply _ _ _ _ INFO "telegram" (bot_response_for uid chat a0) H)
     |exact (accounts_reply _ _ _ _ LOG_ERROR "telegram" (error_for uid chat e) H)]).
Qed.

(** X17. Whatever the backend and the parser do, one
    [generate_response] request with its three required fields makes at
    least one and at most two API requests: the first request, then either
    nothing more and no JSON failure, or exactly one JSON failure (counter
    and event together) followed by the fallback request if and only if
    fallback and JSON mode are both on; the generation counter grows by at
    most the number of requests made. *)
Theorem turn_request_budget m a uid chat text :
  message_type m = GENERATE_RESPONSE ->
  p_user_id (payload m) = Some uid -> p_chat_id (payload m) = Some chat ->
  p_text (payload m) = Some text ->
  let a' := (handle_message cfg PROMPTS interval json_loads backend m a).2 in
  let include_prompt := default true (p_include_prompt (payload m)) in
  exists retry failures,
    api_calls (trace a')
    = api_calls (trace a) ++ first_request cfg PROMPTS text include_prompt :: retry
    /\ json_failures a' = json_failures a + Z.of_nat failures
    /\ count is_json_failure (trace a')
       = (count is_json_failure (trace a) + failures)%nat
    /\ generation_count a <= generation_count a'
       <= generation_count a + 1 + Z.of_nat (length retry)
    /\ ((failures = 0%nat /\ retry = [])
        \/ (failures = 1%nat
            /\ retry = if json_fallback_enabled cfg && use_json_mode cfg
                       then [fallback_request cfg PROMPTS text include_prompt]
                       else [])).
Proof.
  intros Hty Hu Hc Ht. cbv zeta.
  destruct (handle_message_accounts m a uid chat text Hty Hu Hc Ht)
    as (calls & failures & Hcases & Hcalls & Hfail & Hevents & Hcount).
  destruct Hcases as [[-> ->]|[-> ->]].
  - exists [], 0%nat. cbn [length] in Hcount.
    repeat split; try assumption; try lia. left. split; reflexivity.
  - eexists _, 1%nat. cbn [length] in Hcount.
    split; [exact Hcalls|]. repeat split; try assumption; try lia.
    right. split; reflexivity.
Qed.

(** Any message: the counters move with the trace. *)
Lemma handle_message_ledger m a :
  ledger_balanced a ->
  ledger_balanced (handle_message cfg PROMPTS interval json_loads backend m a).2.
Proof.
  intros [Hj Hg].
  destruct (decide (message_type m = GENERATE_RESPONSE)) as [Hty|Hty].
  - destruct (p_user_id (payload m)) as [uid|] eqn:Hu.
    2:{ unfold handle_message. rewrite Hty, Hu. split; assumption. }
    destruct (p_chat_id (payload m)) as [chat|] eqn:Hc.
    2:{ unfold handle_message. rewrite Hty, Hu, Hc. split; assumption. }
    destruct (p_text (payload m)) as [text|] eqn:Ht.
    2:{ unfold handle_message. rewrite Hty, Hu, Hc, Ht. split; assumption. }
    destruct (handle_message_accounts m a uid chat text Hty Hu Hc Ht)
      as (calls & failures & _ & H1 & H2 & H3 & H4).
    unfold ledger_balanced. rewrite !count_api_calls in *.
    rewrite H1, H2, H3, length_app.
    lia.
  - unfold handle_message. rewrite bool_decide_eq_false_2 by exact Hty.
    split; assumption.
Qed.

(** X18. In every state the actor reaches from its initial state, whatever
    messages it handles: the JSON-failure counter equals the number of
    [JSONModeFailureEvent]s appended, and the generation counter lies
    between 0 and the number of API requests made. *)
Theorem ledger_always_balanced msgs attached :
  ledger_balanced
    (run cfg PROMPTS interval json_loads backend msgs (init attached)).
Proof.
  assert (H0 : ledger_balanced (init attached))
    by (split; vm_compute; intuition congruence).
  revert H0. generalize (init attached). intros a.
  revert a. induction msgs as [|m msgs IH]; intros a Ha; [exact Ha|].
  apply IH, handle_message_ledger, Ha.
Qed.

(** X19. A message of any type other than [generate_response] is ignored:
    the handler returns and the actor is unchanged. A [generate_response]
    without [user_id], [chat_id] or [text] raises [KeyError] before the
    [try], and the actor is unchanged too: no log line, no request, no
    message. *)
Theorem unprocessed_messages_change_nothing m a :
  (message_type m <> GENERATE_RESPONSE ->
     handle_message cfg PROMPTS interval json_loads backend m a = (Return tt, a))
  /\ (message_type m = GENERATE_RESPONSE ->
      p_user_id (payload m) = None \/ p_chat_id (payload m) = None
      \/ p_text (payload m) = None ->
      exists key,
        handle_message cfg PROMPTS interval json_loads backend m a
        = (Raise (Exn KeyError key), a)).
Proof.
  split.
  - intros Hty. unfold handle_message.
    rewrite bool_decide_eq_false_2 by exact Hty. reflexivity.
  - intros Hty Hmiss. unfold handle_message. rewrite Hty.
    rewrite bool_decide_eq_true_2 by reflexivity. cbn [negb].
    run_generation.
    destruct (p_user_id (payload m)); [|eexists; reflexivity].
    destruct (p_chat_id (payload m)); [|eexists; reflexivity].
    destruct (p_text (payload m)); [|eexists; reflexivity].
    destruct Hmiss as [H|[H|H]]; discriminate.
Qed.

(** X20. With [include_prompt = False] every API request of the turn, the
    fallback included, carries the user's text alone, with no system
    message. *)
Theorem no_prompt_means_user_text_only m a uid chat text :
  message_type m = GENERATE_RESPONSE ->
  p_user_id (payload m) = Some uid -> p_chat_id (payload m) = Some chat ->
  p_text (payload m) = Some text ->
  p_include_prompt (payload m) = Some false ->
  exists later,
    api_calls (trace (handle_message cfg PROMPTS interval json_loads backend m a).2)
    = api_calls (trace a)
      ++ {| req_messages := [ {| role := "user"; content := text |} ];
            req_json_object := use_json_mode cfg |} :: later
    /\ Forall (fun r => req_messages r = [ {| role := "user"; content := text |} ]
                        /\ req_json_object r = false) later.
Proof.
  intros Hty Hu Hc Ht Hinc.
  destruct (handle_message_accounts m a uid chat text Hty Hu Hc Ht)
    as (calls & failures & Hcases & H1 & _).
  rewrite Hinc in *. cbn [default from_option] in *.
  destruct Hcases as [[-> _]|[-> _]].
  - exists []. split; [exact H1|constructor].
  - eexists. split; [exact H1|].
    destruct (_ && _); repeat constructor.
Qed.

End Budget.

(** ** The statements at the sample inputs *)

Section GenerationSamples.
Import Samples.

Ltac sample_hyps := try reflexivity; try discriminate; try (cbn; lia).

Lemma plain_mode_returns_text_unparsed_witness :
  exists a',
    handle_message (sample_config false false) sample_PROMPTS 10 sample_json_loads
      (backend_says text_with_response) (generate_request None) (init true)
    = (Return tt, a')
    /\ sent (trace a')
       = [("telegram", bot_response_for "u1" (PInt 7) (PStr text_with_response))]
    /\ api_calls (trace a')
       = [ {| req_messages := prompted_context "prompt:base:normal" (PStr "hello");
              req_json_object := false |} ]
    /\ events_of (trace a') = [metric_event 30 70]
    /\ json_failures a' = 0.
Proof.
  apply (plain_mode_returns_text_unparsed (sample_config false false) sample_PROMPTS 10
           sample_json_loads (backend_says text_with_response)
           (generate_request None) (init true) "u1" (PInt 7) (PStr "hello")
           (one_chunk text_with_response 30 70)); sample_hyps.
Defined.

Lemma json_response_field_is_the_text_witness :
  exists a',
    handle_message (sample_config true true) sample_PROMPTS 10 sample_json_loads
      (backend_says text_with_response) (generate_request None) (init true)
    = (Return tt, a')
    /\ sent (trace a') = [("telegram", bot_response_for "u1" (PInt 7) (PStr "hi"))]
    /\ api_calls (trace a')
       = [ {| req_messages := prompted_context "prompt:base:json" (PStr "hello");
              req_json_object := true |} ]
    /\ events_of (trace a') = [metric_event 30 70]
    /\ json_failures a' = 0.
Proof.
  apply (json_response_field_is_the_text (sample_config true true) sample_PROMPTS 10
           sample_json_loads (backend_says text_with_response)
           (generate_request None) (init true) "u1" (PInt 7) (PStr "hello")
           (one_chunk text_with_response 30 70)
           (PDict [("response", PStr "hi")]) "hi"); sample_hyps.
Defined.

Lemma json_response_not_sliceable_is_an_error_witness :
  exists a',
    handle_message (sample_config true true) sample_PROMPTS 10 number_json_loads
      (backend_says text_with_number) (generate_request None) (init true)
    = (Return tt, a')
    /\ sent (trace a')
       = [("telegram",
           error_for "u1" (PInt 7)
             (Exn TypeError "'int' object is not subscriptable"))]
    /\ exn_cls (Exn TypeError "'int' object is not subscriptable") = TypeError
    /\ generation_count a' = 1
    /\ events_of (trace a') = [metric_event 30 70]
    /\ json_failures a' = 0.
Proof.
  apply (json_response_not_sliceable_is_an_error (sample_config true true)
           sample_PROMPTS 10 number_json_loads (backend_says text_with_number)
           (generate_request None) (init true) "u1" (PInt 7) (PStr "hello")
           (one_chunk text_with_number 30 70)
           (PDict [("response", PInt 5)]) (PInt 5)
           (Exn TypeError "'int' object is not subscriptable")); sample_hyps.
Defined.

Lemma malformed_json_without_fallback_returns_raw_text_witness :
  exists a',
    handle_message (sample_config true false) sample_PROMPTS 10 sample_json_loads
      (backend_says "not json") (generate_request None) (init true)
    = (Return tt, a')
    /\ sent (trace a')
       = [("telegram", bot_response_for "u1" (PInt 7) (PStr "not json"))]
    /\ api_calls (trace a')
       = [ {| req_messages := prompted_context "prompt:base:json" (PStr "hello");
              req_json_object := true |} ]
    /\ events_of (trace a')
       = [metric_event 30 70;
          json_failure_event "u1" "Expecting value: line 1 column 1 (char 0)"]
    /\ json_failures a' = 1.
Proof.
  apply (malformed_json_without_fallback_returns_raw_text (sample_config true false)
           sample_PROMPTS 10 sample_json_loads (backend_says "not json")
           (generate_request None) (init true) "u1" (PInt 7) (PStr "hello")
           (one_chunk "not json" 30 70)
           "Expecting value: line 1 column 1 (char 0)"); sample_hyps.
Defined.

Lemma backend_failure_becomes_error_message_witness :
  exists a',
    handle_message (sample_config true true) sample_PROMPTS 10 sample_json_loads
      backend_down (generate_request None) (init true)
    = (Return tt, a')
    /\ sent (trace a')
       = [("telegram",
           error_for "u1" (PInt 7)
             (Exn CircuitBreakerError "Circuit breaker 'deepseek_api' is OPEN"))]
    /\ api_calls (trace a')
       = [ {| req_messages := prompted_context "prompt:base:json" (PStr "hello");
              req_json_object := true |} ]
    /\ events_of (trace a') = []
    /\ generation_count a' = 0
    /\ json_failures a' = 0.
Proof.
  apply (backend_failure_becomes_error_message (sample_config true true)
           sample_PROMPTS 10 sample_json_loads backend_down
           (generate_request None) (init true) "u1" (PInt 7) (PStr "hello")
           (Exn CircuitBreakerError "Circuit breaker 'deepseek_api' is OPEN"));
    sample_hyps.
Defined.

Lemma backend_json_error_without_fallback_is_unbound_local_witness :
  exists a' e',
    handle_message (sample_config true false) sample_PROMPTS 10 sample_json_loads
      backend_garbled (generate_request None) (init true)
    = (Return tt, a')
    /\ sent (trace a') = [("telegram", error_for "u1" (PInt 7) e')]
    /\ exn_cls e' = UnboundLocalError
    /\ events_of (trace a')
       = [json_failure_event "u1" "Expecting value: line 1 column 1 (char 0)"]
    /\ json_failures a' = 1.
Proof.
  apply (backend_json_error_without_fallback_is_unbound_local
           (sample_config true false) sample_PROMPTS 10 sample_json_loads
           backend_garbled (generate_request None) (init true) "u1" (PInt 7)
           (PStr "hello")
           (Exn JSONDecodeError "Expecting value: line 1 column 1 (char 0)"));
    sample_hyps.
Defined.

Lemma malformed_json_falls_back_once_witness :
  exists a',
    handle_message (sample_config true true) sample_PROMPTS 10 sample_json_loads
      (backend_says "not json") (generate_request None) (init true)
    = (Return tt, a')
    /\ sent (trace a')
       = [("telegram", bot_response_for "u1" (PInt 7) (PStr "plain hello"))]
    /\ api_calls (trace a')
       = [ {| req_messages := prompted_context "prompt:base:json" (PStr "hello");
              req_json_object := true |};
           {| req_messages := prompted_context "prompt:base:normal" (PStr "hello");
              req_json_object := false |} ]
    /\ events_of (trace a')
       = [metric_event 30 70;
          json_failure_event "u1" "Expecting value: line 1 column 1 (char 0)"]
    /\ json_failures a' = 1
    /\ generation_count a' = 2
    /\ exists before after,
         trace a'
         = before
           ++ [AppendEvent
                 (json_failure_event "u1" "Expecting value: line 1 column 1 (char 0)");
               Log WARNING;
               ApiCall
                 {| req_messages := prompted_context "prompt:base:normal" (PStr "hello");
                    req_json_object := false |}]
           ++ after.
Proof.
  apply (malformed_json_falls_back_once (sample_config true true) sample_PROMPTS 10
           sample_json_loads (backend_says "not json")
           (generate_request None) (init true) "u1" (PInt 7) (PStr "hello")
           (one_chunk "not json" 30 70)
           "Expecting value: line 1 column 1 (char 0)"
           (one_chunk "plain hello" 0 0)); sample_hyps.
Defined.

Lemma failed_fallback_is_an_error_message_witness :
  exists a',
    handle_message (sample_config true true) sample_PROMPTS 10 sample_json_loads
      (backend_fails_on_retry "not json") (generate_request None) (init true)
    = (Return tt, a')
    /\ sent (trace a')
       = [("telegram", error_for "u1" (PInt 7) (Exn APIError "Connection error."))]
    /\ length (api_calls (trace a')) = 2%nat
    /\ events_of (trace a')
       = [metric_event 30 70;
          json_failure_event "u1" "Expecting value: line 1 column 1 (char 0)"]
    /\ json_failures a' = 1.
Proof.
  apply (failed_fallback_is_an_error_message (sample_config true true) sample_PROMPTS 10
           sample_json_loads (backend_fails_on_retry "not json")
           (generate_request None) (init true) "u1" (PInt 7) (PStr "hello")
           (one_chunk "not json" 30 70)
           "Expecting value: line 1 column 1 (char 0)"
           (Exn APIError "Connection error.")); sample_hyps.
Defined.

Lemma turn_request_budget_witness :
  exists retry failures,
    api_calls (trace
      (handle_message (sample_config true true) sample_PROMPTS 10 sample_json_loads
         (backend_says "not json") (generate_request None) (init true)).2)
    = {| req_messages := prompted_context "prompt:base:json" (PStr "hello");
         req_json_object := true |} :: retry
    /\ json_failures
         (handle_message (sample_config true true) sample_PROMPTS 10 sample_json_loads
            (backend_says "not json") (generate_request None) (init true)).2
       = Z.of_nat failures
    /\ count is_json_failure (trace
         (handle_message (sample_config true true) sample_PROMPTS 10 sample_json_loads
            (backend_says "not json") (generate_request None) (init true)).2)
       = failures
    /\ 0 <= generation_count
              (handle_message (sample_config true true) sample_PROMPTS 10
                 sample_json_loads (backend_says "not json") (generate_request None)
                 (init true)).2
       <= 1 + Z.of_nat (length retry)
    /\ ((failures = 0%nat /\ retry = [])
        \/ (failures = 1%nat
            /\ retry = [ {| req_messages :=
                              prompted_context "prompt:base:normal" (PStr "hello");
                            req_json_object := false |} ])).
Proof.
  apply (turn_request_budget (sample_config true true) sample_PROMPTS 10
           sample_json_loads (backend_says "not json")
           (generate_request None) (init true) "u1" (PInt 7) (PStr "hello"));
    reflexivity.
Defined.

Lemma no_prompt_means_user_text_only_witness :
  exists later,
    api_calls (trace
      (handle_message (sample_config true true) sample_PROMPTS 10 sample_json_loads
         (backend_says "not json") (generate_request (Some false)) (init true)).2)
    = {| req_messages := [ {| role := "user"; content := PStr "hello" |} ];
         req_json_object := true |} :: later
    /\ Forall (fun r => req_messages r = [ {| role := "user"; content := PStr "hello" |} ]
                        /\ req_json_object r = false) later.
Proof.
  apply (no_prompt_means_user_text_only (sample_config true true) sample_PROMPTS 10
           sample_json_loads (backend_says "not json")
           (generate_request (Some false)) (init true) "u1" (PInt 7) (PStr "hello"));
    reflexivity.
Defined.

End GenerationSamples.

End GenerationMore.

(** * Event serialization and the message-type table *)

Module SerializationFacts.
Import EventSerialization.

Section Format.
Variable datetime : Type.
Variable strftime : datetime -> string.
Variable strptime : string -> outcome datetime.

(** X21. [from_dict (to_dict e)] gives back [e] with its timestamp
    replaced by the parse of its formatted timestamp, and raises what
    [strptime] raises when the formatted timestamp does not parse: every
    other field, the event id and the correlation id included, survives the
    round trip. *)
Theorem from_dict_to_dict (e : Event datetime) :
  from_dict datetime strptime (to_dict datetime strftime e)
  = match strptime (strftime (timestamp datetime e)) with
    | Return ts => Return (with_timestamp datetime ts e)
    | Raise x => Raise x
    end.
Proof.
  unfold from_dict, to_dict, and_then, item. cbn.
  destruct (strptime _) as [ts|x]; [|reflexivity].
  destruct e as [eid t [sid ety dat ver cid]]. reflexivity.
Qed.

(** X22. [from_dict] returns an event exactly when the dict has the keys
    [timestamp], [event_id], [stream_id], [event_type], [data] and
    [version] and the timestamp parses; [correlation_id] is not required. *)
Theorem from_dict_needs_six_keys (d : EventDict) :
  (exists e, from_dict datetime strptime d = Return e)
  <-> (exists s ts, d_timestamp d = Some s /\ strptime s = Return ts)
      /\ is_Some (d_event_id d) /\ is_Some (d_stream_id d)
      /\ is_Some (d_event_type d) /\ is_Some (d_data d) /\ is_Some (d_version d).
Proof.
  unfold from_dict, and_then, item. split.
  - intros [e He].
    destruct (d_timestamp d) as [s|]; [|discriminate].
    destruct (strptime s) as [ts|x] eqn:Hs; [|discriminate].
    destruct (d_event_id d); [|discriminate].
    destruct (d_stream_id d); [|discriminate].
    destruct (d_event_type d); [|discriminate].
    destruct (d_data d); [|discriminate].
    destruct (d_version d); [|discriminate].
    repeat split; eauto.
  - intros ((s & ts & Hs & Hts) & [? H1] & [? H2] & [? H3] & [? H4] & [? H5]).
    rewrite Hs, Hts, H1, H2, H3, H4, H5. eexists. reflexivity.
Qed.

End Format.
End SerializationFacts.

Module MessageTableFacts.
Import MessageTable.

(** X23. [MESSAGE_TYPES] maps the name of every member of [MessageType]
    to that member and has no other key; no two members share a value. *)
Theorem message_types_table :
  (forall t, MESSAGE_TYPES_get (name t) = Some t)
  /\ (forall key t, MESSAGE_TYPES_get key = Some t -> key = name t)
  /\ (forall t1 t2, value t1 = value t2 -> t1 = t2).
Proof.
  split; [|split].
  - intros t. destruct t; reflexivity.
  - intros key t. unfold MESSAGE_TYPES_get, MESSAGE_TYPES. cbn [foldl fst snd].
    repeat (match goal with
            | |- context [String.eqb key ?s] =>
              destruct (String.eqb_spec key s) as [->|?];
              [intros [= <-]; reflexivity|]
            end).
    discriminate.
  - intros t1 t2. destruct t1, t2; cbn; intros H; try reflexivity; discriminate H.
Qed.

End MessageTableFacts.
